(** * RAGChatbot: the vector-store synchroniser and the chat orchestrator

    A shallow embedding of [VectorStore.py] and [ChatBot.py].  The Python
    code is a sequence of calls into an object store (boto3), the local file
    system and the Chroma / LangChain libraries, glued together by retry
    loops.  The embedding keeps that shape:

    - the process state ([World]) holds the three module globals set by
      [initS3Storage], the bucket, the two local folders, and the
      interpreter's remaining recursion depth;
    - every call to the object store is an event; an oracle in the world
      decides, per call number and per operation, whether the call raises;
    - functions live in a state-and-exception monad that also collects the
      events (remote calls and [sleep]s) a run produces;
    - what the libraries and the shell do is supplied by a [Libraries]
      record: the document parsers and the Chroma constructor can raise,
      and a command line handed to [os.system] is run by the shell as it
      reads it, not as the source means it.

    [debug] output is gated by a flag and never read back; it is left out,
    except for the point where [__upload_file] reports that it gave up,
    which is kept as an event.  A product id names one folder below
    [./vectorStore] wherever Python builds the path; the two shell
    commands splice the id into a command line without quoting, and are
    exact only for an id the shell reads as one plain word.  Paths are
    kept relative to the working directory, and a listing of the bucket
    returns every matching key (an index is far smaller than one page of
    a listing). *)

From Stdlib Require Import ZArith Ascii String List Bool Lia.
From stdpp Require Import base option list gmap strings fin_maps.

Open Scope string_scope.
Open Scope list_scope.

(** ** Python strings *)

Module Py.

(** [s.startswith(p)] *)
Definition startswith (s p : string) : bool := String.prefix p s.

Fixpoint split_from (sep : ascii) (cur s : string) : list string :=
  match s with
  | EmptyString => [cur]
  | String c s' =>
      if Ascii.eqb c sep then cur :: split_from sep "" s'
      else split_from sep (cur +:+ String c "") s'
  end.

(** [s.split(sep)] for a one-character separator *)
Definition split (sep : ascii) (s : string) : list string := split_from sep "" s.

(** ["/".join(l)] *)
Definition join (sep : string) (l : list string) : string := String.concat sep l.

(** [l[-1]] on a non-empty list (the lists below come from [split]) *)
Definition last_item (l : list string) : string := List.last l "".

(** [l[2:-1]] *)
Definition slice_2_m1 (l : list string) : list string := removelast (skipn 2 l).

(** [s.rfind(c)]: index of the last occurrence, or -1 *)
Fixpoint rfind_from (c : ascii) (s : string) (i : Z) (found : Z) : Z :=
  match s with
  | EmptyString => found
  | String a s' => rfind_from c s' (i + 1) (if Ascii.eqb a c then i else found)
  end.

Definition rfind (c : ascii) (s : string) : Z := rfind_from c s 0 (-1).

(** [s[i:j]] for [0 <= i] *)
Definition slice (s : string) (i j : Z) : string :=
  String.substring (Z.to_nat i) (Z.to_nat (j - i)) s.

Definition slice_from (s : string) (i : Z) : string :=
  String.substring (Z.to_nat i) (String.length s - Z.to_nat i) s.

Fixpoint all_dots (s : string) : bool :=
  match s with
  | EmptyString => true
  | String a s' => Ascii.eqb a "."%char && all_dots s'
  end.

(** [os.path.splitext(p)[1]]: the text from the last dot of the last path
    component, unless only dots precede it in that component. *)
Definition splitext_ext (p : string) : string :=
  let sepIndex := rfind "/"%char p in
  let dotIndex := rfind "."%char p in
  if (sepIndex <? dotIndex)%Z then
    if all_dots (slice p (sepIndex + 1) dotIndex) then "" else slice_from p dotIndex
  else "".

End Py.

(** ** Data *)

(** A file-system node below [./vectorStore/{id}]. *)
#[warnings="-register-all"]
Inductive node :=
| File (data : string)
| Dir (entries : list (string * node)).

Definition dir := list (string * node).

(** [langchain_core.documents.Document] *)
Record Document := mkDocument {
  page_content : string;
  metadata : list (string * string)
}.

(** A Chroma handle: the directory it persists to. *)
Record Chroma := mkChroma { persist_directory : string }.

(** Calls to the object store. *)
Inductive remote_op :=
| ListObjects (prefix : string)
| DeleteObjects (keys : list string)
| DownloadFile (key : string) (dest : string)
| UploadFile (src : string) (key : string).

Definition is_upload (op : remote_op) : bool :=
  match op with UploadFile _ _ => true | _ => false end.

Inductive event :=
| Call (op : remote_op) (ok : bool)
| Sleep (seconds : nat)
| UploadGaveUp (id file_name father : string).
    (* [__upload_file(id, file_name, father)] ran out of attempts *)

(** The exceptions the modelled code can meet. *)
Inductive exn :=
| S3NotInitialized      (* raised by [__checkS3init] *)
| PoolNotFound (id : string)   (* raised by [__load_document] *)
| LoaderError (path : string)  (* any exception out of [loader.load()] *)
| UnicodeDecodeError (path : string) (* out of [f.read()] on a text file *)
| RemoteError (op : remote_op) (* any exception out of a boto3 call *)
| FileNotFoundError (path : string)
| IsADirectoryError (path : string)
| RecursionError
| AttributeError (name : string)
| TypeError (msg : string)
| KeyError (key : string)
| VectorStoreNotLoaded. (* raised by [ChatBot.__init__] *)

Inductive outcome (A : Type) :=
| Ok (a : A)
| Raise (e : exn).
Arguments Ok {A} a.
Arguments Raise {A} e.

(** The process and its surroundings. *)
Record World := mkWorld {
  __bucket : option string;       (* boto3 Bucket resource *)
  __S3 : option unit;             (* boto3 client *)
  __bucket_name : option string;
  remote : gmap string string;    (* the bucket: key -> object *)
  vectorStore : gmap string dir;  (* ./vectorStore/{id} *)
  productKnowledgePool : gmap string (list (string * string));
                                  (* ./productKnowledgePool/{id}: name, text *)
  faults : nat -> remote_op -> bool;  (* does remote call number n raise? *)
  calls : nat;                    (* remote calls made so far *)
  recursion_left : nat            (* nested calls the interpreter still allows *)
}.

Definition set_globals (b : option string) (c : option unit) (n : option string)
    (w : World) : World :=
  mkWorld b c n (remote w) (vectorStore w) (productKnowledgePool w)
          (faults w) (calls w) (recursion_left w).

Definition set_remote (r : gmap string string) (w : World) : World :=
  mkWorld (__bucket w) (__S3 w) (__bucket_name w) r (vectorStore w)
          (productKnowledgePool w) (faults w) (calls w) (recursion_left w).

Definition set_vectorStore (v : gmap string dir) (w : World) : World :=
  mkWorld (__bucket w) (__S3 w) (__bucket_name w) (remote w) v
          (productKnowledgePool w) (faults w) (calls w) (recursion_left w).

Definition set_productKnowledgePool (p : gmap string (list (string * string)))
    (w : World) : World :=
  mkWorld (__bucket w) (__S3 w) (__bucket_name w) (remote w) (vectorStore w)
          p (faults w) (calls w) (recursion_left w).

Definition tick (w : World) : World :=
  mkWorld (__bucket w) (__S3 w) (__bucket_name w) (remote w) (vectorStore w)
          (productKnowledgePool w) (faults w) (S (calls w)) (recursion_left w).

Definition set_recursion_left (n : nat) (w : World) : World :=
  mkWorld (__bucket w) (__S3 w) (__bucket_name w) (remote w) (vectorStore w)
          (productKnowledgePool w) (faults w) (calls w) n.

(** ** The monad: state, exceptions, and an event log *)

Record Run (A : Type) := mkRun {
  result : outcome A;
  final : World;
  events : list event
}.
Arguments mkRun {A} result final events.
Arguments result {A} r.
Arguments final {A} r.
Arguments events {A} r.

Definition M (A : Type) : Type := World -> Run A.

Definition ret {A} (a : A) : M A := fun w => mkRun (Ok a) w [].

Definition raise {A} (e : exn) : M A := fun w => mkRun (Raise e) w [].

Definition bind {A B} (m : M A) (k : A -> M B) : M B := fun w =>
  let r := m w in
  match result r with
  | Ok a => let r' := k a (final r) in
            mkRun (result r') (final r') (events r ++ events r')
  | Raise e => mkRun (Raise e) (final r) (events r)
  end.

(** [try: m  except Exception as e: h e] *)
Definition try_except {A} (m : M A) (h : exn -> M A) : M A := fun w =>
  let r := m w in
  match result r with
  | Ok a => r
  | Raise e => let r' := h e (final r) in
               mkRun (result r') (final r') (events r ++ events r')
  end.

Definition get {A} (f : World -> A) : M A := fun w => mkRun (Ok (f w)) w [].

Definition modify (f : World -> World) : M unit := fun w => mkRun (Ok tt) (f w) [].

Definition emit (e : event) : M unit := fun w => mkRun (Ok tt) w [e].

#[global] Instance M_ret : MRet M := @ret.
#[global] Instance M_bind : MBind M := fun A B k m => bind m k.

(** [time.sleep(n)] *)
Definition sleep (n : nat) : M unit := emit (Sleep n).

(** [for retry in range(n): try: return body  except Exception: sleep(3)],
    followed by [orelse] when every attempt raised. *)
Fixpoint for_retry {A} (n : nat) (body : M A) (orelse : M A) : M A :=
  match n with
  | 0 => orelse
  | S n' => try_except body (fun _ => sleep 3 ;; for_retry n' body orelse)
  end.

(** ** The local file system below [./vectorStore] *)

Module Fs.

Definition nonempty (s : string) : bool := negb (String.eqb s "").

(** The components of a relative path; empty components do not count. *)
Definition segments (p : string) : list string :=
  List.filter nonempty (Py.split "/"%char p).

Fixpoint assoc (k : string) (es : dir) : option node :=
  match es with
  | [] => None
  | (k', n) :: es' => if String.eqb k k' then Some n else assoc k es'
  end.

Fixpoint put (k : string) (n : node) (es : dir) : dir :=
  match es with
  | [] => [(k, n)]
  | (k', n') :: es' =>
      if String.eqb k k' then (k, n) :: es' else (k', n') :: put k n es'
  end.

Fixpoint walk (segs : list string) (n : node) : option node :=
  match segs with
  | [] => Some n
  | s :: rest =>
      match n with
      | File _ => None
      | Dir es => match assoc s es with
                  | Some n' => walk rest n'
                  | None => None
                  end
      end
  end.

(** [mkdir -p]: create the missing directories along [segs]; a file in
    the way makes the command fail, which [os.system] does not report. *)
Fixpoint mkdir_p (segs : list string) (es : dir) : dir :=
  match segs with
  | [] => es
  | s :: rest =>
      match assoc s es with
      | Some (Dir sub) => put s (Dir (mkdir_p rest sub)) es
      | Some (File _) => es
      | None => put s (Dir (mkdir_p rest [])) es
      end
  end.

(** Write a file at [segs]; [None] when the parent is missing or the
    target is a directory. *)
Fixpoint write (segs : list string) (data : string) (es : dir) : option dir :=
  match segs with
  | [] => None
  | [name] =>
      match assoc name es with
      | Some (Dir _) => None
      | _ => Some (put name (File data) es)
      end
  | s :: rest =>
      match assoc s es with
      | Some (Dir sub) =>
          match write rest data sub with
          | Some sub' => Some (put s (Dir sub') es)
          | None => None
          end
      | _ => None
      end
  end.

(** The node at [./vectorStore/{id}/{rel}] *)
Definition node_at (id rel : string) (w : World) : option node :=
  match vectorStore w !! id with
  | Some d => walk (segments rel) (Dir d)
  | None => None
  end.

(** The display form of a path below the store of [id] *)
Definition local_path (id rel : string) : string :=
  if nonempty rel then "./vectorStore/" +:+ id +:+ "/" +:+ rel
  else "./vectorStore/" +:+ id.

End Fs.

(** [os.path.exists] *)
Definition os_path_exists (id rel : string) : M bool :=
  get (fun w => match Fs.node_at id rel w with Some _ => true | None => false end).

(** [os.path.isdir] *)
Definition os_path_isdir (id rel : string) : M bool :=
  get (fun w => match Fs.node_at id rel w with Some (Dir _) => true | _ => false end).

(** [os.listdir]; a directory has no entry with an empty name *)
Definition os_listdir (id rel : string) : M (list string) := fun w =>
  match Fs.node_at id rel w with
  | Some (Dir es) => mkRun (Ok (List.filter Fs.nonempty (map fst es))) w []
  | _ => mkRun (Raise (FileNotFoundError (Fs.local_path id rel))) w []
  end.

(** [os.path.join] on paths relative to the store of the id *)
Definition os_path_join (rel name : string) : string :=
  if Fs.nonempty rel then rel +:+ "/" +:+ name else name.

(** ** The object store *)

(** One call to the store.  The oracle is asked with the number of the
    call; a call that raises leaves the bucket as it was. *)
Definition remote_call (op : remote_op) (effect : World -> World) : M unit :=
  fun w =>
    if faults w (calls w) op
    then mkRun (Raise (RemoteError op)) (tick w) [Call op false]
    else mkRun (Ok tt) (effect (tick w)) [Call op true].

(** The keys of the bucket that start with [pfx]. *)
Definition keys_with_prefix (pfx : string) (r : gmap string string) : list string :=
  (map_to_list (filter (fun kv => Py.startswith kv.1 pfx = true) r)).*1.

(** [__S3.list_objects(Bucket=__bucket_name, Prefix=pfx)]: the keys of
    ["Contents"]; the empty list stands for a reply without ["Contents"]. *)
Definition list_objects (pfx : string) : M (list string) :=
  remote_call (ListObjects pfx) (fun w => w) ;;
  get (fun w => keys_with_prefix pfx (remote w)).

(** [__bucket.delete_objects(Delete={"Objects": keys})] *)
Definition delete_objects (keys : list string) : M unit :=
  remote_call (DeleteObjects keys)
    (fun w => set_remote (foldr delete (remote w) keys) w).

(** [__bucket.download_file(key, ./vectorStore/{id}/{rel})] *)
Definition download_file (key id rel : string) : M unit := fun w =>
  let op := DownloadFile key (Fs.local_path id rel) in
  match remote w !! key, vectorStore w !! id with
  | Some data, Some d =>
      match Fs.write (Fs.segments rel) data d with
      | Some d' =>
          remote_call op (set_vectorStore (<[id := d']> (vectorStore w))) w
      | None => mkRun (Raise (IsADirectoryError (Fs.local_path id rel))) w
                      [Call op false]
      end
  | _, _ => mkRun (Raise (RemoteError op)) (tick w) [Call op false]
  end.

(** [__bucket.upload_file(./vectorStore/{id}/{rel}, key)]: the local file
    is read first; when it is missing the call raises without reaching
    the store. *)
Definition upload_file (id rel key : string) : M unit := fun w =>
  let op := UploadFile (Fs.local_path id rel) key in
  match Fs.node_at id rel w with
  | Some (File data) =>
      remote_call op (fun w' => set_remote (<[key := data]> (remote w')) w') w
  | _ => mkRun (Raise (FileNotFoundError (Fs.local_path id rel))) w
               [Call op false]
  end.

(** ** External libraries *)

(** The two local folders: [./vectorStore] and [./productKnowledgePool]. *)
Definition Disk : Type :=
  gmap string dir * gmap string (list (string * string)).

(** What the code asks of Chroma, the document loaders, the text splitter
    and the shell. *)
Record Libraries := mkLibraries {
  (* Chroma(persist_directory=path, embedding_function=OpenAIEmbeddings()):
     whether it returns rather than raises, and the directory it leaves
     (the constructor creates and migrates its files) *)
  Chroma_open : string -> dir -> bool * dir;
  (* clear_system_cache() and Chroma.delete_collection(store), as a change
     of the persisted directory *)
  Chroma_delete_collection : dir -> dir;
  (* loader.load() by loader, from the file's path and content; [None]
     when it raises (a damaged file) *)
  Docx2txtLoader_load : string -> string -> option (list Document);
  UnstructuredExcelLoader_load : string -> string -> option (list Document);
  PyPDFLoader_load : string -> string -> option (list Document);
  (* open(path, "r").read(): the text of the file, [None] when its bytes
     do not decode *)
  read_text : string -> string -> option string;
  (* RecursiveCharacterTextSplitter(chunk_size=1000, chunk_overlap=200,
     add_start_index=True).split_documents *)
  split_documents : list Document -> list Document;
  filter_complex_metadata : list Document -> list Document;
  (* Chroma.from_documents(..., persist_directory=path): the directory it
     leaves, given the one it found *)
  Chroma_from_documents : list Document -> option dir -> dir;
  (* what /bin/sh makes of a command line, as far as the two local
     folders go *)
  sh : string -> Disk -> Disk
}.

(** ** The shell *)

(** Characters the shell takes literally wherever they stand in a word. *)
Definition shell_literal (c : ascii) : bool :=
  let n := nat_of_ascii c in
  ((48 <=? n)%nat && (n <=? 57)%nat) || ((65 <=? n)%nat && (n <=? 90)%nat) ||
  ((97 <=? n)%nat && (n <=? 122)%nat) ||
  Ascii.eqb c "_"%char || Ascii.eqb c "-"%char || Ascii.eqb c "."%char.

Fixpoint all_literal (s : string) : bool :=
  match s with
  | EmptyString => true
  | String c s' => shell_literal c && all_literal s'
  end.

(** A name the shell passes on as one word, unchanged, and that names an
    entry of a directory: not empty, neither [.] nor [..], no separator,
    blank or other character with a meaning to the shell. *)
Definition shell_word (s : string) : bool :=
  Fs.nonempty s && all_literal s &&
  negb (String.eqb s ".") && negb (String.eqb s "..").

(** A relative path of such names. *)
Definition shell_path (p : string) : bool :=
  forallb (fun s => negb (Fs.nonempty s) || shell_word s) (Py.split "/"%char p).

(** [os.system(cmd)]: the shell runs [cmd]; the exit status is dropped by
    both callers. *)
Definition os_system (lib : Libraries) (cmd : string) : M unit :=
  modify (fun w =>
    let after := sh lib cmd (vectorStore w, productKnowledgePool w) in
    set_productKnowledgePool after.2 (set_vectorStore after.1 w)).

(** [os.system(f"mkdir -p ./vectorStore/{id}/{rel}")], and
    [os.system(f"mkdir -p ./vectorStore/{id}")] when [rel] is empty.  When
    the id is one plain word and [rel] a path of such, the command creates
    that folder; any other command line is the shell's to read. *)
Definition mkdir_p (lib : Libraries) (id rel : string) : M unit :=
  if shell_word id && shell_path rel then
    modify (fun w =>
      let d := default [] (vectorStore w !! id) in
      set_vectorStore (<[id := Fs.mkdir_p (Fs.segments rel) d]> (vectorStore w)) w)
  else
    os_system lib
      (if Fs.nonempty rel then "mkdir -p ./vectorStore/" +:+ id +:+ "/" +:+ rel
       else "mkdir -p ./vectorStore/" +:+ id).

(** [os.system(f"rm -rf ./vectorStore/{id}")]: removes the folder of [id]
    when the id is one plain word; any other command line is the shell's
    to read. *)
Definition rm_rf (lib : Libraries) (id : string) : M unit :=
  if shell_word id then
    modify (fun w => set_vectorStore (delete id (vectorStore w)) w)
  else os_system lib ("rm -rf ./vectorStore/" +:+ id).

(** ** VectorStore.py *)

Module VectorStore.

Section WithLibraries.

Variable lib : Libraries.

(** [initS3Storage(bucket_name)] *)
Definition initS3Storage (bucket_name : string) : M unit :=
  modify (set_globals (Some bucket_name) (Some tt) (Some bucket_name)).

(** [__checkS3init()] *)
Definition __checkS3init : M unit :=
  b ← get __bucket;
  c ← get __S3;
  match b, c with
  | Some _, Some _ => ret tt
  | _, _ => raise S3NotInitialized
  end.

Definition prefix_of (id : string) : string := "vectorstores/" +:+ id.

(** [checkS3VectorStoreFor(id)] *)
Definition checkS3VectorStoreFor (id : string) : M bool :=
  __checkS3init ;;
  for_retry 3
    (res ← list_objects (prefix_of id);
     match res with
     | [] => ret false
     | _ => ret true
     end)
    (ret false).

(** The loop of [deleteS3VectorstoreFor]: the key list grows by one key
    per round and the whole list is sent each time. *)
Fixpoint delete_each (keys : list string) (contents : list string) : M unit :=
  match contents with
  | [] => ret tt
  | key :: rest =>
      let keys := keys ++ [key] in
      delete_objects keys ;;
      delete_each keys rest
  end.

(** [deleteS3VectorstoreFor(id)] *)
Definition deleteS3VectorstoreFor (id : string) : M bool :=
  __checkS3init ;;
  for_retry 3
    (res ← list_objects (prefix_of id);
     match res with
     | [] => ret true
     | _ => delete_each [] res ;; ret true
     end)
    (ret false).

(** [__getLocalVectorStoreFor(id)] *)
Definition __getLocalVectorStoreFor (id : string) : M (option Chroma) :=
  d ← get (fun w => vectorStore w !! id);
  match d with
  | None => ret None
  | Some d =>
      let opened := Chroma_open lib (Fs.local_path id "") d in
      modify (fun w => set_vectorStore (<[id := opened.2]> (vectorStore w)) w) ;;
      if opened.1
      then ret (Some (mkChroma (Fs.local_path id "")))
      else ret None
  end.

(** [deleteLocalVectorStore(id)] *)
Definition deleteLocalVectorStore (id : string) : M bool :=
  vs ← __getLocalVectorStoreFor id;
  match vs with
  | Some _ =>
      modify (fun w =>
        set_vectorStore (alter (Chroma_delete_collection lib) id (vectorStore w)) w)
  | None => ret tt
  end ;;
  rm_rf lib id ;;
  ret true.

(** The loop of [__downloadS3VectorstoreFor] over the listed keys. *)
Fixpoint download_each (id : string) (contents : list string) : M unit :=
  match contents with
  | [] => ret tt
  | key :: rest =>
      let file_name := Py.last_item (Py.split "/"%char key) in
      let father := Py.join "/" (Py.slice_2_m1 (Py.split "/"%char key)) in
      (if Fs.nonempty father then mkdir_p lib id father else mkdir_p lib id "") ;;
      download_file key id (father +:+ "/" +:+ file_name) ;;
      download_each id rest
  end.

(** [__downloadS3VectorstoreFor(id)] *)
Definition __downloadS3VectorstoreFor (id : string) : M bool :=
  __checkS3init ;;
  deleteLocalVectorStore id ;;
  for_retry 3
    (res ← list_objects (prefix_of id);
     match res with
     | [] => ret false
     | _ => download_each id res ;; ret true
     end)
    (deleteLocalVectorStore id ;; ret false).

(** [getS3VectorStoreFor(id)] *)
Definition getS3VectorStoreFor (id : string) : M (option Chroma) :=
  ok ← __downloadS3VectorstoreFor id;
  if (ok : bool) then __getLocalVectorStoreFor id else ret None.

(** [__upload_file(id, file_name, father)]; [father] is [""] for the
    source's [None]. *)
Definition __upload_file (id file_name father : string) : M bool :=
  __checkS3init ;;
  let path :=
    if Fs.nonempty father
    then "vectorstores/" +:+ id +:+ "/" +:+ father +:+ "/" +:+ file_name
    else "vectorstores/" +:+ id +:+ "/" +:+ file_name in
  let local :=
    if Fs.nonempty father then father +:+ "/" +:+ file_name else file_name in
  for_retry 3
    (upload_file id local path ;; ret true)
    (emit (UploadGaveUp id file_name father) ;; ret false).

(** The loop of [__uploadS3VectorstoreFor] over [list_of_files]; [recurse]
    is the function itself, one frame deeper. *)
Fixpoint upload_each (recurse : string -> string -> M bool)
    (id path father : string) (list_of_files : list string) : M bool :=
  match list_of_files with
  | [] => ret true
  | file_name :: rest =>
      let file_path := os_path_join path file_name in
      isdir ← os_path_isdir id file_path;
      if (isdir : bool) then
        let fatherPath :=
          if Fs.nonempty father then father +:+ "/" +:+ file_name else file_name in
        recurse file_path fatherPath ;;
        upload_each recurse id path father rest
      else
        ok ← __upload_file id file_name father;
        if (ok : bool) then upload_each recurse id path father rest
        else
          deleteS3VectorstoreFor id ;;
          deleteLocalVectorStore id ;;
          ret false
  end.

(** [__uploadS3VectorstoreFor(id, path, father)] with [frames] interpreter
    frames left, this call's included; [path] is relative to
    [./vectorStore/{id}], so [""] is the source's default. *)
Fixpoint upload_frames (frames : nat) (id path father : string) : M bool :=
  match frames with
  | 0 => raise RecursionError
  | S frames' =>
      deleteS3VectorstoreFor id ;;
      list_of_files ← os_listdir id path;
      upload_each (upload_frames frames' id) id path father list_of_files
  end.

Definition __uploadS3VectorstoreFor (id : string) : M bool :=
  nested ← get recursion_left;
  upload_frames (S nested) id "" "".

(** [__load_document(id)]: the loop over [listOfFiles]; an exception out
    of a loader or out of [read] ends it. *)
Fixpoint load_each (filesLocation : string) (listOfFiles : list (string * string))
    (listOfDocuments : list Document) : outcome (list Document) :=
  match listOfFiles with
  | [] => Ok listOfDocuments
  | (file, content) :: rest =>
      let file_type := Py.splitext_ext file in
      let file_path := filesLocation +:+ "/" +:+ file in
      if String.eqb file_type ".docx" || String.eqb file_type ".doc" then
        match Docx2txtLoader_load lib file_path content with
        | Some doc => load_each filesLocation rest (listOfDocuments ++ doc)
        | None => Raise (LoaderError file_path)
        end
      else if String.eqb file_type ".xlsx" || String.eqb file_type ".xls" then
        match UnstructuredExcelLoader_load lib file_path content with
        | Some doc => load_each filesLocation rest (listOfDocuments ++ doc)
        | None => Raise (LoaderError file_path)
        end
      else if String.eqb file_type ".pdf" then
        match PyPDFLoader_load lib file_path content with
        | Some doc => load_each filesLocation rest (listOfDocuments ++ doc)
        | None => Raise (LoaderError file_path)
        end
      else if String.eqb file_type ".txt" then
        match read_text lib file_path content with
        | Some doc =>
            load_each filesLocation rest (listOfDocuments ++ [mkDocument doc []])
        | None => Raise (UnicodeDecodeError file_path)
        end
      else
        load_each filesLocation rest listOfDocuments
  end.

(** [__load_document(id)] *)
Definition __load_document (id : string) : M (list Document) :=
  let filesLocation := "./productKnowledgePool/" +:+ id in
  pool ← get (fun w => productKnowledgePool w !! id);
  match pool with
  | None => raise (PoolNotFound id)
  | Some listOfFiles =>
      match load_each filesLocation listOfFiles [] with
      | Ok listOfDocuments => ret listOfDocuments
      | Raise e => raise e
      end
  end.

(** [__buildVectorStoreFromDocuments(listOfDocuments, id)] *)
Definition __buildVectorStoreFromDocuments (listOfDocuments : list Document)
    (id : string) : M Chroma :=
  let all_splits := split_documents lib listOfDocuments in
  let filtered_splits := filter_complex_metadata lib all_splits in
  modify (fun w =>
    set_vectorStore
      (<[id := Chroma_from_documents lib filtered_splits (vectorStore w !! id)]>
         (vectorStore w)) w) ;;
  ret (mkChroma (Fs.local_path id "")).

(** [__buildLocalVectorStoreFor(id)] *)
Definition __buildLocalVectorStoreFor (id : string) : M Chroma :=
  documentList ← __load_document id;
  __buildVectorStoreFromDocuments documentList id.

(** [buildS3VectorStoreFor(id)] *)
Definition buildS3VectorStoreFor (id : string) : M bool :=
  __buildLocalVectorStoreFor id ;;
  ok ← __uploadS3VectorstoreFor id;
  if (ok : bool) then
    deleteLocalVectorStore id ;; ret true
  else
    deleteLocalVectorStore id ;; ret false.

End WithLibraries.

End VectorStore.

(** ** ChatBot.py *)

Module ChatBot.

(** One turn of a conversation as the history keeps it. *)
Record Turn := mkTurn { human : string; ai : string }.

(** Addresses of [ChatMessageHistory] objects. *)
Definition loc := nat.

(** What [RunnableWithMessageHistory.stream] returns: a generator that has
    not run yet.  Nothing of the chain executes before the first [next]. *)
Record Generator := mkGenerator {
  gen_input : list (string * string);
  gen_configurable : list (string * string)
}.

(** The Python values these methods pass around. *)
Inductive PyVal :=
| VNone
| VBool (b : bool)
| VStr (s : string)
| VChroma (c : Chroma)
| VDocuments (l : list Document)
| VGenerator (g : Generator)
| VDict (items : list (string * string)).

Fixpoint dict_get (key : string) (items : list (string * string)) : option string :=
  match items with
  | [] => None
  | (k, v) :: rest => if String.eqb key k then Some v else dict_get key rest
  end.

(** [v[key]] for a string key *)
Definition subscript (v : PyVal) (key : string) : outcome PyVal :=
  match v with
  | VDict items =>
      match dict_get key items with
      | Some s => Ok (VStr s)
      | None => Raise (KeyError key)
      end
  | VStr _ => Raise (TypeError "string indices must be integers")
  | VGenerator _ => Raise (TypeError "'generator' object is not subscriptable")
  | VChroma _ => Raise (TypeError "'Chroma' object is not subscriptable")
  | VDocuments _ => Raise (TypeError "list indices must be integers or slices")
  | VBool _ => Raise (TypeError "'bool' object is not subscriptable")
  | VNone => Raise (TypeError "'NoneType' object is not subscriptable")
  end.

(** [RunnableWithMessageHistory(rag_chain, get_session_history, ...)] as
    [__init__] builds it; the callback is the instance's own method. *)
Record RunnableWithMessageHistory := mkRunnable {
  input_messages_key : string;
  history_messages_key : string;
  output_messages_key : string
}.

(** The attributes of an instance that the methods below read. *)
Record Self := mkSelf {
  _ChatBot__id : string;
  history : option loc;        (* [None] as [__init__] leaves it *)
  _ChatBot__conversational_rag_chain : RunnableWithMessageHistory
}.

(** An instance together with the heap of history objects. *)
Record Bot := mkBot {
  self : Self;
  heap : list (list Turn)
}.

(** The chain [__init__] stores in [self.__conversational_rag_chain] *)
Definition conversational_rag_chain : RunnableWithMessageHistory :=
  mkRunnable "input" "chat_history" "answer".

(** The attributes [__init__] assigns for product [id]: the history is
    [None] and the chain is the wrapper above. *)
Definition constructed (id : string) : Self :=
  mkSelf id None conversational_rag_chain.

(** [ChatMessageHistory()]: a fresh, empty history *)
Definition new_ChatMessageHistory (b : Bot) : loc * Bot :=
  (length (heap b), mkBot (self b) (heap b ++ [[]])).

(** [__get_session_history(self, _)] *)
Definition __get_session_history (session_id : string) (b : Bot) : loc * Bot :=
  match history (self b) with
  | None =>
      let '(h, b') := new_ChatMessageHistory b in
      (h, mkBot (mkSelf (_ChatBot__id (self b')) (Some h)
                        (_ChatBot__conversational_rag_chain (self b')))
                (heap b'))
  | Some h => (h, b)
  end.

(** [chain.stream(input, config=...)]: builds the generator, runs nothing *)
Definition stream (chain : RunnableWithMessageHistory)
    (input configurable : list (string * string)) : Generator :=
  mkGenerator input configurable.

(** [ask_question(self, question)] *)
Definition ask_question (question : string) (b : Bot) : outcome PyVal * Bot :=
  let g := stream (_ChatBot__conversational_rag_chain (self b))
                  [("input", question)] [("session_id", "None")] in
  (subscript (VGenerator g) "answer", b).

(** An attribute of the [VectorStore] module: a function that can be
    called with one string, or anything else. *)
Inductive attr :=
| Function (f : string -> M PyVal)
| Other.

Section WithLibraries.

Variable lib : Libraries.

Definition returning_bool (f : string -> M bool) : attr :=
  Function (fun id => b ← f id; ret (VBool b)).

Definition returning_store (f : string -> M (option Chroma)) : attr :=
  Function (fun id => c ← f id;
                      ret (match c with Some c => VChroma c | None => VNone end)).

(** The names [VectorStore.py] binds at module level: its imports, its
    four globals and its functions. *)
Definition VectorStore_namespace : list (string * attr) :=
  [ ("List", Other); ("os", Other); ("Docx2txtLoader", Other);
    ("UnstructuredExcelLoader", Other); ("PyPDFLoader", Other);
    ("Document", Other); ("RecursiveCharacterTextSplitter", Other);
    ("Chroma", Other); ("OpenAIEmbeddings", Other);
    ("filter_complex_metadata", Other); ("boto3", Other); ("sleep", Other);
    ("debugMode", Other); ("__bucket", Other); ("__S3", Other);
    ("__bucket_name", Other); ("debug", Other);
    ("initS3Storage",
      Function (fun name => VectorStore.initS3Storage name ;; ret VNone));
    ("turnOnDebug", Other);
    ("buildS3VectorStoreFor",
      returning_bool (VectorStore.buildS3VectorStoreFor lib));
    ("getS3VectorStoreFor",
      returning_store (VectorStore.getS3VectorStoreFor lib));
    ("checkS3VectorStoreFor", returning_bool VectorStore.checkS3VectorStoreFor);
    ("deleteS3VectorstoreFor", returning_bool VectorStore.deleteS3VectorstoreFor);
    ("__checkS3init", Other);
    ("__buildLocalVectorStoreFor",
      Function (fun id => c ← VectorStore.__buildLocalVectorStoreFor lib id;
                          ret (VChroma c)));
    ("__getLocalVectorStoreFor",
      returning_store (VectorStore.__getLocalVectorStoreFor lib));
    ("deleteLocalVectorStore",
      returning_bool (VectorStore.deleteLocalVectorStore lib));
    ("__downloadS3VectorstoreFor",
      returning_bool (VectorStore.__downloadS3VectorstoreFor lib));
    ("__upload_file", Other);
    ("__uploadS3VectorstoreFor",
      returning_bool (VectorStore.__uploadS3VectorstoreFor lib));
    ("__buildVectorStoreFromDocuments", Other);
    ("__load_document",
      Function (fun id => l ← VectorStore.__load_document lib id;
                          ret (VDocuments l))) ].

Fixpoint getattr (ns : list (string * attr)) (name : string) : M attr :=
  match ns with
  | [] => raise (AttributeError name)
  | (n, a) :: rest => if String.eqb name n then ret a else getattr rest name
  end.

(** [f(arg)] for an attribute fetched from a module *)
Definition call (a : attr) (arg : string) : M PyVal :=
  match a with
  | Function f => f arg
  | Other => raise (TypeError "not callable with one string argument")
  end.

(** [__del__(self)]: [VectorStore.deleteVectorStore(self.__id)] *)
Definition __del__ (s : Self) : M PyVal :=
  f ← getattr VectorStore_namespace "deleteVectorStore";
  call f (_ChatBot__id s).

(** What the interpreter does when the instance is reclaimed: it runs
    [__del__] and drops any exception that comes out of it. *)
Definition destroy (s : Self) : M unit :=
  try_except (__del__ s ;; ret tt) (fun _ => ret tt).

End WithLibraries.

End ChatBot.

(** * Vocabulary of the properties *)

(** ** Preconditions and outcomes *)

Definition initialised (w : World) : Prop :=
  is_Some (__bucket w) ∧ is_Some (__S3 w).

Definition uninitialised (w : World) : Prop :=
  __bucket w = None ∨ __S3 w = None.

(** A run that stopped at the precondition check: the exception, the
    world as it was, and no event at all. *)
Definition failed_fast {A} (r : Run A) (w : World) : Prop :=
  r = mkRun (Raise S3NotInitialized) w [].

(** ** The loader, as the specification words it *)

(** The extensions the loader has a parser for. *)
Definition supported (file_type : string) : bool :=
  existsb (String.eqb file_type)
          [".docx"; ".doc"; ".xlsx"; ".xls"; ".pdf"; ".txt"].

Definition supported_file (entry : string * string) : bool :=
  supported (Py.splitext_ext entry.1).

(** The documents of one file, by the parser for its type: Word,
    spreadsheet as elements, PDF as pages, plain text as one document;
    [None] when the parser, or the read of a text file, raises. *)
Definition documents_of (lib : Libraries) (filesLocation : string)
    (entry : string * string) : option (list Document) :=
  let file_path := filesLocation +:+ "/" +:+ entry.1 in
  let file_type := Py.splitext_ext entry.1 in
  if existsb (String.eqb file_type) [".docx"; ".doc"] then
    Docx2txtLoader_load lib file_path entry.2
  else if existsb (String.eqb file_type) [".xlsx"; ".xls"] then
    UnstructuredExcelLoader_load lib file_path entry.2
  else if String.eqb file_type ".pdf" then
    PyPDFLoader_load lib file_path entry.2
  else if String.eqb file_type ".txt" then
    match read_text lib file_path entry.2 with
    | Some text => Some [mkDocument text []]
    | None => None
    end
  else Some [].

(** The exception the loader ends with at a file that does not parse. *)
Definition parse_error (filesLocation : string) (entry : string * string) : exn :=
  let file_path := filesLocation +:+ "/" +:+ entry.1 in
  if String.eqb (Py.splitext_ext entry.1) ".txt"
  then UnicodeDecodeError file_path else LoaderError file_path.

(** The first file of a folder that does not parse, if there is one. *)
Fixpoint first_unparsed (lib : Libraries) (filesLocation : string)
    (files : list (string * string)) : option (string * string) :=
  match files with
  | [] => None
  | entry :: rest =>
      match documents_of lib filesLocation entry with
      | Some _ => first_unparsed lib filesLocation rest
      | None => Some entry
      end
  end.

(** Every file of the folder of [id] that has a parser parses. *)
Definition loads (lib : Libraries) (id : string)
    (files : list (string * string)) : Prop :=
  first_unparsed lib ("./productKnowledgePool/" +:+ id) files = None.

(** The documents of a folder: those of its files, in folder order. *)
Definition loaded (lib : Libraries) (id : string)
    (files : list (string * string)) : list Document :=
  flat_map (fun entry =>
              default [] (documents_of lib ("./productKnowledgePool/" +:+ id) entry))
           (List.filter supported_file files).

(** ** Properties of runs *)

(** Every event of every run of [m] satisfies [E]. *)
Definition emits {A} (E : event -> Prop) (m : M A) : Prop :=
  forall w, Forall E (events (m w)).

(** Every run of [m] ends in a world related by [R] to the one it began in. *)
Definition keeps {A} (R : relation World) (m : M A) : Prop :=
  forall w, R w (final (m w)).

(** The module globals and the fault oracle are the same. *)
Definition same_env : relation World := fun w w' =>
  __bucket w' = __bucket w ∧ __S3 w' = __S3 w ∧ faults w' = faults w.

(** The local folders are the same. *)
Definition same_local : relation World := fun w w' =>
  vectorStore w' = vectorStore w.

(** The bucket is the same. *)
Definition same_remote : relation World := fun w w' =>
  remote w' = remote w.

(** Nothing but the two local folders has changed. *)
Definition disk_only : relation World := fun w w' =>
  w' = set_productKnowledgePool (productKnowledgePool w')
         (set_vectorStore (vectorStore w') w).

(** Events other than the give-up marker. *)
Definition call_or_sleep (e : event) : Prop :=
  match e with UploadGaveUp _ _ _ => False | _ => True end.

(** The events of a deletion: listings, deletions and sleeps. *)
Definition deletion_event (e : event) : Prop :=
  match e with
  | Call (ListObjects _) _ | Call (DeleteObjects _) _ | Sleep _ => True
  | _ => False
  end.

(** Events other than a give-up on a file directly in the index folder. *)
Definition not_top_level_give_up (e : event) : Prop :=
  forall i f, e ≠ UploadGaveUp i f "".

(** ** The bucket and the fault schedule *)

(** No object of the bucket has a key that starts with the prefix of [id]. *)
Definition no_objects (id : string) (r : gmap string string) : Prop :=
  forall k, Py.startswith k (VectorStore.prefix_of id) = true -> r !! k = None.

(** Every remote call raises. *)
Definition all_calls_fail (w : World) : Prop :=
  forall n op, faults w n op = true.

(** The only remote calls that can raise are uploads. *)
Definition only_uploads_fail (w : World) : Prop :=
  forall n op, faults w n op = true -> is_upload op = true.

(** The storage is initialised and listings and deletions are answered. *)
Definition good (w : World) : Prop := initialised w ∧ only_uploads_fail w.

(** Some upload ran out of attempts. *)
Definition gave_up (evs : list event) : Prop :=
  exists i f fa, UploadGaveUp i f fa ∈ evs.

(** Neither a local folder nor a remote object is left of [id]. *)
Definition dead (id : string) (w : World) : Prop :=
  vectorStore w !! id = None ∧ no_objects id (remote w).

(** What is shown of a run that started in [w]: if an upload gave up
    during it, or nothing was left of [id] when it started, nothing is
    left of [id] when it ends. *)
Definition ends_dead {A} (id : string) (m : M A) : Prop :=
  forall w, good w ->
    gave_up (events (m w)) ∨ dead id w -> dead id (final (m w)).

(** ** Attempts and delays *)

(** What a caller can observe of a run in time: remote calls, answered
    or not, and delays. *)
Inductive beat :=
| Attempt (ok : bool)
| Delay (seconds : nat).

Fixpoint timeline (evs : list event) : list beat :=
  match evs with
  | [] => []
  | Call _ ok :: rest => Attempt ok :: timeline rest
  | Sleep n :: rest => Delay n :: timeline rest
  | UploadGaveUp _ _ _ :: rest => timeline rest
  end.

(** The delays of a timeline, in order. *)
Fixpoint delays (t : list beat) : list nat :=
  match t with
  | [] => []
  | Delay n :: rest => n :: delays rest
  | Attempt _ :: rest => delays rest
  end.

(** One pass through a retry loop that an exception ended: the calls
    before the one that raised were answered, and there is no delay
    inside the pass. *)
Definition failed_pass (t : list beat) : Prop :=
  exists answered, t = repeat (Attempt true) answered ++ [Attempt false].

(** Three passes that raised, each followed by a three-second sleep, and
    nothing after the third sleep; then the value [a] returned. *)
Definition exhausted {A} (r : Run A) (a : A) : Prop :=
  result r = Ok a ∧
  exists t1 t2 t3,
    failed_pass t1 ∧ failed_pass t2 ∧ failed_pass t3 ∧
    timeline (events r) = t1 ++ Delay 3 :: t2 ++ Delay 3 :: t3 ++ [Delay 3].

(** ** The phases of a build *)

(** The local index a build stages for [id], given the files of the pool. *)
Definition staged (lib : Libraries) (id : string)
    (files : list (string * string)) (w : World) : World :=
  set_vectorStore
    (<[id := Chroma_from_documents lib
               (filter_complex_metadata lib
                  (split_documents lib (loaded lib id files)))
               (vectorStore w !! id)]> (vectorStore w)) w.

(** The run of the upload phase, from the world the staging left. *)
Definition upload_phase (lib : Libraries) (id : string) (w0 : World) : Run bool :=
  VectorStore.__uploadS3VectorstoreFor lib id w0.

(** ** Concrete scenarios *)

Module Scenario.

(** An index folder without sub-folders, and the layout Chroma writes,
    with a segment folder next to the database file. *)
Definition flat_index : dir :=
  [("chroma.sqlite3", File "db"); ("data.bin", File "vectors")].

Definition nested_index : dir :=
  [("chroma.sqlite3", File "db");
   ("segment", Dir [("data.bin", File "vectors")])].

(** The components of a path the shell was given as a word. *)
Definition path_of (word : string) : list string :=
  List.filter (fun s => Fs.nonempty s && negb (String.eqb s "."))
              (Py.split "/"%char word).

Fixpoint remove_at (segs : list string) (es : dir) : dir :=
  match segs with
  | [] => es
  | [name] => List.filter (fun e => negb (String.eqb e.1 name)) es
  | s :: rest =>
      map (fun e => match e.2 with
                    | Dir sub => if String.eqb e.1 s
                                 then (e.1, Dir (remove_at rest sub)) else e
                    | File _ => e
                    end) es
  end.

(** [rm -rf word], run in the working directory *)
Definition rm_path (disk : Disk) (word : string) : Disk :=
  if existsb (String.eqb "..") (path_of word) then disk else
  match path_of word with
  | ["vectorStore"] => (∅, disk.2)
  | ["vectorStore"; id] => (delete id disk.1, disk.2)
  | "vectorStore" :: id :: rel => (alter (remove_at rel) id disk.1, disk.2)
  | ["productKnowledgePool"] => (disk.1, ∅)
  | ["productKnowledgePool"; id] => (disk.1, delete id disk.2)
  | _ => disk
  end.

(** [mkdir -p word], run in the working directory *)
Definition mkdir_path (disk : Disk) (word : string) : Disk :=
  if existsb (String.eqb "..") (path_of word) then disk else
  match path_of word with
  | "vectorStore" :: id :: rel =>
      (<[id := Fs.mkdir_p rel (default [] (disk.1 !! id))]> disk.1, disk.2)
  | ["productKnowledgePool"; id] =>
      (disk.1, <[id := default [] (disk.2 !! id)]> disk.2)
  | _ => disk
  end.

(** A shell for command lines made of plain characters and blanks: it
    splits the line into words at the blanks and runs [rm -rf] or
    [mkdir -p] on each path in turn; paths outside the two folders leave
    them alone. *)
Definition sh (cmd : string) (disk : Disk) : Disk :=
  match List.filter Fs.nonempty (Py.split " "%char cmd) with
  | "rm" :: "-rf" :: words => foldl rm_path disk words
  | "mkdir" :: "-p" :: words => foldl mkdir_path disk words
  | _ => disk
  end.

(** Libraries that always open a store and leave its folder as it is,
    return one document per file, read every text file, persist the
    given index, and run the shell above. *)
Definition lib (index : dir) : Libraries :=
  mkLibraries (fun _ d => (true, d)) (fun d => d)
    (fun path text => Some [mkDocument text [("source", path)]])
    (fun path text => Some [mkDocument text [("source", path)]])
    (fun path text => Some [mkDocument text [("source", path)]])
    (fun _ text => Some text)
    (fun docs => docs) (fun docs => docs)
    (fun _ _ => index)
    sh.

(** The same, with a PDF loader that raises on a file that does not start
    with the PDF signature. *)
Definition checking_lib (index : dir) : Libraries :=
  mkLibraries (fun _ d => (true, d)) (fun d => d)
    (fun path text => Some [mkDocument text [("source", path)]])
    (fun path text => Some [mkDocument text [("source", path)]])
    (fun path text => if String.prefix "%PDF" text
                      then Some [mkDocument text [("source", path)]] else None)
    (fun _ text => Some text)
    (fun docs => docs) (fun docs => docs)
    (fun _ _ => index)
    sh.

(** Product [p1] has a source folder and an index in the bucket from an
    earlier build; storage is initialised. *)
Definition world (faults : nat -> remote_op -> bool) : World :=
  mkWorld (Some "bucket") (Some tt) (Some "bucket")
    {[ "vectorstores/p1/old.bin" := "old vectors" ]}
    ∅
    {[ "p1" := [("a.txt", "hello"); ("b.bin", "raw"); ("c.pdf", "pages")] ]}
    faults 0 1000.

(** The same process before [initS3Storage]. *)
Definition uninitialised_world : World :=
  mkWorld None None None ∅ ∅ ∅ (fun _ _ => false) 0 1000.

Definition healthy : nat -> remote_op -> bool := fun _ _ => false.

Definition down : nat -> remote_op -> bool := fun _ _ => true.

(** Uploads fail on calls 3 to 5: the second file of a flat index. *)
Definition second_upload_fails : nat -> remote_op -> bool :=
  fun n op => is_upload op && (3 <=? n)%nat && (n <=? 5)%nat.

(** The store stops answering from call 3 to call 8: the second upload
    fails, and so does the clean-up that follows. *)
Definition outage : nat -> remote_op -> bool :=
  fun n _ => (3 <=? n)%nat && (n <=? 8)%nat.

(** Listings are answered; every download raises. *)
Definition downloads_fail : nat -> remote_op -> bool :=
  fun _ op => match op with DownloadFile _ _ => true | _ => false end.

(** Listings are answered; every deletion raises. *)
Definition deletions_fail : nat -> remote_op -> bool :=
  fun _ op => match op with DeleteObjects _ => true | _ => false end.

(** A process in which the product [a b] has a source folder, the product
    [a] has a local index, and the bucket is empty. *)
Definition spaced_world : World :=
  mkWorld (Some "bucket") (Some tt) (Some "bucket")
    ∅
    {[ "a" := flat_index ]}
    {[ "a b" := [("a.txt", "hello")] ]}
    healthy 0 1000.

End Scenario.

(** ** Listings and deletions, further *)

(** The first three listings of the prefix, from the next call on, all raise. *)
Definition three_listings_fail (id : string) (w : World) : bool :=
  faults w (calls w) (ListObjects (VectorStore.prefix_of id)) &&
  faults w (S (calls w)) (ListObjects (VectorStore.prefix_of id)) &&
  faults w (S (S (calls w))) (ListObjects (VectorStore.prefix_of id)).

(** Some key of the bucket starts with the prefix of [id]. *)
Definition has_objects (id : string) (r : gmap string string) : bool :=
  match keys_with_prefix (VectorStore.prefix_of id) r with
  | [] => false
  | _ => true
  end.

(** The bucket after a run is the bucket before it with some keys under
    the prefix of [id] removed, and the local folders are untouched. *)
Definition only_removed_under (id : string) : relation World := fun w w' =>
  (forall k v, remote w' !! k = Some v -> remote w !! k = Some v) ∧
  (forall k, Py.startswith k (VectorStore.prefix_of id) = false ->
             remote w' !! k = remote w !! k) ∧
  vectorStore w' = vectorStore w.

(** The key [__upload_file] stores a file under. *)
Definition upload_key (id file_name father : string) : string :=
  if Fs.nonempty father
  then "vectorstores/" +:+ id +:+ "/" +:+ father +:+ "/" +:+ file_name
  else "vectorstores/" +:+ id +:+ "/" +:+ file_name.

(** The place of that file below [./vectorStore/{id}]. *)
Definition upload_source (file_name father : string) : string :=
  if Fs.nonempty father then father +:+ "/" +:+ file_name else file_name.

(** ** The four retrying operations *)

Inductive operation :=
| Exists (id : string)
| Delete (id : string)
| Download (id : string)
| Upload (id file_name father : string).

Definition perform (lib : Libraries) (op : operation) : M bool :=
  match op with
  | Exists id => VectorStore.checkS3VectorStoreFor id
  | Delete id => VectorStore.deleteS3VectorstoreFor id
  | Download id => VectorStore.__downloadS3VectorstoreFor lib id
  | Upload id file_name father => VectorStore.__upload_file id file_name father
  end.

(** A pass through the retry loop of [op] that starts with remote call
    number [n] meets a remote call that raises: the listing, or, when
    there is something to delete or to download, the first deletion or
    download after it; for an upload, the upload itself. *)
Definition pass_raises (op : operation) (w : World) (n : nat) : Prop :=
  match op with
  | Exists id => faults w n (ListObjects (VectorStore.prefix_of id)) = true
  | Delete id =>
      faults w n (ListObjects (VectorStore.prefix_of id)) = true ∨
      (has_objects id (remote w) = true ∧
       forall keys, faults w (S n) (DeleteObjects keys) = true)
  | Download id =>
      faults w n (ListObjects (VectorStore.prefix_of id)) = true ∨
      (has_objects id (remote w) = true ∧
       forall key dest, faults w (S n) (DownloadFile key dest) = true)
  | Upload id file_name father =>
      faults w n (UploadFile (Fs.local_path id (upload_source file_name father))
                             (upload_key id file_name father)) = true
  end.

(** ** Constructing a ChatBot *)

Module Construct.

(** [s.endswith("__")] *)
Definition ends_with_two_underscores (s : string) : bool :=
  (2 <=? String.length s)%nat &&
  String.eqb (String.substring (String.length s - 2) 2 s) "__".

Fixpoint contains_dot (s : string) : bool :=
  match s with
  | EmptyString => false
  | String c s' => Ascii.eqb c "."%char || contains_dot s'
  end.

Fixpoint lstrip_underscores (s : string) : string :=
  match s with
  | String c s' => if Ascii.eqb c "_"%char then lstrip_underscores s' else s
  | EmptyString => EmptyString
  end.

(** The name the compiler puts in place of the identifier [name] when it
    occurs anywhere inside the body of class [cls]: identifiers that
    begin with two underscores and do not end with two get the class
    name in front, whatever they refer to. *)
Definition mangle (cls name : string) : string :=
  if String.prefix "__" name && negb (ends_with_two_underscores name)
     && negb (contains_dot name)
  then match lstrip_underscores cls with
       | EmptyString => name
       | stripped => "_" +:+ stripped +:+ name
       end
  else name.

(** The names [ChatBot.py] binds at module level. *)
Definition ChatBot_globals : list string :=
  [ "ChatOpenAI"; "VectorStore"; "ChatPromptTemplate";
    "create_history_aware_retriever"; "MessagesPlaceholder";
    "create_stuff_documents_chain"; "create_retrieval_chain";
    "RunnableWithMessageHistory"; "ChatMessageHistory"; "llm";
    "__contextualize_q_system_prompt"; "__system_prompt";
    "__contextualize_q_prompt"; "__qa_prompt"; "__question_answer_chain";
    "ChatBot" ].

(** The built-in names the class body uses. *)
Definition builtins : list string := [ "print"; "Exception" ].

(** Reading the identifier [name] as a global from inside class
    [ChatBot]: the name looked up, when something is bound to it. *)
Definition load_global (name : string) : option string :=
  let looked_up := mangle "ChatBot" name in
  if existsb (String.eqb looked_up) (ChatBot_globals ++ builtins)
  then Some looked_up else None.

(** How a call of [ChatBot(id, from_s3)] ends. *)
Inductive outcome_of_init :=
| Constructed (s : ChatBot.Self)
| Raised (e : exn)
| RaisedNameError (name : string).

(** Read the global [name], or stop with [NameError]. *)
Definition with_global (name : string) (k : outcome_of_init) : outcome_of_init :=
  match load_global name with
  | Some _ => k
  | None => RaisedNameError (mangle "ChatBot" name)
  end.

(** [VectorStore.f(self.__id)] for the attribute written [f] in the class body *)
Definition call_VectorStore (lib : Libraries) (f id : string) : M ChatBot.PyVal :=
  a ← ChatBot.getattr (ChatBot.VectorStore_namespace lib) (mangle "ChatBot" f);
  ChatBot.call a id.

(** [ChatBot.__init__(self, id, from_s3)].  The library calls
    ([as_retriever] and the three chain constructors) have no effect on
    the world; [print] output is not modelled.  The globals are read in
    the order the statements evaluate them. *)
Definition __init__ (lib : Libraries) (id : string) (from_s3 : bool)
    (w : World) : outcome_of_init * World * list event :=
  let r :=
    if from_s3 then call_VectorStore lib "getS3VectorStoreFor" id w
    else call_VectorStore lib "__getLocalVectorStoreFor" id w in
  (match result r with
   | Raise e => Raised e
   | Ok ChatBot.VNone => Raised VectorStoreNotLoaded
   | Ok _ =>
       with_global "create_history_aware_retriever"
         (with_global "llm"
            (with_global "__contextualize_q_prompt"
               (with_global "create_retrieval_chain"
                  (with_global "__question_answer_chain"
                     (with_global "RunnableWithMessageHistory"
                        (Constructed (ChatBot.constructed id)))))))
   end, final r, events r).

End Construct.

Fixpoint contains_slash (s : string) : bool :=
  match s with
  | EmptyString => false
  | String c s' => Ascii.eqb c "/"%char || contains_slash s'
  end.

(** A file name as a directory can hold it: not empty, no separator. *)
Definition plain_name (s : string) : bool :=
  Fs.nonempty s && negb (contains_slash s).

(** Every entry is a file with a plain name, and no name occurs twice. *)
Definition flat (es : dir) : Prop :=
  Forall (fun e => plain_name e.1 = true ∧ exists data, e.2 = File data) es ∧
  NoDup es.*1.

(** No remote call raises. *)
Definition no_faults (w : World) : Prop := forall n op, faults w n op = false.

(** The bucket [r] after each file of [es] has been stored under the key
    [__upload_file] gives it, in order. *)
Definition mirror (id father : string) (es : dir) (r : gmap string string)
    : gmap string string :=
  foldl (fun r e => match e.2 with
                    | File data => <[upload_key id e.1 father := data]> r
                    | Dir _ => r
                    end) r es.

(** Every entry is a file. *)
Definition files_only (es : dir) : Prop :=
  Forall (fun e => exists data, e.2 = File data) es.

(** The folder [d] after the objects with keys [ks] of the bucket [r]
    have been written to it, each under the last component of its key. *)
Definition landing (r : gmap string string) (d : dir) (ks : list string) : dir :=
  foldl (fun d k => Fs.put (Py.last_item (Py.split "/"%char k))
                      (File (default "" (r !! k))) d) d ks.

(** A key with two components below [vectorstores]: a product id and a
    file name. *)
Definition object_key (id name : string) : string :=
  "vectorstores/" +:+ id +:+ "/" +:+ name.

(** * Properties *)

(** ** Running the monad *)

Lemma run_bind {A B} (m : M A) (k : A -> M B) (w : World) :
  (m ≫= k) w =
  match result (m w) with
  | Ok a => mkRun (result (k a (final (m w)))) (final (k a (final (m w))))
                  (events (m w) ++ events (k a (final (m w))))
  | Raise e => mkRun (Raise e) (final (m w)) (events (m w))
  end.
Proof. reflexivity. Qed.

Lemma run_bind_ok {A B} (m : M A) (k : A -> M B) w a w1 e1 :
  m w = mkRun (Ok a) w1 e1 ->
  (m ≫= k) w = mkRun (result (k a w1)) (final (k a w1)) (e1 ++ events (k a w1)).
Proof. intros H. rewrite run_bind, H. reflexivity. Qed.

Lemma run_bind_raise {A B} (m : M A) (k : A -> M B) w e w1 e1 :
  m w = mkRun (Raise e) w1 e1 ->
  (m ≫= k) w = mkRun (Raise e) w1 e1.
Proof. intros H. rewrite run_bind, H. reflexivity. Qed.

Lemma run_eta {A} (r : Run A) : mkRun (result r) (final r) (events r) = r.
Proof. destruct r; reflexivity. Qed.

Lemma run_try_ok {A} (m : M A) h w a w1 e1 :
  m w = mkRun (Ok a) w1 e1 -> try_except m h w = mkRun (Ok a) w1 e1.
Proof. intros H. unfold try_except. rewrite H. reflexivity. Qed.

Lemma run_try_raise {A} (m : M A) h w e w1 e1 :
  m w = mkRun (Raise e) w1 e1 ->
  try_except m h w =
  mkRun (result (h e w1)) (final (h e w1)) (e1 ++ events (h e w1)).
Proof. intros H. unfold try_except. rewrite H. reflexivity. Qed.

(** One more round of a retry loop whose attempt raised. *)
Lemma for_retry_failed {A} n (body orelse : M A) w e w1 e1 :
  body w = mkRun (Raise e) w1 e1 ->
  for_retry (S n) body orelse w =
  mkRun (result (for_retry n body orelse w1)) (final (for_retry n body orelse w1))
        (e1 ++ Sleep 3 :: events (for_retry n body orelse w1)).
Proof.
  intros H. simpl. rewrite (run_try_raise _ _ _ _ _ _ H). reflexivity.
Qed.

Lemma for_retry_returned {A} n (body orelse : M A) w a w1 e1 :
  body w = mkRun (Ok a) w1 e1 ->
  for_retry (S n) body orelse w = mkRun (Ok a) w1 e1.
Proof. intros H. simpl. apply run_try_ok, H. Qed.

(** ** Initialisation *)

Lemma initialised_dec w : initialised w ∨ uninitialised w.
Proof.
  unfold initialised, uninitialised.
  destruct (__bucket w), (__S3 w); eauto.
Qed.

Lemma checkS3init_ok w :
  initialised w -> VectorStore.__checkS3init w = mkRun (Ok tt) w [].
Proof.
  intros [[b Hb] [c Hc]]. unfold VectorStore.__checkS3init.
  rewrite !run_bind. simpl. rewrite Hb, Hc. reflexivity.
Qed.

Lemma checkS3init_uninit w :
  uninitialised w ->
  VectorStore.__checkS3init w = mkRun (Raise S3NotInitialized) w [].
Proof.
  intros H. unfold VectorStore.__checkS3init. rewrite !run_bind. simpl.
  destruct H as [-> | ->]; [reflexivity|]. destruct (__bucket w); reflexivity.
Qed.

Lemma initS3Storage_initialises name w :
  initialised (final (VectorStore.initS3Storage name w)).
Proof. split; simpl; eauto. Qed.

Lemma guarded_fails_fast {A} (k : M A) w :
  uninitialised w -> failed_fast ((VectorStore.__checkS3init ;; k) w) w.
Proof.
  intros H. unfold failed_fast.
  apply run_bind_raise, checkS3init_uninit, H.
Qed.

Lemma upload_before_init lib id w :
  uninitialised w ->
  VectorStore.__uploadS3VectorstoreFor lib id w = mkRun (Raise S3NotInitialized) w [].
Proof.
  intros H.
  assert (Hdel : failed_fast (VectorStore.deleteS3VectorstoreFor id w) w)
    by (apply guarded_fails_fast, H).
  unfold VectorStore.__uploadS3VectorstoreFor.
  rewrite run_bind. simpl. unfold failed_fast in Hdel.
  rewrite (run_bind_raise _ _ _ _ _ _ Hdel). reflexivity.
Qed.

(** C8.  Before [initS3Storage], each remote operation (exists, get,
    delete, upload of an index, upload of one file, download) raises the
    "not initialized" exception at once: the world is untouched and no
    remote call and no sleep has happened, so nothing was retried. *)
Theorem uninitialised_fails_fast lib w id file_name father :
  uninitialised w ->
  failed_fast (VectorStore.checkS3VectorStoreFor id w) w ∧
  failed_fast (VectorStore.getS3VectorStoreFor lib id w) w ∧
  failed_fast (VectorStore.deleteS3VectorstoreFor id w) w ∧
  failed_fast (VectorStore.__uploadS3VectorstoreFor lib id w) w ∧
  failed_fast (VectorStore.__upload_file id file_name father w) w ∧
  failed_fast (VectorStore.__downloadS3VectorstoreFor lib id w) w.
Proof.
  intros H.
  assert (Hdel : failed_fast (VectorStore.deleteS3VectorstoreFor id w) w)
    by (apply guarded_fails_fast, H).
  assert (Hdown : failed_fast (VectorStore.__downloadS3VectorstoreFor lib id w) w)
    by (apply guarded_fails_fast, H).
  repeat split; try (apply guarded_fails_fast, H); try assumption.
  - unfold failed_fast, VectorStore.getS3VectorStoreFor.
    apply run_bind_raise, Hdown.
  - unfold failed_fast, VectorStore.__uploadS3VectorstoreFor.
    rewrite run_bind. simpl. unfold failed_fast in Hdel.
    rewrite (run_bind_raise _ _ _ _ _ _ Hdel). reflexivity.
Qed.

(** ** The destructor *)

Lemma getattr_deleteVectorStore lib w :
  ChatBot.getattr (ChatBot.VectorStore_namespace lib) "deleteVectorStore" w =
  mkRun (Raise (AttributeError "deleteVectorStore")) w [].
Proof. reflexivity. Qed.

(** C1 (what the code does).  [__del__] looks up
    [VectorStore.deleteVectorStore], a name the module does not define: the
    lookup raises, the interpreter drops the exception, and neither the
    bucket nor the local folder has changed. *)
Theorem destroy_deletes_nothing lib s w :
  ChatBot.__del__ lib s w =
    mkRun (Raise (AttributeError "deleteVectorStore")) w [] ∧
  ChatBot.destroy lib s w = mkRun (Ok tt) w [].
Proof.
  assert (H : ChatBot.__del__ lib s w =
              mkRun (Raise (AttributeError "deleteVectorStore")) w []).
  { unfold ChatBot.__del__.
    apply run_bind_raise, getattr_deleteVectorStore. }
  split; [exact H|].
  unfold ChatBot.destroy.
  rewrite (run_try_raise _ _ _ _ _ _
             (run_bind_raise _ (fun _ => ret tt) _ _ _ _ H)).
  reflexivity.
Qed.

(** ** Asking a question *)

(** C2 (what the code does).  [ask_question] subscripts the generator that
    [stream] returns, which raises [TypeError] before the chain has run:
    no fragment is returned and the instance, its history included, is
    as it was. *)
Theorem ask_question_raises question b :
  ChatBot.ask_question question b =
  (Raise (TypeError "'generator' object is not subscriptable"), b).
Proof. reflexivity. Qed.

(** ** The session history *)

(** C5.  Whatever session ids are passed, the lookup returns one and the
    same history object: two lookups in a row agree, the second changes
    nothing, and from any given state the id has no influence on the
    answer.  The object is created by the first lookup (a fresh, empty
    history) and only then. *)
Theorem session_history_ignores_id sid1 sid2 b :
  let r1 := ChatBot.__get_session_history sid1 b in
  let r2 := ChatBot.__get_session_history sid2 (snd r1) in
  fst r2 = fst r1 ∧
  snd r2 = snd r1 ∧
  ChatBot.__get_session_history sid2 b = r1 ∧
  ChatBot.history (ChatBot.self (snd r1)) = Some (fst r1) ∧
  match ChatBot.history (ChatBot.self b) with
  | None => fst r1 = length (ChatBot.heap b) ∧
            ChatBot.heap (snd r1) = ChatBot.heap b ++ [[]]
  | Some h => fst r1 = h ∧ snd r1 = b
  end.
Proof.
  unfold ChatBot.__get_session_history.
  destruct b as [[id [h|] chain] hp]; simpl; repeat split; reflexivity.
Qed.

(** ** The document loader *)

Section Loader.

Variable lib : Libraries.

Lemma documents_of_unsupported loc entry :
  supported_file entry = false -> documents_of lib loc entry = Some [].
Proof.
  destruct entry as [file content].
  unfold supported_file, supported, documents_of. cbn [fst snd existsb].
  remember (Py.splitext_ext file) as t eqn:Ht. clear Ht.
  destruct (String.eqb t ".docx"), (String.eqb t ".doc"),
           (String.eqb t ".xlsx"), (String.eqb t ".xls"),
           (String.eqb t ".pdf"), (String.eqb t ".txt");
    cbn [orb]; intros H; try discriminate H; reflexivity.
Qed.

Lemma load_each_step loc entry rest acc :
  VectorStore.load_each lib loc (entry :: rest) acc =
  match documents_of lib loc entry with
  | Some docs => VectorStore.load_each lib loc rest (acc ++ docs)
  | None => Raise (parse_error loc entry)
  end.
Proof.
  destruct entry as [file content].
  unfold documents_of, parse_error.
  cbn [VectorStore.load_each fst snd existsb].
  remember (Py.splitext_ext file) as t eqn:Ht. clear Ht.
  destruct (String.eqb_spec t ".docx") as [->|_];
    [cbn; by destruct (Docx2txtLoader_load lib _ content)|].
  destruct (String.eqb_spec t ".doc") as [->|_];
    [cbn; by destruct (Docx2txtLoader_load lib _ content)|].
  destruct (String.eqb_spec t ".xlsx") as [->|_];
    [cbn; by destruct (UnstructuredExcelLoader_load lib _ content)|].
  destruct (String.eqb_spec t ".xls") as [->|_];
    [cbn; by destruct (UnstructuredExcelLoader_load lib _ content)|].
  destruct (String.eqb_spec t ".pdf") as [->|_];
    [cbn; by destruct (PyPDFLoader_load lib _ content)|].
  destruct (String.eqb_spec t ".txt") as [->|_];
    [cbn; by destruct (read_text lib _ content)|].
  cbn. by rewrite app_nil_r.
Qed.

Lemma load_each_run loc files : forall acc,
  VectorStore.load_each lib loc files acc =
  match first_unparsed lib loc files with
  | None => Ok (acc ++ flat_map (fun entry => default [] (documents_of lib loc entry))
                                files)
  | Some entry => Raise (parse_error loc entry)
  end.
Proof.
  induction files as [|entry rest IH]; intros acc.
  - cbn. by rewrite app_nil_r.
  - rewrite load_each_step. cbn [first_unparsed flat_map].
    destruct (documents_of lib loc entry) as [docs|]; [|reflexivity].
    rewrite IH. destruct (first_unparsed lib loc rest); [reflexivity|].
    cbn [default]. by rewrite app_assoc.
Qed.

Lemma first_unparsed_supported loc files :
  first_unparsed lib loc (List.filter supported_file files) =
  first_unparsed lib loc files.
Proof.
  induction files as [|entry rest IH]; [reflexivity|].
  cbn [List.filter first_unparsed].
  destruct (supported_file entry) eqn:Hs; cbn [first_unparsed].
  - by rewrite IH.
  - by rewrite (documents_of_unsupported loc entry Hs).
Qed.

Lemma flat_map_supported loc files :
  flat_map (fun entry => default [] (documents_of lib loc entry))
           (List.filter supported_file files) =
  flat_map (fun entry => default [] (documents_of lib loc entry)) files.
Proof.
  induction files as [|entry rest IH]; [reflexivity|].
  cbn [List.filter flat_map].
  destruct (supported_file entry) eqn:Hs; cbn [flat_map].
  - by rewrite IH.
  - by rewrite (documents_of_unsupported loc entry Hs), IH.
Qed.

(** The loader on a folder that is there. *)
Lemma load_document_run id w files :
  productKnowledgePool w !! id = Some files ->
  VectorStore.__load_document lib id w =
  match first_unparsed lib ("./productKnowledgePool/" +:+ id) files with
  | None => mkRun (Ok (loaded lib id files)) w []
  | Some entry =>
      mkRun (Raise (parse_error ("./productKnowledgePool/" +:+ id) entry)) w []
  end.
Proof.
  intros Hpool. unfold VectorStore.__load_document. rewrite run_bind.
  unfold get. cbn [result final events app]. rewrite Hpool.
  rewrite load_each_run. unfold loaded. rewrite flat_map_supported.
  by destruct (first_unparsed lib _ files).
Qed.

(** C9 (amended).  Without the source folder the loader raises the
    pool-not-found exception; an empty folder gives the empty list.
    Otherwise the files whose extension is one of the six supported ones
    are parsed in folder order, each by the parser of its type, and files
    with any other extension contribute nothing and raise nothing: when
    every supported file parses, the loader returns their documents in
    that order; at the first one whose parser (or whose read, for a text
    file) raises, the loader raises that exception and returns nothing.
    The world is unchanged and no remote call is made in every case. *)
Theorem load_document_by_extension id w :
  VectorStore.__load_document lib id w =
  match productKnowledgePool w !! id with
  | None => mkRun (Raise (PoolNotFound id)) w []
  | Some [] => mkRun (Ok []) w []
  | Some files =>
      let filesLocation := "./productKnowledgePool/" +:+ id in
      match first_unparsed lib filesLocation (List.filter supported_file files) with
      | None =>
          mkRun (Ok (flat_map (fun entry =>
                                 default [] (documents_of lib filesLocation entry))
                              (List.filter supported_file files))) w []
      | Some entry => mkRun (Raise (parse_error filesLocation entry)) w []
      end
  end.
Proof.
  destruct (productKnowledgePool w !! id) as [files|] eqn:Hpool.
  - rewrite (load_document_run id w files Hpool).
    destruct files as [|entry rest]; [reflexivity|].
    cbn zeta. rewrite first_unparsed_supported. reflexivity.
  - unfold VectorStore.__load_document. rewrite run_bind.
    unfold get. cbn [result final events app]. by rewrite Hpool.
Qed.

End Loader.

(** ** Reasoning rules *)

Section Rules.

Context {A B : Type}.
Variable E : event -> Prop.
Variable R : relation World.
Context `{!PreOrder R}.

Lemma emits_ret (a : A) : emits E (ret a).
Proof. intros w. constructor. Qed.

Lemma emits_raise e : emits E (@raise A e).
Proof. intros w. constructor. Qed.

Lemma emits_get (f : World -> A) : emits E (get f).
Proof. intros w. constructor. Qed.

Lemma emits_modify f : emits E (modify f).
Proof. intros w. constructor. Qed.

Lemma emits_emit e : E e -> emits E (emit e).
Proof. intros H w. repeat constructor. exact H. Qed.

Lemma emits_bind (m : M A) (k : A -> M B) :
  emits E m -> (forall a, emits E (k a)) -> emits E (m ≫= k).
Proof.
  intros Hm Hk w. rewrite run_bind. specialize (Hm w).
  destruct (result (m w)); simpl; [|exact Hm].
  apply Forall_app; split; [exact Hm | apply Hk].
Qed.

Lemma emits_try (m : M A) h :
  emits E m -> (forall e, emits E (h e)) -> emits E (try_except m h).
Proof.
  intros Hm Hh w. unfold try_except. specialize (Hm w).
  destruct (result (m w)); simpl; [exact Hm|].
  apply Forall_app; split; [exact Hm | apply Hh].
Qed.

Lemma keeps_ret (a : A) : keeps R (ret a).
Proof. intros w. reflexivity. Qed.

Lemma keeps_raise e : keeps R (@raise A e).
Proof. intros w. reflexivity. Qed.

Lemma keeps_get (f : World -> A) : keeps R (get f).
Proof. intros w. reflexivity. Qed.

Lemma keeps_bind (m : M A) (k : A -> M B) :
  keeps R m -> (forall a, keeps R (k a)) -> keeps R (m ≫= k).
Proof.
  intros Hm Hk w. rewrite run_bind. specialize (Hm w).
  destruct (result (m w)); simpl; [|exact Hm].
  etransitivity; [exact Hm | apply Hk].
Qed.

Lemma keeps_try (m : M A) h :
  keeps R m -> (forall e, keeps R (h e)) -> keeps R (try_except m h).
Proof.
  intros Hm Hh w. unfold try_except. specialize (Hm w).
  destruct (result (m w)); simpl; [exact Hm|].
  etransitivity; [exact Hm | apply Hh].
Qed.

End Rules.

Lemma emits_sleep E n : E (Sleep n) -> emits E (sleep n).
Proof. apply emits_emit. Qed.

Lemma keeps_emit R `{!PreOrder R} e : keeps R (emit e).
Proof. intros w. reflexivity. Qed.

Lemma emits_for_retry {A} E n (body orelse : M A) :
  E (Sleep 3) -> emits E body -> emits E orelse ->
  emits E (for_retry n body orelse).
Proof.
  intros Hs Hb Ho. induction n as [|n IH]; simpl; [exact Ho|].
  apply emits_try; [exact Hb|]. intros _.
  apply emits_bind; [apply emits_sleep, Hs | intros _; exact IH].
Qed.

Lemma keeps_for_retry {A} R `{!PreOrder R} n (body orelse : M A) :
  keeps R body -> keeps R orelse -> keeps R (for_retry n body orelse).
Proof.
  intros Hb Ho. induction n as [|n IH]; simpl; [exact Ho|].
  apply keeps_try; [assumption | exact Hb|]. intros _.
  apply keeps_bind; [assumption | apply keeps_emit, _ | intros _; exact IH].
Qed.

Lemma emits_weaken {A} (E E' : event -> Prop) (m : M A) :
  (forall e, E e -> E' e) -> emits E m -> emits E' m.
Proof. intros H Hm w. eapply Forall_impl; [apply Hm | exact H]. Qed.

(** A retry loop, with an invariant [I] carried through failed attempts,
    a property [Pre] of what failed attempts emit, and a postcondition
    [Q] that tolerates such a prefix. *)
Lemma for_retry_rule {A} (I : World -> Prop) (Pre : list event -> Prop)
    (Q : outcome A -> World -> list event -> Prop) (body orelse : M A) :
  (forall w, I w ->
     match result (body w) with
     | Ok a => Q (Ok a) (final (body w)) (events (body w))
     | Raise _ => I (final (body w)) ∧ Pre (events (body w))
     end) ->
  (forall w, I w -> Q (result (orelse w)) (final (orelse w)) (events (orelse w))) ->
  (forall r w' e1 e2, Pre e1 -> Q r w' e2 -> Q r w' (e1 ++ Sleep 3 :: e2)) ->
  forall n w, I w ->
    Q (result (for_retry n body orelse w)) (final (for_retry n body orelse w))
      (events (for_retry n body orelse w)).
Proof.
  intros Hb Ho Hq n. induction n as [|n IH]; intros w Hw; simpl.
  - apply Ho, Hw.
  - unfold try_except. specialize (Hb w Hw).
    destruct (result (body w)) as [a|e] eqn:Hr.
    + rewrite Hr. exact Hb.
    + destruct Hb as [Hi Hp]. cbn.
      apply Hq; [exact Hp | apply IH, Hi].
Qed.

(** A retry loop whose fallback returns never raises. *)
Lemma for_retry_total {A} n (body orelse : M A) w :
  (forall w', exists a, result (orelse w') = Ok a) ->
  exists a, result (for_retry n body orelse w) = Ok a.
Proof.
  intros Ho. revert w. induction n as [|n IH]; intros w; simpl; [apply Ho|].
  unfold try_except. destruct (result (body w)) as [a|e] eqn:Hr.
  - exists a. exact Hr.
  - cbn. apply IH.
Qed.

Arguments for_retry : simpl never.

(** ** What the operations leave alone *)

#[global] Instance same_env_preorder : PreOrder same_env.
Proof.
  split.
  - intros w. repeat split.
  - intros w1 w2 w3 (?&?&?) (?&?&?). repeat split; congruence.
Qed.

#[global] Instance same_local_preorder : PreOrder same_local.
Proof. split; [intros w; reflexivity | intros w1 w2 w3; unfold same_local; congruence]. Qed.

#[global] Instance same_remote_preorder : PreOrder same_remote.
Proof. split; [intros w; reflexivity | intros w1 w2 w3; unfold same_remote; congruence]. Qed.

Create HintDb frame.

#[export] Hint Resolve emits_ret emits_raise emits_get emits_modify emits_bind
  emits_try emits_for_retry emits_sleep keeps_ret keeps_raise keeps_get
  keeps_bind keeps_try keeps_for_retry keeps_emit
  same_env_preorder same_local_preorder same_remote_preorder : frame.

Lemma emits_remote_call E op effect :
  (forall ok, E (Call op ok)) -> emits E (remote_call op effect).
Proof.
  intros H w. unfold remote_call.
  destruct (faults w (calls w) op); repeat constructor; apply H.
Qed.

Lemma keeps_remote_call R `{!PreOrder R} op effect :
  (forall w, R w (tick w)) -> (forall w, R w (effect w)) ->
  keeps R (remote_call op effect).
Proof.
  intros Ht He w. unfold remote_call.
  destruct (faults w (calls w) op); simpl; [apply Ht|].
  etransitivity; [apply Ht | apply He].
Qed.

Lemma keeps_modify R f : (forall w, R w (f w)) -> keeps R (modify f).
Proof. intros H w. apply H. Qed.

Lemma same_env_tick w : same_env w (tick w).
Proof. repeat split. Qed.
Lemma same_local_tick w : same_local w (tick w).
Proof. reflexivity. Qed.
Lemma same_remote_tick w : same_remote w (tick w).
Proof. reflexivity. Qed.
Lemma same_env_set_remote r w : same_env w (set_remote r w).
Proof. repeat split. Qed.
Lemma same_local_set_remote r w : same_local w (set_remote r w).
Proof. reflexivity. Qed.
Lemma same_env_set_vectorStore v w : same_env w (set_vectorStore v w).
Proof. repeat split. Qed.
Lemma same_remote_set_vectorStore v w : same_remote w (set_vectorStore v w).
Proof. reflexivity. Qed.
Lemma same_env_set_productKnowledgePool p w :
  same_env w (set_productKnowledgePool p w).
Proof. repeat split. Qed.
Lemma same_remote_set_productKnowledgePool p w :
  same_remote w (set_productKnowledgePool p w).
Proof. reflexivity. Qed.

#[export] Hint Resolve emits_remote_call keeps_remote_call keeps_modify
  same_env_tick same_local_tick same_remote_tick same_env_set_remote
  same_local_set_remote same_env_set_vectorStore same_remote_set_vectorStore
  : frame.

Lemma call_or_sleep_call op ok : call_or_sleep (Call op ok).
Proof. exact I. Qed.
Lemma call_or_sleep_sleep n : call_or_sleep (Sleep n).
Proof. exact I. Qed.
#[export] Hint Resolve call_or_sleep_call call_or_sleep_sleep : frame.

Section Primitives.

Variable E : event -> Prop.
Hypothesis E_call : forall op ok, E (Call op ok).
Hypothesis E_sleep : forall n, E (Sleep n).

Lemma emits_list_objects pfx : emits E (list_objects pfx).
Proof. unfold list_objects. auto with frame. Qed.

Lemma emits_delete_objects keys : emits E (delete_objects keys).
Proof. unfold delete_objects. auto with frame. Qed.

Lemma emits_download_file key id rel : emits E (download_file key id rel).
Proof.
  intros w. unfold download_file.
  destruct (remote w !! key), (vectorStore w !! id);
    try (repeat constructor; apply E_call).
  destruct (Fs.write _ _ _); [|repeat constructor; apply E_call].
  apply emits_remote_call. intros; apply E_call.
Qed.

Lemma emits_upload_file id rel key : emits E (upload_file id rel key).
Proof.
  intros w. unfold upload_file.
  destruct (Fs.node_at id rel w) as [[data|es]|];
    try (repeat constructor; apply E_call).
  apply emits_remote_call. intros; apply E_call.
Qed.

Lemma emits_checkS3init : emits E VectorStore.__checkS3init.
Proof.
  unfold VectorStore.__checkS3init.
  apply emits_bind; [apply emits_get|]. intros b.
  apply emits_bind; [apply emits_get|]. intros c.
  destruct b, c; auto with frame.
Qed.

Lemma emits_checkS3VectorStoreFor id : emits E (VectorStore.checkS3VectorStoreFor id).
Proof.
  unfold VectorStore.checkS3VectorStoreFor.
  apply emits_bind; [apply emits_checkS3init|]. intros _.
  apply emits_for_retry; auto with frame.
  apply emits_bind; [apply emits_list_objects|]. intros [|? ?]; auto with frame.
Qed.

Lemma emits_delete_each keys contents : emits E (VectorStore.delete_each keys contents).
Proof.
  revert keys. induction contents as [|key rest IH]; intros keys; simpl.
  - auto with frame.
  - apply emits_bind; [apply emits_delete_objects | intros _; apply IH].
Qed.

Lemma emits_deleteS3VectorstoreFor id : emits E (VectorStore.deleteS3VectorstoreFor id).
Proof.
  unfold VectorStore.deleteS3VectorstoreFor.
  apply emits_bind; [apply emits_checkS3init|]. intros _.
  apply emits_for_retry; auto with frame.
  apply emits_bind; [apply emits_list_objects|]. intros [|? ?]; auto with frame.
  apply emits_bind; [apply emits_delete_each | auto with frame].
Qed.

Lemma emits_os_path_isdir id rel : emits E (os_path_isdir id rel).
Proof. apply emits_get. Qed.

Lemma emits_os_listdir id rel : emits E (os_listdir id rel).
Proof.
  intros w. unfold os_listdir.
  destruct (Fs.node_at id rel w) as [[|]|]; constructor.
Qed.

Lemma emits_os_system lib cmd : emits E (os_system lib cmd).
Proof. apply emits_modify. Qed.

Lemma emits_rm_rf lib id : emits E (rm_rf lib id).
Proof.
  unfold rm_rf. destruct (shell_word id); [apply emits_modify|apply emits_os_system].
Qed.

Lemma emits_mkdir_p lib id rel : emits E (mkdir_p lib id rel).
Proof.
  unfold mkdir_p. destruct (shell_word id && shell_path rel);
    [apply emits_modify|apply emits_os_system].
Qed.

Lemma emits_getLocalVectorStoreFor lib id :
  emits E (VectorStore.__getLocalVectorStoreFor lib id).
Proof.
  unfold VectorStore.__getLocalVectorStoreFor.
  apply emits_bind; [apply emits_get|]. intros [d|]; [|auto with frame].
  apply emits_bind; [apply emits_modify|]. intros _.
  destruct (Chroma_open lib _ d).1; auto with frame.
Qed.

Lemma emits_deleteLocalVectorStore lib id :
  emits E (VectorStore.deleteLocalVectorStore lib id).
Proof.
  unfold VectorStore.deleteLocalVectorStore.
  apply emits_bind; [apply emits_getLocalVectorStoreFor|].
  intros vs. apply emits_bind; [destruct vs; [apply emits_modify|auto with frame]|].
  intros _. apply emits_bind; [apply emits_rm_rf|auto with frame].
Qed.

End Primitives.

Section RemoteOnly.

(** Any preorder that ticking the call counter and changing the bucket
    respect is kept by the operations that only talk to the store. *)
Variable R : relation World.
Context `{!PreOrder R}.
Hypothesis R_tick : forall w, R w (tick w).
Hypothesis R_set_remote : forall r w, R w (set_remote r w).

Lemma keeps_list_objects pfx : keeps R (list_objects pfx).
Proof.
  unfold list_objects. apply keeps_bind; [assumption| |intros; apply keeps_get, _].
  apply keeps_remote_call; [assumption|apply R_tick|reflexivity].
Qed.

Lemma keeps_delete_objects keys : keeps R (delete_objects keys).
Proof.
  unfold delete_objects.
  apply keeps_remote_call; [assumption|apply R_tick|intros; apply R_set_remote].
Qed.

Lemma keeps_upload_file id rel key : keeps R (upload_file id rel key).
Proof.
  intros w. unfold upload_file.
  destruct (Fs.node_at id rel w) as [[data|es]|]; try reflexivity.
  apply keeps_remote_call; [assumption|apply R_tick|intros; apply R_set_remote].
Qed.

Lemma keeps_checkS3init : keeps R VectorStore.__checkS3init.
Proof.
  unfold VectorStore.__checkS3init.
  apply keeps_bind; [assumption|apply keeps_get, _|]. intros b.
  apply keeps_bind; [assumption|apply keeps_get, _|]. intros c.
  destruct b, c; auto with frame.
Qed.

Lemma keeps_checkS3VectorStoreFor id : keeps R (VectorStore.checkS3VectorStoreFor id).
Proof.
  unfold VectorStore.checkS3VectorStoreFor.
  apply keeps_bind; [assumption|apply keeps_checkS3init|]. intros _.
  apply keeps_for_retry; [assumption| |auto with frame].
  apply keeps_bind; [assumption|apply keeps_list_objects|].
  intros [|? ?]; auto with frame.
Qed.

Lemma keeps_delete_each keys contents : keeps R (VectorStore.delete_each keys contents).
Proof.
  revert keys. induction contents as [|key rest IH]; intros keys; simpl.
  - auto with frame.
  - apply keeps_bind; [assumption|apply keeps_delete_objects | intros _; apply IH].
Qed.

Lemma keeps_deleteS3VectorstoreFor id : keeps R (VectorStore.deleteS3VectorstoreFor id).
Proof.
  unfold VectorStore.deleteS3VectorstoreFor.
  apply keeps_bind; [assumption|apply keeps_checkS3init|]. intros _.
  apply keeps_for_retry; [assumption| |auto with frame].
  apply keeps_bind; [assumption|apply keeps_list_objects|].
  intros [|? ?]; [auto with frame|].
  apply keeps_bind; [assumption|apply keeps_delete_each|auto with frame].
Qed.

Lemma keeps___upload_file id file_name father :
  keeps R (VectorStore.__upload_file id file_name father).
Proof.
  unfold VectorStore.__upload_file.
  apply keeps_bind; [assumption|apply keeps_checkS3init|]. intros _.
  apply keeps_for_retry; [assumption| |].
  - apply keeps_bind; [assumption|apply keeps_upload_file|auto with frame].
  - apply keeps_bind; [assumption|apply keeps_emit, _|auto with frame].
Qed.

End RemoteOnly.

Section LocalOnly.

(** Any preorder that changing the local folders respects is kept by the
    operations that only touch the file system. *)
Variable R : relation World.
Context `{!PreOrder R}.
Hypothesis R_set_vectorStore : forall v w, R w (set_vectorStore v w).
Hypothesis R_set_productKnowledgePool :
  forall p w, R w (set_productKnowledgePool p w).

Lemma keeps_os_path_isdir id rel : keeps R (os_path_isdir id rel).
Proof. apply keeps_get, _. Qed.

Lemma keeps_os_listdir id rel : keeps R (os_listdir id rel).
Proof.
  intros w. unfold os_listdir.
  destruct (Fs.node_at id rel w) as [[|]|]; reflexivity.
Qed.

Lemma keeps_os_system lib cmd : keeps R (os_system lib cmd).
Proof.
  apply keeps_modify. intros w. etransitivity;
    [apply R_set_vectorStore|apply R_set_productKnowledgePool].
Qed.

Lemma keeps_rm_rf lib id : keeps R (rm_rf lib id).
Proof.
  unfold rm_rf. destruct (shell_word id); [|apply keeps_os_system].
  apply keeps_modify; intros; apply R_set_vectorStore.
Qed.

Lemma keeps_mkdir_p lib id rel : keeps R (mkdir_p lib id rel).
Proof.
  unfold mkdir_p. destruct (shell_word id && shell_path rel); [|apply keeps_os_system].
  apply keeps_modify; intros; apply R_set_vectorStore.
Qed.

Lemma keeps_getLocalVectorStoreFor lib id :
  keeps R (VectorStore.__getLocalVectorStoreFor lib id).
Proof.
  unfold VectorStore.__getLocalVectorStoreFor.
  apply keeps_bind; [assumption|apply keeps_get, _|].
  intros [d|]; [|auto with frame].
  apply keeps_bind; [assumption| |].
  - apply keeps_modify; intros; apply R_set_vectorStore.
  - intros _. destruct (Chroma_open lib _ d).1; auto with frame.
Qed.

Lemma keeps_deleteLocalVectorStore lib id :
  keeps R (VectorStore.deleteLocalVectorStore lib id).
Proof.
  unfold VectorStore.deleteLocalVectorStore.
  apply keeps_bind; [assumption|apply keeps_getLocalVectorStoreFor|].
  intros vs. apply keeps_bind; [assumption| |].
  - destruct vs; [apply keeps_modify; intros; apply R_set_vectorStore
                 |auto with frame].
  - intros _. apply keeps_bind; [assumption|apply keeps_rm_rf|auto with frame].
Qed.

End LocalOnly.

Lemma disk_only_set_vectorStore v w : disk_only w (set_vectorStore v w).
Proof. reflexivity. Qed.

Lemma disk_only_set_productKnowledgePool p w :
  disk_only w (set_productKnowledgePool p w).
Proof. reflexivity. Qed.

#[global] Instance disk_only_preorder : PreOrder disk_only.
Proof.
  split.
  - intros w. by destruct w.
  - intros w1 w2 w3 H12 H23. unfold disk_only in *.
    rewrite H23 at 1. rewrite H12 at 1. reflexivity.
Qed.

Lemma disk_only_same_env w w' : disk_only w w' -> same_env w w'.
Proof. intros H. rewrite H. repeat split. Qed.

Lemma disk_only_same_remote w w' : disk_only w w' -> remote w' = remote w.
Proof. intros H. rewrite H. reflexivity. Qed.

Lemma disk_only_calls w w' : disk_only w w' -> calls w' = calls w.
Proof. intros H. rewrite H. reflexivity. Qed.

(** [__getLocalVectorStoreFor]: the handle when the folder is there and
    the constructor returns, and the folder as the constructor leaves it. *)
Lemma getLocalVectorStoreFor_run lib id w :
  VectorStore.__getLocalVectorStoreFor lib id w =
  match vectorStore w !! id with
  | Some d =>
      mkRun (Ok (if (Chroma_open lib (Fs.local_path id "") d).1
                 then Some (mkChroma (Fs.local_path id "")) else None))
            (set_vectorStore
               (<[id := (Chroma_open lib (Fs.local_path id "") d).2]> (vectorStore w)) w)
            []
  | None => mkRun (Ok None) w []
  end.
Proof.
  unfold VectorStore.__getLocalVectorStoreFor. rewrite run_bind.
  unfold get. cbn [result final events app].
  destruct (vectorStore w !! id) as [d|]; [|reflexivity].
  rewrite run_bind. unfold modify. cbn [result final events app].
  destruct (Chroma_open lib _ d).1; reflexivity.
Qed.

(** [deleteLocalVectorStore] always returns [True], makes no remote call
    and changes nothing but the local folders. *)
Lemma deleteLocalVectorStore_returns lib id w :
  exists w', VectorStore.deleteLocalVectorStore lib id w = mkRun (Ok true) w' [] ∧
             disk_only w w'.
Proof.
  pose proof (keeps_deleteLocalVectorStore disk_only disk_only_set_vectorStore
                disk_only_set_productKnowledgePool lib id w) as Hk.
  assert (Hr : result (VectorStore.deleteLocalVectorStore lib id w) = Ok true ∧
               events (VectorStore.deleteLocalVectorStore lib id w) = []).
  { unfold VectorStore.deleteLocalVectorStore.
    rewrite run_bind, getLocalVectorStoreFor_run.
    destruct (vectorStore w !! id) as [d|]; cbn [result final events app].
    - destruct (Chroma_open lib _ d).1; rewrite !run_bind;
        unfold modify, rm_rf, os_system, modify;
        destruct (shell_word id); cbn [result final events app]; by split.
    - rewrite !run_bind; unfold ret, rm_rf, os_system, modify;
        destruct (shell_word id); cbn [result final events app]; by split. }
  destruct Hr as [Hres Hev].
  exists (final (VectorStore.deleteLocalVectorStore lib id w)). split; [|exact Hk].
  destruct (VectorStore.deleteLocalVectorStore lib id w) as [r f e].
  cbn in *. by subst.
Qed.

(** For an id the shell reads as one plain word, the local folder of
    [id] is gone once [deleteLocalVectorStore] returns. *)
Lemma deleteLocalVectorStore_run lib id w :
  shell_word id = true ->
  VectorStore.deleteLocalVectorStore lib id w =
  mkRun (Ok true) (set_vectorStore (delete id (vectorStore w)) w) [].
Proof.
  intros Hid. unfold VectorStore.deleteLocalVectorStore.
  rewrite run_bind, getLocalVectorStoreFor_run. unfold rm_rf. rewrite Hid.
  destruct (vectorStore w !! id) as [d|]; cbn [result final events app].
  - destruct (Chroma_open lib _ d).1; rewrite !run_bind; unfold modify, ret;
      cbn [result final events app vectorStore set_vectorStore];
      unfold set_vectorStore; cbn [vectorStore __bucket __S3 __bucket_name remote
        productKnowledgePool faults calls recursion_left];
      rewrite ?delete_alter_eq, ?delete_insert_eq; reflexivity.
  - rewrite !run_bind. unfold modify, ret. reflexivity.
Qed.

(** ** Listing the bucket *)

Lemma elem_of_keys_with_prefix pfx (r : gmap string string) k :
  k ∈ keys_with_prefix pfx r <-> is_Some (r !! k) ∧ Py.startswith k pfx = true.
Proof.
  unfold keys_with_prefix. rewrite list_elem_of_fmap. split.
  - intros [[k' v] [-> Hin]]. apply elem_of_map_to_list in Hin.
    apply map_lookup_filter_Some in Hin as [Hk Hp]. simpl in *. eauto.
  - intros [[v Hv] Hp]. exists (k, v). split; [reflexivity|].
    apply elem_of_map_to_list, map_lookup_filter_Some. auto.
Qed.

Lemma keys_with_prefix_nil id (r : gmap string string) :
  keys_with_prefix (VectorStore.prefix_of id) r = [] <-> no_objects id r.
Proof.
  split.
  - intros Hnil k Hp. destruct (r !! k) as [v|] eqn:Hk; [|reflexivity].
    assert (Hin : k ∈ keys_with_prefix (VectorStore.prefix_of id) r)
      by (apply elem_of_keys_with_prefix; eauto).
    rewrite Hnil in Hin. by apply elem_of_nil in Hin.
  - intros Hno. destruct (keys_with_prefix _ r) as [|k ks] eqn:Hks; [reflexivity|].
    assert (Hin : k ∈ keys_with_prefix (VectorStore.prefix_of id) r)
      by (rewrite Hks; left).
    apply elem_of_keys_with_prefix in Hin as [[v Hv] Hp].
    rewrite (Hno k Hp) in Hv. discriminate.
Qed.

Lemma list_objects_run pfx w :
  list_objects pfx w =
  if faults w (calls w) (ListObjects pfx)
  then mkRun (Raise (RemoteError (ListObjects pfx))) (tick w)
             [Call (ListObjects pfx) false]
  else mkRun (Ok (keys_with_prefix pfx (remote w))) (tick w)
             [Call (ListObjects pfx) true].
Proof.
  unfold list_objects, remote_call. rewrite run_bind.
  destruct (faults w (calls w) (ListObjects pfx)); reflexivity.
Qed.

(** ** An index that was never built *)

Ltac run_step := cbn [result final events app].

Lemma list_attempt_absent id (w w' : World) (k : list string -> M bool) :
  remote w' = remote w -> no_objects id (remote w) ->
  k [] = ret false ->
  match result ((list_objects (VectorStore.prefix_of id) ≫= k) w') with
  | Ok a => Ok a = Ok false
  | Raise _ =>
      remote (final ((list_objects (VectorStore.prefix_of id) ≫= k) w')) = remote w
      ∧ True
  end.
Proof.
  intros Hw' Hno Hk. rewrite run_bind, list_objects_run.
  destruct (faults w' (calls w') _); run_step; [split; [exact Hw'|exact I]|].
  rewrite Hw', (proj2 (keys_with_prefix_nil id (remote w)) Hno), Hk.
  reflexivity.
Qed.

Lemma checkS3VectorStoreFor_absent id w :
  initialised w -> no_objects id (remote w) ->
  result (VectorStore.checkS3VectorStoreFor id w) = Ok false.
Proof.
  intros Hi Hno. unfold VectorStore.checkS3VectorStoreFor.
  rewrite (run_bind_ok _ _ _ _ _ _ (checkS3init_ok w Hi)). run_step.
  apply (for_retry_rule (fun w' => remote w' = remote w) (fun _ => True)
           (fun r _ _ => r = Ok false)).
  - intros w' Hw'. by apply list_attempt_absent.
  - intros w' _. reflexivity.
  - intros r w' e1 e2 _ H. exact H.
  - reflexivity.
Qed.

Lemma downloadS3VectorstoreFor_absent lib id w :
  initialised w -> no_objects id (remote w) ->
  result (VectorStore.__downloadS3VectorstoreFor lib id w) = Ok false.
Proof.
  intros Hi Hno. unfold VectorStore.__downloadS3VectorstoreFor.
  rewrite (run_bind_ok _ _ _ _ _ _ (checkS3init_ok w Hi)). run_step.
  destruct (deleteLocalVectorStore_returns lib id w) as (w1 & Hrun & Hdisk).
  rewrite (run_bind_ok _ _ _ _ _ _ Hrun). run_step.
  apply (for_retry_rule (fun w' => remote w' = remote w) (fun _ => True)
           (fun r _ _ => r = Ok false)).
  - intros w' Hw'. by apply list_attempt_absent.
  - intros w' _.
    destruct (deleteLocalVectorStore_returns lib id w') as (w2 & Hrun2 & _).
    rewrite (run_bind_ok _ _ _ _ _ _ Hrun2). reflexivity.
  - intros r w' e1 e2 _ H. exact H.
  - by apply disk_only_same_remote.
Qed.

(** X19.  With the storage initialised, an id such that no key of the
    bucket starts with [vectorstores/{id}] does not exist and cannot be
    fetched: [checkS3VectorStoreFor] returns [False] and
    [getS3VectorStoreFor] returns [None], whether or not the remote calls
    fail on the way. *)
Theorem never_built_is_absent lib id w :
  initialised w -> no_objects id (remote w) ->
  result (VectorStore.checkS3VectorStoreFor id w) = Ok false ∧
  result (VectorStore.getS3VectorStoreFor lib id w) = Ok None.
Proof.
  intros Hi Hno. split; [by apply checkS3VectorStoreFor_absent|].
  unfold VectorStore.getS3VectorStoreFor. rewrite run_bind.
  rewrite (downloadS3VectorstoreFor_absent lib id w Hi Hno). reflexivity.
Qed.

(** ** After a build *)

Lemma deleteLocalVectorStore_then {A} lib id (a : A) w :
  shell_word id = true ->
  (VectorStore.deleteLocalVectorStore lib id ;; ret a) w =
  mkRun (Ok a) (set_vectorStore (delete id (vectorStore w)) w) [].
Proof.
  intros Hid.
  rewrite (run_bind_ok _ _ _ _ _ _ (deleteLocalVectorStore_run lib id w Hid)).
  reflexivity.
Qed.

Lemma deleteLocalVectorStore_then_returns {A} lib id (a : A) w :
  exists w', (VectorStore.deleteLocalVectorStore lib id ;; ret a) w =
             mkRun (Ok a) w' [] ∧ disk_only w w'.
Proof.
  destruct (deleteLocalVectorStore_returns lib id w) as (w1 & Hrun & Hdisk).
  exists w1. split; [|exact Hdisk].
  rewrite (run_bind_ok _ _ _ _ _ _ Hrun). reflexivity.
Qed.

Lemma vectorStore_after_delete id w :
  vectorStore (set_vectorStore (delete id (vectorStore w)) w) !! id = None.
Proof. unfold set_vectorStore. cbn [vectorStore]. apply lookup_delete_eq. Qed.

(** Whenever a build of an id that is one plain word returns at all, the
    local folder of the id is gone. *)
Lemma build_returns_local_gone lib id w b :
  shell_word id = true ->
  result (VectorStore.buildS3VectorStoreFor lib id w) = Ok b ->
  vectorStore (final (VectorStore.buildS3VectorStoreFor lib id w)) !! id = None.
Proof.
  intros Hid. unfold VectorStore.buildS3VectorStoreFor. rewrite run_bind.
  generalize (VectorStore.__buildLocalVectorStoreFor lib id w). intros r0.
  destruct (result r0); run_step; [|discriminate].
  rewrite run_bind.
  generalize (VectorStore.__uploadS3VectorstoreFor lib id (final r0)). intros r1.
  destruct (result r1) as [[|]|]; run_step; [| |discriminate];
    rewrite (deleteLocalVectorStore_then _ _ _ _ Hid); run_step; intros _;
    apply vectorStore_after_delete.
Qed.

(** ** Running out of attempts *)

Lemma timeline_app e1 e2 : timeline (e1 ++ e2) = timeline e1 ++ timeline e2.
Proof.
  induction e1 as [|[op ok|n|? ? ?] e1 IH]; simpl; rewrite ?IH; reflexivity.
Qed.

Lemma failed_pass_one : failed_pass [Attempt false].
Proof. by exists 0. Qed.

Lemma failed_pass_two : failed_pass [Attempt true; Attempt false].
Proof. by exists 1. Qed.

(** Three passes of a retry loop that all raise. *)
Lemma for_retry_exhausted {A} (body orelse : M A) (I : World -> Prop) :
  (forall w, I w ->
     exists e w' evs, body w = mkRun (Raise e) w' evs ∧
                      failed_pass (timeline evs) ∧ I w') ->
  forall w, I w ->
  exists w' t1 t2 t3,
    I w' ∧ failed_pass t1 ∧ failed_pass t2 ∧ failed_pass t3 ∧
    result (for_retry 3 body orelse w) = result (orelse w') ∧
    final (for_retry 3 body orelse w) = final (orelse w') ∧
    timeline (events (for_retry 3 body orelse w)) =
      t1 ++ Delay 3 :: t2 ++ Delay 3 :: t3 ++ Delay 3 :: timeline (events (orelse w')).
Proof.
  intros Hb w Hw.
  destruct (Hb w Hw) as (e1 & w1 & evs1 & H1 & Hp1 & Hw1).
  destruct (Hb w1 Hw1) as (e2 & w2 & evs2 & H2 & Hp2 & Hw2).
  destruct (Hb w2 Hw2) as (e3 & w3 & evs3 & H3 & Hp3 & Hw3).
  exists w3, (timeline evs1), (timeline evs2), (timeline evs3).
  split; [exact Hw3|]. split; [exact Hp1|]. split; [exact Hp2|].
  split; [exact Hp3|].
  rewrite (for_retry_failed _ _ _ _ _ _ _ H1).
  rewrite (for_retry_failed _ _ _ _ _ _ _ H2).
  rewrite (for_retry_failed _ _ _ _ _ _ _ H3).
  cbn [result final events for_retry].
  split; [reflexivity|]. split; [reflexivity|].
  rewrite !timeline_app. cbn [timeline]. rewrite !timeline_app. cbn [timeline].
  rewrite timeline_app. reflexivity.
Qed.

(** A pass of the loop of [checkS3VectorStoreFor]. *)
Lemma check_pass_raises id (w0 w : World) :
  (forall n, pass_raises (Exists id) w0 n) -> faults w = faults w0 ->
  exists e w' evs,
    (res ← list_objects (VectorStore.prefix_of id);
     match res with [] => ret false | _ => ret true end) w =
    mkRun (Raise e) w' evs ∧ failed_pass (timeline evs) ∧ faults w' = faults w0.
Proof.
  intros Hall Hf. rewrite run_bind, list_objects_run, Hf, (Hall (calls w)).
  eexists _, _, _. split; [reflexivity|]. split; [apply failed_pass_one|exact Hf].
Qed.

(** A pass of the loop of [__upload_file]. *)
Lemma upload_pass_raises id file_name father (w0 w : World) :
  (forall n, pass_raises (Upload id file_name father) w0 n) -> faults w = faults w0 ->
  exists e w' evs,
    (upload_file id (upload_source file_name father) (upload_key id file_name father) ;;
     ret true) w =
    mkRun (Raise e) w' evs ∧ failed_pass (timeline evs) ∧ faults w' = faults w0.
Proof.
  intros Hall Hf. rewrite run_bind. unfold upload_file.
  destruct (Fs.node_at id _ w) as [[data|es]|].
  - unfold remote_call. rewrite Hf, (Hall (calls w)). cbn [result final events].
    eexists _, _, _. split; [reflexivity|]. split; [apply failed_pass_one|exact Hf].
  - cbn [result final events].
    eexists _, _, _. split; [reflexivity|]. split; [apply failed_pass_one|exact Hf].
  - cbn [result final events].
    eexists _, _, _. split; [reflexivity|]. split; [apply failed_pass_one|exact Hf].
Qed.

(** A pass of the loop of [deleteS3VectorstoreFor]: the listing raises,
    or the first deletion after it does; the bucket is as before. *)
Lemma delete_pass_raises id (w0 w : World) :
  (forall n, pass_raises (Delete id) w0 n) ->
  faults w = faults w0 ∧ remote w = remote w0 ->
  exists e w' evs,
    (res ← list_objects (VectorStore.prefix_of id);
     match res with
     | [] => ret true
     | _ => VectorStore.delete_each [] res ;; ret true
     end) w =
    mkRun (Raise e) w' evs ∧ failed_pass (timeline evs) ∧
    (faults w' = faults w0 ∧ remote w' = remote w0).
Proof.
  intros Hall [Hf Hr]. rewrite run_bind, list_objects_run, Hf.
  destruct (faults w0 (calls w) (ListObjects (VectorStore.prefix_of id))) eqn:Hl.
  - eexists _, _, _. split; [reflexivity|]. split; [apply failed_pass_one|by split].
  - destruct (Hall (calls w)) as [Hl'|[Hobj Hdel]]; [cbn in Hl'; congruence|].
    cbn [result final events]. rewrite Hr. unfold has_objects in Hobj.
    destruct (keys_with_prefix (VectorStore.prefix_of id) (remote w0)) as [|k ks];
      [discriminate|].
    rewrite run_bind. cbn [VectorStore.delete_each app]. rewrite run_bind.
    unfold delete_objects, remote_call. cbn [faults calls tick].
    rewrite Hf, (Hdel [k]). cbn [result final events app].
    eexists _, _, _. split; [reflexivity|]. split; [apply failed_pass_two|by split].
Qed.

Lemma download_file_raises key id rel w :
  faults w (calls w) (DownloadFile key (Fs.local_path id rel)) = true ->
  exists e w',
    download_file key id rel w =
      mkRun (Raise e) w' [Call (DownloadFile key (Fs.local_path id rel)) false] ∧
    faults w' = faults w ∧ remote w' = remote w.
Proof.
  intros Hf. unfold download_file.
  destruct (remote w !! key), (vectorStore w !! id);
    try (eexists _, _; split; [reflexivity|by split]).
  destruct (Fs.write _ _ _); [|eexists _, _; split; [reflexivity|by split]].
  unfold remote_call. rewrite Hf. eexists _, _. split; [reflexivity|by split].
Qed.

(** A pass of the loop of [__downloadS3VectorstoreFor]: the listing
    raises, or the first download after it does. *)
Lemma download_pass_raises lib id (w0 w : World) :
  (forall n, pass_raises (Download id) w0 n) ->
  faults w = faults w0 ∧ remote w = remote w0 ->
  exists e w' evs,
    (res ← list_objects (VectorStore.prefix_of id);
     match res with
     | [] => ret false
     | _ => VectorStore.download_each lib id res ;; ret true
     end) w =
    mkRun (Raise e) w' evs ∧ failed_pass (timeline evs) ∧
    (faults w' = faults w0 ∧ remote w' = remote w0).
Proof.
  intros Hall [Hf Hr]. rewrite run_bind, list_objects_run, Hf.
  destruct (faults w0 (calls w) (ListObjects (VectorStore.prefix_of id))) eqn:Hl.
  - eexists _, _, _. split; [reflexivity|]. split; [apply failed_pass_one|by split].
  - destruct (Hall (calls w)) as [Hl'|[Hobj Hdown]]; [cbn in Hl'; congruence|].
    cbn [result final events]. rewrite Hr. unfold has_objects in Hobj.
    destruct (keys_with_prefix (VectorStore.prefix_of id) (remote w0)) as [|k ks];
      [discriminate|].
    rewrite run_bind. cbn [VectorStore.download_each]. rewrite run_bind.
    set (father := Py.join "/" (Py.slice_2_m1 (Py.split "/"%char k))).
    set (mk := if Fs.nonempty father then mkdir_p lib id father else mkdir_p lib id "").
    assert (Hmk : disk_only (tick w) (final (mk (tick w))) ∧
                  result (mk (tick w)) = Ok tt ∧ events (mk (tick w)) = []).
    { unfold mk, mkdir_p, os_system, modify.
      destruct (Fs.nonempty father);
        [destruct (shell_word id && shell_path father)
        |destruct (shell_word id && shell_path "")];
        cbn [result final events]; by repeat split. }
    destruct Hmk as (Hdisk & Hres & Hev). rewrite Hres, Hev.
    cbn [result final events app]. rewrite run_bind.
    generalize dependent (final (mk (tick w))). intros w1 Hdisk.
    destruct (download_file_raises k id
                (father +:+ "/" +:+ Py.last_item (Py.split "/"%char k)) w1)
      as (e & w2 & Hrun & Hf2 & Hr2).
    { rewrite (disk_only_calls _ _ Hdisk).
      destruct (disk_only_same_env _ _ Hdisk) as (_ & _ & Hfw1). rewrite Hfw1.
      cbn [faults calls tick]. rewrite Hf. apply Hdown. }
    rewrite Hrun. cbn [result final events app].
    eexists _, _, _. split; [reflexivity|]. split; [apply failed_pass_two|].
    destruct (disk_only_same_env _ _ Hdisk) as (_ & _ & Hfw1).
    rewrite Hf2, Hr2, Hfw1, (disk_only_same_remote _ _ Hdisk).
    cbn [faults remote tick]. by split.
Qed.

(** When every remote call raises, every pass meets a raising call. *)
Lemma all_calls_fail_pass_raises op w :
  all_calls_fail w -> forall n, pass_raises op w n.
Proof. intros H n. destruct op; cbn [pass_raises]; try left; apply H. Qed.


(** ** Deleting and uploading when the store answers *)

Lemma initialised_same_env w w' : same_env w w' -> initialised w -> initialised w'.
Proof. intros (Hb & Hc & _) [? ?]. split; congruence. Qed.

Lemma good_same_env w w' : same_env w w' -> good w -> good w'.
Proof.
  intros He [Hi Ho]. split; [by eapply initialised_same_env|].
  destruct He as (_ & _ & Hf). intros n op. rewrite Hf. apply Ho.
Qed.

Lemma gave_up_app e1 e2 : gave_up (e1 ++ e2) <-> gave_up e1 ∨ gave_up e2.
Proof.
  unfold gave_up. split.
  - intros (i & f & fa & H). apply elem_of_app in H as [H|H]; eauto 6.
  - intros [(i & f & fa & H)|(i & f & fa & H)]; exists i, f, fa;
      apply elem_of_app; auto.
Qed.

Lemma gave_up_nil : ¬ gave_up [].
Proof. intros (i & f & fa & H). by apply elem_of_nil in H. Qed.

Lemma quiet_not_gave_up evs : Forall call_or_sleep evs -> ¬ gave_up evs.
Proof.
  intros Hq (i & f & fa & H). rewrite Forall_forall in Hq.
  exact (Hq _ H).
Qed.

Lemma for_retry_first {A} n (body orelse : M A) w a :
  result (body w) = Ok a -> for_retry (S n) body orelse w = body w.
Proof.
  intros H.
  change (for_retry (S n) body orelse w)
    with (try_except body (fun _ => sleep 3 ;; for_retry n body orelse) w).
  unfold try_except. rewrite H. reflexivity.
Qed.

Lemma delete_objects_run keys w :
  faults w (calls w) (DeleteObjects keys) = false ->
  delete_objects keys w =
  mkRun (Ok tt) (set_remote (foldr delete (remote w) keys) (tick w))
        [Call (DeleteObjects keys) true].
Proof. intros H. unfold delete_objects, remote_call. rewrite H. reflexivity. Qed.

Lemma healthy_not_upload w n op :
  only_uploads_fail w -> is_upload op = false -> faults w n op = false.
Proof.
  intros Ho Hop. destruct (faults w n op) eqn:Hf; [|reflexivity].
  apply Ho in Hf. congruence.
Qed.

(** With deletions answered, the loop of [deleteS3VectorstoreFor] removes
    every listed key and adds nothing. *)
Lemma delete_each_healthy contents : forall keys w,
  only_uploads_fail w ->
  let r := VectorStore.delete_each keys contents w in
  result r = Ok tt ∧
  (forall k, k ∈ contents -> remote (final r) !! k = None) ∧
  (forall k v, remote (final r) !! k = Some v -> remote w !! k = Some v).
Proof.
  induction contents as [|c rest IH]; intros keys w Ho; cbn zeta.
  - cbn [VectorStore.delete_each]. repeat split; [|auto].
    intros k Hk. by apply elem_of_nil in Hk.
  - cbn [VectorStore.delete_each].
    rewrite (run_bind_ok _ _ _ _ _ _
               (delete_objects_run (keys ++ [c]) w
                  (healthy_not_upload w (calls w) (DeleteObjects (keys ++ [c]))
                     Ho eq_refl))).
    run_step.
    set (w1 := set_remote (foldr delete (remote w) (keys ++ [c])) (tick w)).
    destruct (IH (keys ++ [c]) w1 Ho) as (Hr & Hgone & Hsub).
    assert (Hsub' : forall k v,
              remote (final (VectorStore.delete_each (keys ++ [c]) rest w1)) !! k
                = Some v -> remote w !! k = Some v).
    { intros k v Hk. apply Hsub in Hk. unfold w1 in Hk. cbn [remote set_remote] in Hk.
      by apply lookup_foldr_delete_Some in Hk as [_ Hk]. }
    repeat split; [exact Hr| |exact Hsub'].
    intros k Hk. apply elem_of_cons in Hk as [->|Hk]; [|by apply Hgone].
    destruct (remote (final (VectorStore.delete_each (keys ++ [c]) rest w1)) !! c)
      as [v|] eqn:Hc; [|reflexivity].
    apply Hsub in Hc. unfold w1 in Hc. cbn [remote set_remote] in Hc.
    apply lookup_foldr_delete_Some in Hc as [Hnot _].
    exfalso. apply Hnot, elem_of_app. right. left.
Qed.

(** With listing and deletion answered, [deleteS3VectorstoreFor] returns
    [True] and leaves no object under the prefix. *)
Lemma deleteS3VectorstoreFor_healthy id w :
  good w ->
  result (VectorStore.deleteS3VectorstoreFor id w) = Ok true ∧
  no_objects id (remote (final (VectorStore.deleteS3VectorstoreFor id w))).
Proof.
  intros [Hi Ho]. unfold VectorStore.deleteS3VectorstoreFor.
  rewrite (run_bind_ok _ _ _ _ _ _ (checkS3init_ok w Hi)). run_step.
  set (body := list_objects (VectorStore.prefix_of id) ≫= _).
  assert (Hbody : result (body w) = Ok true ∧ no_objects id (remote (final (body w)))).
  { unfold body. rewrite run_bind, list_objects_run.
    rewrite (healthy_not_upload w (calls w)
               (ListObjects (VectorStore.prefix_of id)) Ho eq_refl).
    run_step.
    remember (keys_with_prefix (VectorStore.prefix_of id) (remote w))
      as ks0 eqn:Hks0.
    destruct (delete_each_healthy ks0 [] (tick w) Ho) as (Hr & Hgone & Hsub).
    destruct ks0 as [|k ks].
    - split; [reflexivity|]. apply keys_with_prefix_nil. by symmetry.
    - rewrite run_bind, Hr. unfold ret. run_step. split; [reflexivity|].
      intros k' Hp.
      destruct (remote (final (VectorStore.delete_each [] (k :: ks) (tick w)))
                  !! k') as [v|] eqn:Hk'; [|reflexivity].
      exfalso.
      assert (Hin : k' ∈ k :: ks).
      { rewrite Hks0. apply elem_of_keys_with_prefix.
        split; [|exact Hp]. apply Hsub in Hk'. eauto. }
      apply Hgone in Hin. congruence. }
  destruct Hbody as [Hr Hno].
  rewrite (for_retry_first _ _ _ _ _ Hr). auto.
Qed.

Lemma node_at_same_local id rel w w' :
  vectorStore w' = vectorStore w -> Fs.node_at id rel w' = Fs.node_at id rel w.
Proof. intros H. unfold Fs.node_at. by rewrite H. Qed.

(** The two ways [__upload_file] ends once the storage is initialised:
    it returns [True] after an upload that went through, or it reports
    that it gave up and returns [False] with the bucket as it was. *)
Lemma upload_file_cases id file_name father w :
  initialised w ->
  let r := VectorStore.__upload_file id file_name father w in
  (result r = Ok true ∧ Forall call_or_sleep (events r) ∧
   is_Some (vectorStore w !! id)) ∨
  (result r = Ok false ∧ UploadGaveUp id file_name father ∈ events r ∧
   remote (final r) = remote w).
Proof.
  intros Hi. cbn zeta. unfold VectorStore.__upload_file.
  rewrite (run_bind_ok _ _ _ _ _ _ (checkS3init_ok w Hi)). run_step.
  set (local := if Fs.nonempty father then _ else file_name).
  set (path := if Fs.nonempty father then _ else _).
  apply (for_retry_rule
           (fun w' => remote w' = remote w ∧ vectorStore w' = vectorStore w)
           (Forall call_or_sleep)
           (fun r w' evs =>
              (r = Ok true ∧ Forall call_or_sleep evs ∧
               is_Some (vectorStore w !! id)) ∨
              (r = Ok false ∧ UploadGaveUp id file_name father ∈ evs ∧
               remote w' = remote w))).
  - intros w' [Hr Hv]. rewrite run_bind. unfold upload_file.
    rewrite (node_at_same_local id local w w' Hv).
    destruct (Fs.node_at id local w) as [[data|es]|] eqn:Hn.
    + unfold remote_call.
      destruct (faults w' (calls w') _); run_step.
      * repeat split; [exact Hr|exact Hv|]. repeat constructor.
      * left. repeat split; [repeat constructor|].
        unfold Fs.node_at in Hn. destruct (vectorStore w !! id); [eauto|discriminate].
    + run_step. repeat split; [exact Hr|exact Hv|]. repeat constructor.
    + run_step. repeat split; [exact Hr|exact Hv|]. repeat constructor.
  - intros w' [Hr Hv]. right. repeat split; [|exact Hr].
    rewrite run_bind. run_step. left.
  - intros r w' e1 e2 He1 [(Hr & Hq & Hs)|(Hr & Hin & Hrem)].
    + left. repeat split; [exact Hr| |exact Hs].
      apply Forall_app. split; [exact He1|]. constructor; [exact I|exact Hq].
    + right. repeat split; [exact Hr| |exact Hrem].
      apply elem_of_app. right. right. exact Hin.
  - split; reflexivity.
Qed.

(** In a dead state an upload can only give up. *)
Lemma upload_file_dead id file_name father w :
  initialised w -> vectorStore w !! id = None ->
  let r := VectorStore.__upload_file id file_name father w in
  result r = Ok false ∧ UploadGaveUp id file_name father ∈ events r ∧
  remote (final r) = remote w.
Proof.
  intros Hi Hd. cbn zeta.
  destruct (upload_file_cases id file_name father w Hi) as [(_ & _ & [d Hs])|H];
    [congruence|exact H].
Qed.

Section Frames.

Variable lib : Libraries.

Lemma keeps_env_upload_each recurse id path father files :
  (forall p f, keeps same_env (recurse p f)) ->
  keeps same_env (VectorStore.upload_each lib recurse id path father files).
Proof.
  intros Hrec. induction files as [|file_name rest IH];
    cbn [VectorStore.upload_each]; [apply keeps_ret, _|].
  apply keeps_bind; [apply _|apply keeps_os_path_isdir, _|].
  intros [|].
  - apply keeps_bind; [apply _|apply Hrec|intros _; exact IH].
  - apply keeps_bind; [apply _| |].
    + apply keeps___upload_file; [apply _|apply same_env_tick|apply same_env_set_remote].
    + intros [|]; [exact IH|].
      apply keeps_bind; [apply _| |intros _].
      * apply keeps_deleteS3VectorstoreFor;
          [apply _|apply same_env_tick|apply same_env_set_remote].
      * apply keeps_bind; [apply _| |intros _; apply keeps_ret, _].
        apply keeps_deleteLocalVectorStore;
          [apply _|apply same_env_set_vectorStore
          |apply same_env_set_productKnowledgePool].
Qed.

Lemma keeps_env_upload_frames frames id path father :
  keeps same_env (VectorStore.upload_frames lib frames id path father).
Proof.
  revert path father. induction frames as [|n IH]; intros path father;
    cbn [VectorStore.upload_frames]; [apply keeps_raise, _|].
  apply keeps_bind; [apply _| |intros _].
  - apply keeps_deleteS3VectorstoreFor;
      [apply _|apply same_env_tick|apply same_env_set_remote].
  - apply keeps_bind; [apply _| |intros files].
    + apply keeps_os_listdir, _.
    + apply keeps_env_upload_each. intros p f. apply IH.
Qed.

End Frames.

(** ** Once an upload has given up *)

Section GaveUp.

Variable lib : Libraries.
Variable id : string.
Hypothesis shell_word_id : shell_word id = true.

Lemma cleanup_dead w :
  good w ->
  dead id (final ((VectorStore.deleteS3VectorstoreFor id ;;
                   VectorStore.deleteLocalVectorStore lib id ;;
                   ret false) w)).
Proof.
  intros Hg.
  destruct (deleteS3VectorstoreFor_healthy id w Hg) as [Hr Hno].
  rewrite run_bind, Hr. run_step.
  rewrite (deleteLocalVectorStore_then _ _ _ _ shell_word_id). run_step.
  split; [apply vectorStore_after_delete|exact Hno].
Qed.

Lemma ends_dead_upload_each recurse path father files :
  (forall p f, keeps same_env (recurse p f)) ->
  (forall p f, ends_dead id (recurse p f)) ->
  ends_dead id (VectorStore.upload_each lib recurse id path father files).
Proof.
  intros Henv Hrec. induction files as [|file_name rest IH]; intros w Hg H.
  - destruct H as [H|H]; [by apply gave_up_nil in H|exact H].
  - cbn [VectorStore.upload_each] in *.
    rewrite run_bind in *. unfold os_path_isdir, get in *. run_step.
    cbn [result final events app] in H.
    destruct (match Fs.node_at id (os_path_join path file_name) w with
              | Some (Dir _) => true | _ => false end).
    + (* a directory: the nested call, then the rest *)
      set (fatherPath := if Fs.nonempty father then _ else file_name) in *.
      set (r1 := recurse (os_path_join path file_name) fatherPath w) in *.
      assert (Hg1 : good (final r1)) by (eapply good_same_env; [apply Henv|exact Hg]).
      rewrite run_bind in *. fold r1 in H |- *.
      destruct (result r1); run_step; cbn [result final events app] in H.
      * apply IH; [exact Hg1|].
        destruct H as [H|H].
        -- apply gave_up_app in H as [H|H]; [|by left].
           right. apply Hrec; [exact Hg|by left].
        -- right. apply Hrec; [exact Hg|by right].
      * apply Hrec; [exact Hg|exact H].
    + (* a file *)
      set (r1 := VectorStore.__upload_file id file_name father w) in *.
      assert (Hg1 : good (final r1)).
      { eapply good_same_env; [|exact Hg].
        apply keeps___upload_file;
          [apply _|apply same_env_tick|apply same_env_set_remote]. }
      rewrite run_bind in *. fold r1 in H |- *.
      pose proof (upload_file_cases id file_name father w (proj1 Hg)) as Hc.
      cbn zeta in Hc. fold r1 in Hc.
      destruct Hc as [(Hr & Hq & Hs)|(Hr & Hin & Hrem)].
      * rewrite Hr in *. run_step. cbn [result final events app] in H.
        apply IH; [exact Hg1|].
        destruct H as [H|[Hd _]].
        -- apply gave_up_app in H as [H|H]; [|by left].
           by apply quiet_not_gave_up in H.
        -- destruct Hs as [d Hs]. congruence.
      * rewrite Hr. run_step. by apply cleanup_dead.
Qed.

Lemma ends_dead_upload_frames frames path father :
  ends_dead id (VectorStore.upload_frames lib frames id path father).
Proof.
  revert path father. induction frames as [|n IH]; intros path father w Hg H.
  - destruct H as [H|H]; [by apply gave_up_nil in H|exact H].
  - cbn [VectorStore.upload_frames] in *.
    set (r1 := VectorStore.deleteS3VectorstoreFor id w) in *.
    destruct (deleteS3VectorstoreFor_healthy id w Hg) as [Hr Hno].
    fold r1 in Hr, Hno.
    assert (Hg1 : good (final r1)).
    { eapply good_same_env; [|exact Hg].
      apply keeps_deleteS3VectorstoreFor;
        [apply _|apply same_env_tick|apply same_env_set_remote]. }
    assert (Hl1 : vectorStore (final r1) = vectorStore w).
    { apply (keeps_deleteS3VectorstoreFor same_local);
        [apply same_local_tick|apply same_local_set_remote]. }
    assert (Hq1 : ¬ gave_up (events r1)).
    { apply quiet_not_gave_up.
      apply (emits_deleteS3VectorstoreFor call_or_sleep); intros; exact I. }
    rewrite run_bind in *. fold r1 in H |- *. rewrite Hr in *.
    run_step. cbn [result final events app] in H.
    assert (Hd1 : dead id w -> dead id (final r1)).
    { intros [Hd _]. split; [by rewrite Hl1|exact Hno]. }
    rewrite run_bind in *. unfold os_listdir in *.
    destruct (Fs.node_at id path (final r1)) as [[data|es]|];
      run_step; cbn [result final events app] in H.
    + destruct H as [H|H]; [|by apply Hd1].
      by apply gave_up_app in H as [H|H]; [|apply gave_up_nil in H].
    + apply ends_dead_upload_each; [apply keeps_env_upload_frames|apply IH|exact Hg1|].
      destruct H as [H|H]; [|right; by apply Hd1].
      apply gave_up_app in H as [H|H]; [done|by left].
    + destruct H as [H|H]; [|by apply Hd1].
      by apply gave_up_app in H as [H|H]; [|apply gave_up_nil in H].
Qed.

End GaveUp.

(** ** A whole build *)

Section Build.

Variable lib : Libraries.
Variable id : string.

Lemma buildLocalVectorStoreFor_run w :
  VectorStore.__buildLocalVectorStoreFor lib id w =
  match productKnowledgePool w !! id with
  | None => mkRun (Raise (PoolNotFound id)) w []
  | Some files =>
      match first_unparsed lib ("./productKnowledgePool/" +:+ id) files with
      | None =>
          mkRun (Ok (mkChroma (Fs.local_path id ""))) (staged lib id files w) []
      | Some entry =>
          mkRun (Raise (parse_error ("./productKnowledgePool/" +:+ id) entry)) w []
      end
  end.
Proof.
  unfold VectorStore.__buildLocalVectorStoreFor. rewrite run_bind.
  destruct (productKnowledgePool w !! id) as [files|] eqn:Hpool.
  - rewrite (load_document_run lib id w files Hpool).
    destruct (first_unparsed lib _ files); reflexivity.
  - unfold VectorStore.__load_document. rewrite run_bind.
    unfold get. run_step. by rewrite Hpool.
Qed.

Lemma same_env_staged files w : same_env w (staged lib id files w).
Proof. repeat split. Qed.

Lemma upload_phase_unfold w0 :
  upload_phase lib id w0 =
  VectorStore.upload_frames lib (S (recursion_left w0)) id "" "" w0.
Proof.
  unfold upload_phase, VectorStore.__uploadS3VectorstoreFor.
  rewrite run_bind. unfold get. run_step. apply run_eta.
Qed.

(** A build, in terms of its upload phase: the result and the events are
    those of the upload phase, and the world is the one the closing
    [deleteLocalVectorStore] leaves. *)
Lemma build_run w :
  VectorStore.buildS3VectorStoreFor lib id w =
  match productKnowledgePool w !! id with
  | None => mkRun (Raise (PoolNotFound id)) w []
  | Some files =>
      match first_unparsed lib ("./productKnowledgePool/" +:+ id) files with
      | Some entry =>
          mkRun (Raise (parse_error ("./productKnowledgePool/" +:+ id) entry)) w []
      | None =>
          let u := upload_phase lib id (staged lib id files w) in
          match result u with
          | Ok b =>
              mkRun (Ok b)
                    (final (VectorStore.deleteLocalVectorStore lib id (final u)))
                    (events u)
          | Raise e => mkRun (Raise e) (final u) (events u)
          end
      end
  end.
Proof.
  unfold VectorStore.buildS3VectorStoreFor.
  rewrite run_bind, buildLocalVectorStoreFor_run.
  destruct (productKnowledgePool w !! id) as [files|]; [|reflexivity].
  destruct (first_unparsed lib _ files); [reflexivity|].
  run_step. rewrite run_bind. fold (upload_phase lib id (staged lib id files w)).
  cbn zeta.
  generalize (upload_phase lib id (staged lib id files w)). intros u.
  destruct (result u) as [b|e]; run_step; [|reflexivity].
  destruct (deleteLocalVectorStore_returns lib id (final u)) as (w1 & Hrun & _).
  rewrite Hrun. run_step.
  destruct b; rewrite (run_bind_ok _ _ _ _ _ _ Hrun); run_step;
    by rewrite app_nil_r.
Qed.

(** The same for an id that is one plain word: the closing step removes
    the local folder. *)
Lemma build_run_word w files :
  shell_word id = true ->
  productKnowledgePool w !! id = Some files -> loads lib id files ->
  VectorStore.buildS3VectorStoreFor lib id w =
  let u := upload_phase lib id (staged lib id files w) in
  match result u with
  | Ok b => mkRun (Ok b)
              (set_vectorStore (delete id (vectorStore (final u))) (final u))
              (events u)
  | Raise e => mkRun (Raise e) (final u) (events u)
  end.
Proof.
  intros Hid Hpool Hloads. rewrite build_run, Hpool. unfold loads in Hloads.
  rewrite Hloads. cbn zeta.
  destruct (result (upload_phase lib id (staged lib id files w))); [|reflexivity].
  by rewrite (deleteLocalVectorStore_run lib id _ Hid).
Qed.

(** If any upload gave up during a build and only uploads can fail,
    nothing is left of [id] afterwards, locally or remotely. *)
Lemma build_gave_up_dead w :
  shell_word id = true ->
  good w ->
  gave_up (events (VectorStore.buildS3VectorStoreFor lib id w)) ->
  dead id (final (VectorStore.buildS3VectorStoreFor lib id w)).
Proof.
  intros Hid Hg. rewrite build_run.
  destruct (productKnowledgePool w !! id) as [files|];
    [|intros H; by apply gave_up_nil in H].
  destruct (first_unparsed lib _ files); [intros H; by apply gave_up_nil in H|].
  cbn zeta.
  assert (Hg0 : good (staged lib id files w))
    by (eapply good_same_env; [apply same_env_staged|exact Hg]).
  pose proof (ends_dead_upload_frames lib id Hid
                (S (recursion_left (staged lib id files w))) "" "" (staged lib id files w) Hg0)
    as Hd.
  rewrite <- upload_phase_unfold in Hd.
  generalize dependent (upload_phase lib id (staged lib id files w)). intros u Hd.
  destruct (result u); run_step; intros H.
  - destruct (Hd (or_introl H)) as [_ Hno].
    rewrite (deleteLocalVectorStore_run lib id _ Hid). run_step.
    split; [apply vectorStore_after_delete|exact Hno].
  - apply Hd. by left.
Qed.

(** A build leaves the module globals and the fault schedule alone. *)
Lemma same_env_build w :
  same_env w (final (VectorStore.buildS3VectorStoreFor lib id w)).
Proof.
  rewrite build_run. destruct (productKnowledgePool w !! id) as [files|];
    [|by repeat split].
  destruct (first_unparsed lib _ files); [by repeat split|].
  cbn zeta. rewrite upload_phase_unfold.
  pose proof (keeps_env_upload_frames lib (S (recursion_left (staged lib id files w)))
                id "" "" (staged lib id files w)) as Hk.
  generalize dependent (VectorStore.upload_frames lib
    (S (recursion_left (staged lib id files w))) id "" "" (staged lib id files w)).
  intros u Hk.
  destruct (result u); run_step.
  - etransitivity; [apply same_env_staged|]. etransitivity; [exact Hk|].
    apply keeps_deleteLocalVectorStore;
      [apply _|apply same_env_set_vectorStore
      |apply same_env_set_productKnowledgePool].
  - etransitivity; [apply same_env_staged|exact Hk].
Qed.

End Build.

(** ** Replacing an index that is already there *)

Lemma emits_deletion_delete_each keys contents :
  emits deletion_event (VectorStore.delete_each keys contents).
Proof.
  revert keys. induction contents as [|c rest IH]; intros keys;
    cbn [VectorStore.delete_each]; [apply emits_ret|].
  apply emits_bind; [|intros _; apply IH].
  unfold delete_objects. apply emits_remote_call. intros; exact I.
Qed.

Lemma emits_deletion_deleteS3VectorstoreFor id :
  emits deletion_event (VectorStore.deleteS3VectorstoreFor id).
Proof.
  unfold VectorStore.deleteS3VectorstoreFor.
  apply emits_bind.
  - unfold VectorStore.__checkS3init.
    apply emits_bind; [apply emits_get|]. intros b.
    apply emits_bind; [apply emits_get|]. intros c.
    destruct b, c; auto with frame.
  - intros _. apply emits_for_retry; [exact I| |apply emits_ret].
    apply emits_bind.
    + unfold list_objects. apply emits_bind; [|intros; apply emits_get].
      apply emits_remote_call. intros; exact I.
    + intros [|k ks]; [apply emits_ret|].
      apply emits_bind; [apply emits_deletion_delete_each|intros; apply emits_ret].
Qed.


(** ** An upload that fails at the top of the index folder *)

Lemma nonempty_ne s : Fs.nonempty s = true -> s ≠ "".
Proof. intros H ->. discriminate. Qed.

Lemma nonempty_append a b : Fs.nonempty a = true -> Fs.nonempty (a +:+ b) = true.
Proof. destruct a; [discriminate|reflexivity]. Qed.

Lemma call_or_sleep_not_top e : call_or_sleep e -> not_top_level_give_up e.
Proof. intros H i f ->. exact H. Qed.

Section Nested.

Variable lib : Libraries.
Variable id : string.

Lemma emits_nested_upload_file file_name father :
  Fs.nonempty father = true ->
  emits not_top_level_give_up (VectorStore.__upload_file id file_name father).
Proof.
  intros Hf. unfold VectorStore.__upload_file.
  apply emits_bind.
  - apply (emits_weaken call_or_sleep); [apply call_or_sleep_not_top|].
    apply emits_checkS3init; intros; exact I.
  - intros _. apply emits_for_retry; [by intros i f| |].
    + apply emits_bind; [|intros; apply emits_ret].
      apply (emits_weaken call_or_sleep); [apply call_or_sleep_not_top|].
      apply emits_upload_file; intros; exact I.
    + apply emits_bind; [|intros; apply emits_ret].
      apply emits_emit. intros i f [= _ _ ->]. discriminate.
Qed.

Lemma emits_quiet_cleanup :
  emits not_top_level_give_up
    (VectorStore.deleteS3VectorstoreFor id ;;
     VectorStore.deleteLocalVectorStore lib id ;; ret false).
Proof.
  apply (emits_weaken call_or_sleep); [apply call_or_sleep_not_top|].
  apply emits_bind; [apply emits_deleteS3VectorstoreFor; intros; exact I|].
  intros _. apply emits_bind; [|intros; apply emits_ret].
  apply emits_deleteLocalVectorStore; intros; exact I.
Qed.

Lemma emits_nested_upload_each recurse path father files :
  Fs.nonempty father = true ->
  (forall p f, Fs.nonempty f = true -> emits not_top_level_give_up (recurse p f)) ->
  emits not_top_level_give_up
    (VectorStore.upload_each lib recurse id path father files).
Proof.
  intros Hf Hrec. induction files as [|file_name rest IH];
    cbn [VectorStore.upload_each]; [apply emits_ret|].
  apply emits_bind; [apply emits_get|]. intros [|].
  - apply emits_bind; [|intros _; exact IH].
    apply Hrec. rewrite Hf. by apply nonempty_append.
  - apply emits_bind; [by apply emits_nested_upload_file|].
    intros [|]; [exact IH|apply emits_quiet_cleanup].
Qed.

Lemma emits_nested_upload_frames frames path father :
  Fs.nonempty father = true ->
  emits not_top_level_give_up
    (VectorStore.upload_frames lib frames id path father).
Proof.
  revert path father. induction frames as [|n IH]; intros path father Hf;
    cbn [VectorStore.upload_frames]; [apply emits_raise|].
  apply emits_bind.
  - apply (emits_weaken call_or_sleep); [apply call_or_sleep_not_top|].
    apply emits_deleteS3VectorstoreFor; intros; exact I.
  - intros _. apply emits_bind.
    + apply (emits_weaken call_or_sleep); [apply call_or_sleep_not_top|].
      apply emits_os_listdir.
    + intros files. apply emits_nested_upload_each; [exact Hf|].
      intros p f Hnf. by apply IH.
Qed.

(** A give-up on a top-level file ends the loop with [False]. *)
Lemma top_level_each frames files : forall w file,
  Forall (fun f => Fs.nonempty f = true) files ->
  let r := VectorStore.upload_each lib (VectorStore.upload_frames lib frames id)
             id "" "" files w in
  UploadGaveUp id file "" ∈ events r -> result r = Ok false.
Proof.
  induction files as [|file_name rest IH]; intros w file Hne; cbn zeta.
  - intros H. by apply elem_of_nil in H.
  - apply Forall_cons in Hne as [Hn Hne].
    cbn [VectorStore.upload_each].
    rewrite run_bind. unfold os_path_isdir, get. run_step.
    destruct (match Fs.node_at id (os_path_join "" file_name) w with
              | Some (Dir _) => true | _ => false end).
    + change (if Fs.nonempty "" then "" +:+ "/" +:+ file_name else file_name)
        with file_name.
      pose proof (emits_nested_upload_frames frames
                    (os_path_join "" file_name) file_name Hn w) as He.
      rewrite run_bind.
      generalize dependent
        (VectorStore.upload_frames lib frames id (os_path_join "" file_name)
           file_name w).
      intros r1 He. rewrite Forall_forall in He.
      destruct (result r1); run_step; intros H.
      * apply elem_of_app in H as [H|H];
          [exfalso; exact (He _ H _ _ eq_refl)|].
        by apply (IH _ file).
      * exfalso. exact (He _ H _ _ eq_refl).
    + destruct (initialised_dec w) as [Hi|Hu].
      * pose proof (upload_file_cases id file_name "" w Hi) as Hc.
        cbn zeta in Hc. rewrite run_bind.
        assert (Hi1 : initialised
                        (final (VectorStore.__upload_file id file_name "" w))).
        { eapply initialised_same_env; [|exact Hi].
          apply keeps___upload_file;
            [apply _|apply same_env_tick|apply same_env_set_remote]. }
        generalize dependent (VectorStore.__upload_file id file_name "" w).
        intros r1 [(Hr & Hq & _)|(Hr & _ & _)] Hi1; rewrite Hr; run_step.
        -- intros H. apply elem_of_app in H as [H|H]; [|by apply (IH _ file)].
           rewrite Forall_forall in Hq. by apply Hq in H.
        -- intros _. rewrite run_bind.
           destruct (for_retry_total 3
                       (res ← list_objects (VectorStore.prefix_of id);
                        match res with
                        | [] => ret true
                        | _ => VectorStore.delete_each [] res ;; ret true
                        end) (ret false) (final r1)) as [b Hb];
             [intros; by eexists|].
           unfold VectorStore.deleteS3VectorstoreFor.
           rewrite (run_bind_ok _ _ _ _ _ _ (checkS3init_ok _ Hi1)). run_step.
           rewrite Hb. run_step.
           destruct (deleteLocalVectorStore_then_returns lib id false (final r1))
             as (w3 & Hrun3 & _).
           destruct (deleteLocalVectorStore_then_returns lib id false
                       (final (for_retry 3
                          (res ← list_objects (VectorStore.prefix_of id);
                           match res with
                           | [] => ret true
                           | _ => VectorStore.delete_each [] res ;; ret true
                           end) (ret false) (final r1))))
             as (w4 & Hrun4 & _).
           rewrite Hrun4. reflexivity.
      * pose proof (guarded_fails_fast
                      (for_retry 3
                         (upload_file id
                            (if Fs.nonempty "" then "" +:+ "/" +:+ file_name
                             else file_name)
                            (if Fs.nonempty ""
                             then "vectorstores/" +:+ id +:+ "/" +:+ "" +:+ "/"
                                  +:+ file_name
                             else "vectorstores/" +:+ id +:+ "/" +:+ file_name) ;;
                          ret true)
                         (emit (UploadGaveUp id file_name "") ;; ret false)) w Hu)
          as Hf.
        rewrite run_bind. unfold failed_fast in Hf.
        unfold VectorStore.__upload_file. rewrite Hf. run_step.
        intros H. by apply elem_of_nil in H.
Qed.

Lemma top_level_frames frames w file :
  let r := VectorStore.upload_frames lib frames id "" "" w in
  UploadGaveUp id file "" ∈ events r -> result r = Ok false.
Proof.
  cbn zeta. destruct frames as [|n]; cbn [VectorStore.upload_frames].
  - intros H. by apply elem_of_nil in H.
  - pose proof (emits_deleteS3VectorstoreFor call_or_sleep
                  (fun _ _ => I) (fun _ => I) id w) as Hq.
    rewrite run_bind.
    generalize dependent (VectorStore.deleteS3VectorstoreFor id w).
    intros r1 Hq. rewrite Forall_forall in Hq.
    destruct (result r1); run_step; [|intros H; by apply Hq in H].
    rewrite run_bind. unfold os_listdir.
    destruct (Fs.node_at id "" (final r1)) as [[data|es]|]; run_step.
    + intros H. apply elem_of_app in H as [H|H];
        [by apply Hq in H|by apply elem_of_nil in H].
    + intros H. apply elem_of_app in H as [H|H]; [by apply Hq in H|].
      eapply top_level_each; [|exact H].
      apply Forall_forall. intros f Hf.
      apply list_elem_of_In, List.filter_In in Hf. apply Hf.
    + intros H. apply elem_of_app in H as [H|H];
        [by apply Hq in H|by apply elem_of_nil in H].
Qed.

End Nested.


(** * Concrete runs *)

#[global] Instance remote_op_eq_dec : EqDecision remote_op.
Proof. solve_decision. Defined.

#[global] Instance event_eq_dec : EqDecision event.
Proof. solve_decision. Defined.

(** The remote calls of a build in which nothing fails: the old index is
    deleted, then the two files go up. *)
Example build_flat_healthy :
  let r := VectorStore.buildS3VectorStoreFor (Scenario.lib Scenario.flat_index)
             "p1" (Scenario.world Scenario.healthy) in
  result r = Ok true ∧
  map_to_list (remote (final r)) =
    [("vectorstores/p1/chroma.sqlite3", "db");
     ("vectorstores/p1/data.bin", "vectors")] ∧
  events r =
    [Call (ListObjects "vectorstores/p1") true;
     Call (DeleteObjects ["vectorstores/p1/old.bin"]) true;
     Call (UploadFile "./vectorStore/p1/chroma.sqlite3"
                      "vectorstores/p1/chroma.sqlite3") true;
     Call (UploadFile "./vectorStore/p1/data.bin"
                      "vectorstores/p1/data.bin") true].
Proof. vm_compute. repeat split; reflexivity. Qed.

(** The same build when the upload of the second, top-level file fails
    three times and the store answers otherwise: [False], and nothing is
    left on either side. *)
Example build_flat_second_upload_fails :
  let r := VectorStore.buildS3VectorStoreFor (Scenario.lib Scenario.flat_index)
             "p1" (Scenario.world Scenario.second_upload_fails) in
  result r = Ok false ∧
  map_to_list (remote (final r)) = [] ∧
  map_to_list (vectorStore (final r)) = [].
Proof. vm_compute. repeat split; reflexivity. Qed.

(** The upload of the file inside the segment folder fails three times
    (calls 5 to 7).  The nested call cleans up and returns [False]; its
    caller drops that value, finds no further entry and returns [True]. *)
Example nested_failure_is_reported_as_success :
  let r := VectorStore.buildS3VectorStoreFor (Scenario.lib Scenario.nested_index)
             "p1"
             (Scenario.world
                (fun n op => is_upload op && (5 <=? n)%nat && (n <=? 7)%nat)) in
  result r = Ok true ∧
  UploadGaveUp "p1" "data.bin" "segment" ∈ events r ∧
  map_to_list (remote (final r)) = [].
Proof.
  cbn zeta. split; [|split].
  - vm_compute. reflexivity.
  - apply (bool_decide_unpack _). vm_compute. exact I.
  - vm_compute. reflexivity.
Qed.

(** Even when nothing fails, the nested call begins with the same
    deletion and removes what its caller has uploaded: the build returns
    [True] with the database file missing from the bucket. *)
Example nested_upload_drops_earlier_files :
  let r := VectorStore.buildS3VectorStoreFor (Scenario.lib Scenario.nested_index)
             "p1" (Scenario.world Scenario.healthy) in
  result r = Ok true ∧
  map_to_list (remote (final r)) =
    [("vectorstores/p1/segment/data.bin", "vectors")].
Proof. vm_compute. repeat split; reflexivity. Qed.

(** The spec's loader scenario: a text file, an unsupported file and a
    PDF; the documents come from the text file and the PDF only. *)
Example load_document_mixed_folder :
  VectorStore.__load_document (Scenario.lib Scenario.flat_index) "p1"
    (Scenario.world Scenario.healthy) =
  mkRun (Ok [mkDocument "hello" [];
             mkDocument "pages" [("source", "./productKnowledgePool/p1/c.pdf")]])
        (Scenario.world Scenario.healthy) [].
Proof. reflexivity. Qed.

(** Destroying a ChatBot bound to [p1] leaves the index of [p1] where it
    was, in the bucket and on disk. *)
Example destroy_leaves_the_index :
  let w := set_vectorStore {[ "p1" := Scenario.flat_index ]}
             (Scenario.world Scenario.healthy) in
  let w' := final (ChatBot.destroy (Scenario.lib Scenario.flat_index)
                     (ChatBot.constructed "p1") w) in
  result (VectorStore.checkS3VectorStoreFor "p1" w') = Ok true ∧
  vectorStore w' !! "p1" = Some Scenario.flat_index.
Proof. vm_compute. split; reflexivity. Qed.

(** ** Runs that contradict the specification *)




(** C9, as the specification states it, fails: the source folder of
    [p1] is there, its PDF file does not parse, and the loader raises
    what the PDF loader raised instead of returning a list. *)
Lemma damaged_pdf_stops_the_loader :
  let w := Scenario.world Scenario.healthy in
  productKnowledgePool w !! "p1" =
    Some [("a.txt", "hello"); ("b.bin", "raw"); ("c.pdf", "pages")] ∧
  VectorStore.__load_document (Scenario.checking_lib Scenario.flat_index) "p1" w =
    mkRun (Raise (LoaderError "./productKnowledgePool/p1/c.pdf")) w [].
Proof. cbn zeta. split; vm_compute; reflexivity. Qed.

(** ** Where the code misses what it sets out to do *)

(** C6 (what the code does).  The listing asks for the keys that start
    with [vectorstores/{id}], without the separator that ends the id.  In
    a bucket that holds an index of [p1] and nothing of [p] (no key starts
    with [vectorstores/p/]), [checkS3VectorStoreFor("p")] returns [True]
    and [getS3VectorStoreFor("p")] returns a store: the file of [p1],
    downloaded into [./vectorStore/p]. *)
Theorem never_built_id_is_reported_built :
  let w := Scenario.world Scenario.healthy in
  let g := VectorStore.getS3VectorStoreFor (Scenario.lib Scenario.flat_index) "p" w in
  map_to_list (remote w) = [("vectorstores/p1/old.bin", "old vectors")] ∧
  Py.startswith "vectorstores/p1/old.bin" "vectorstores/p/" = false ∧
  result (VectorStore.checkS3VectorStoreFor "p" w) = Ok true ∧
  result g = Ok (Some (mkChroma "./vectorStore/p")) ∧
  vectorStore (final g) !! "p" = Some [("old.bin", File "old vectors")].
Proof. cbn zeta. repeat split; vm_compute; reflexivity. Qed.

(** C7 (what the code does).  [deleteLocalVectorStore] hands
    [rm -rf ./vectorStore/{id}] to the shell with the id unquoted.  For
    the id [a b] the shell removes [./vectorStore/a] and [./b]: the build
    of [a b] returns [True], its local folder [./vectorStore/a b] is
    still there, and the index of the product [a] is gone. *)
Theorem build_leaves_folder_of_spaced_id :
  let w := Scenario.spaced_world in
  let r := VectorStore.buildS3VectorStoreFor (Scenario.lib Scenario.flat_index)
             "a b" w in
  vectorStore w !! "a" = Some Scenario.flat_index ∧
  result r = Ok true ∧
  vectorStore (final r) !! "a b" = Some Scenario.flat_index ∧
  vectorStore (final r) !! "a" = None.
Proof. cbn zeta. repeat split; vm_compute; reflexivity. Qed.

(** ** The theorems at concrete inputs *)

(** [uninitialised_fails_fast] before any [initS3Storage]. *)
Lemma uninitialised_fails_fast_witness :
  failed_fast (VectorStore.checkS3VectorStoreFor "p1" Scenario.uninitialised_world)
              Scenario.uninitialised_world ∧
  failed_fast (VectorStore.deleteS3VectorstoreFor "p1" Scenario.uninitialised_world)
              Scenario.uninitialised_world.
Proof.
  destruct (uninitialised_fails_fast (Scenario.lib Scenario.flat_index)
              Scenario.uninitialised_world "p1" "data.bin" "")
    as (H1 & _ & H3 & _).
  - left. reflexivity.
  - split; [exact H1|exact H3].
Defined.


(** The passes of that download, and of a deletion whose deletions
    raise: a listing that is answered, then the call that raises. *)
Example download_passes :
  timeline (events (VectorStore.__downloadS3VectorstoreFor
                      (Scenario.lib Scenario.flat_index) "p1"
                      (Scenario.world Scenario.downloads_fail))) =
  [Attempt true; Attempt false; Delay 3;
   Attempt true; Attempt false; Delay 3;
   Attempt true; Attempt false; Delay 3].
Proof. vm_compute. reflexivity. Qed.

Example deletion_passes :
  let r := VectorStore.deleteS3VectorstoreFor "p1"
             (Scenario.world Scenario.deletions_fail) in
  result r = Ok false ∧
  timeline (events r) =
  [Attempt true; Attempt false; Delay 3;
   Attempt true; Attempt false; Delay 3;
   Attempt true; Attempt false; Delay 3].
Proof. vm_compute. split; reflexivity. Qed.



(** * Further properties of VectorStore.py *)

(** ** Exceptions stay inside the retrying operations *)

Lemma contained_when_initialised lib id file_name father w :
  initialised w ->
  (exists b, result (VectorStore.checkS3VectorStoreFor id w) = Ok b) ∧
  (exists b, result (VectorStore.deleteS3VectorstoreFor id w) = Ok b) ∧
  (exists b, result (VectorStore.__downloadS3VectorstoreFor lib id w) = Ok b) ∧
  (exists b, result (VectorStore.__upload_file id file_name father w) = Ok b) ∧
  (exists s, result (VectorStore.getS3VectorStoreFor lib id w) = Ok s).
Proof.
  intros Hi.
  assert (Hdown : exists b,
             result (VectorStore.__downloadS3VectorstoreFor lib id w) = Ok b).
  { unfold VectorStore.__downloadS3VectorstoreFor.
    rewrite (run_bind_ok _ _ _ _ _ _ (checkS3init_ok w Hi)). run_step.
    destruct (deleteLocalVectorStore_returns lib id w) as (w1 & Hdel & _).
    rewrite (run_bind_ok _ _ _ _ _ _ Hdel).
    run_step. apply for_retry_total. intros w'.
    destruct (deleteLocalVectorStore_then_returns lib id false w') as (w2 & H2 & _).
    rewrite H2. by eexists. }
  split; [|split; [|split; [exact Hdown|split]]].
  - unfold VectorStore.checkS3VectorStoreFor.
    rewrite (run_bind_ok _ _ _ _ _ _ (checkS3init_ok w Hi)). run_step.
    apply for_retry_total. intros w'. by eexists.
  - unfold VectorStore.deleteS3VectorstoreFor.
    rewrite (run_bind_ok _ _ _ _ _ _ (checkS3init_ok w Hi)). run_step.
    apply for_retry_total. intros w'. by eexists.
  - unfold VectorStore.__upload_file.
    rewrite (run_bind_ok _ _ _ _ _ _ (checkS3init_ok w Hi)). run_step.
    apply for_retry_total. intros w'. by eexists.
  - destruct Hdown as [b Hb]. unfold VectorStore.getS3VectorStoreFor.
    rewrite run_bind, Hb. run_step.
    destruct b; [|by eexists].
    rewrite getLocalVectorStoreFor_run.
    destruct (vectorStore _ !! id); by eexists.
Qed.

(** X1.  Once [initS3Storage] has run, none of exists, delete, download,
    upload of one file and get lets an exception out, whatever the bucket
    holds and whichever remote calls fail: each returns a value. *)
Theorem after_init_no_exception_escapes lib name id file_name father w0 :
  let w := final (VectorStore.initS3Storage name w0) in
  (exists b, result (VectorStore.checkS3VectorStoreFor id w) = Ok b) ∧
  (exists b, result (VectorStore.deleteS3VectorstoreFor id w) = Ok b) ∧
  (exists b, result (VectorStore.__downloadS3VectorstoreFor lib id w) = Ok b) ∧
  (exists b, result (VectorStore.__upload_file id file_name father w) = Ok b) ∧
  (exists s, result (VectorStore.getS3VectorStoreFor lib id w) = Ok s).
Proof.
  intros w. apply contained_when_initialised, initS3Storage_initialises.
Qed.

(** ** What [checkS3VectorStoreFor] answers *)

Lemma check_attempt id w :
  (res ← list_objects (VectorStore.prefix_of id);
   match res with [] => ret false | _ => ret true end) w =
  if faults w (calls w) (ListObjects (VectorStore.prefix_of id))
  then mkRun (Raise (RemoteError (ListObjects (VectorStore.prefix_of id))))
             (tick w) [Call (ListObjects (VectorStore.prefix_of id)) false]
  else mkRun (Ok (has_objects id (remote w))) (tick w)
             [Call (ListObjects (VectorStore.prefix_of id)) true].
Proof.
  rewrite run_bind, list_objects_run. unfold has_objects.
  destruct (faults w (calls w) _); [reflexivity|]. run_step.
  destruct (keys_with_prefix _ (remote w)); reflexivity.
Qed.

Lemma check_result id w :
  initialised w ->
  result (VectorStore.checkS3VectorStoreFor id w) =
  Ok (negb (three_listings_fail id w) && has_objects id (remote w)).
Proof.
  intros Hi. unfold VectorStore.checkS3VectorStoreFor, three_listings_fail.
  rewrite (run_bind_ok _ _ _ _ _ _ (checkS3init_ok w Hi)). run_step.
  pose proof (check_attempt id w) as H0.
  pose proof (check_attempt id (tick w)) as H1.
  pose proof (check_attempt id (tick (tick w))) as H2.
  cbn [calls faults remote tick] in H1, H2.
  destruct (faults w (calls w) _).
  - rewrite (for_retry_failed _ _ _ _ _ _ _ H0). run_step.
    destruct (faults w (S (calls w)) _).
    + rewrite (for_retry_failed _ _ _ _ _ _ _ H1). run_step.
      destruct (faults w (S (S (calls w))) _).
      * rewrite (for_retry_failed _ _ _ _ _ _ _ H2). reflexivity.
      * rewrite (for_retry_returned _ _ _ _ _ _ _ H2). reflexivity.
    + rewrite (for_retry_returned _ _ _ _ _ _ _ H1). reflexivity.
  - rewrite (for_retry_returned _ _ _ _ _ _ _ H0). reflexivity.
Qed.

(** X2.  With the storage initialised, [checkS3VectorStoreFor] returns
    [True] exactly when the bucket holds a key that starts with
    [vectorstores/{id}] and one of its three listings is answered; when
    all three raise it returns [False] although the objects are there. *)
Theorem check_answers id w :
  initialised w ->
  result (VectorStore.checkS3VectorStoreFor id w) =
  Ok (negb (three_listings_fail id w) && has_objects id (remote w)).
Proof. exact (check_result id w). Qed.

(** ** What [deleteS3VectorstoreFor] removes *)

(** Whatever fails, the loop of deletions only removes keys it was given. *)
Lemma delete_each_any contents : forall keys w,
  let r := VectorStore.delete_each keys contents w in
  (forall k v, remote (final r) !! k = Some v -> remote w !! k = Some v) ∧
  (forall k, k ∉ keys ++ contents -> remote (final r) !! k = remote w !! k) ∧
  vectorStore (final r) = vectorStore w.
Proof.
  induction contents as [|c rest IH]; intros keys w; cbn zeta.
  - cbn [VectorStore.delete_each]. repeat split; auto.
  - cbn [VectorStore.delete_each]. rewrite run_bind.
    unfold delete_objects, remote_call.
    destruct (faults w (calls w) (DeleteObjects (keys ++ [c]))); run_step.
    + repeat split; auto.
    + set (w1 := set_remote (foldr delete (remote (tick w)) (keys ++ [c])) (tick w)).
      destruct (IH (keys ++ [c]) w1) as (Hsub & Hfr & Hloc).
      split; [|split].
      * intros k v Hk. apply Hsub in Hk. unfold w1 in Hk.
        cbn [remote set_remote tick] in Hk.
        by apply lookup_foldr_delete_Some in Hk as [_ Hk].
      * intros k Hk. rewrite Hfr.
        -- unfold w1. cbn [remote set_remote tick].
           apply lookup_foldr_delete_not_elem_of.
           intros Hin. apply Hk. rewrite elem_of_app in *.
           rewrite elem_of_cons. destruct Hin as [Hin|Hin]; [by left|].
           apply list_elem_of_singleton in Hin. right. by left.
        -- intros Hin. apply Hk. rewrite !elem_of_app in *.
           rewrite elem_of_cons. rewrite list_elem_of_singleton in Hin.
           tauto.
      * rewrite Hloc. reflexivity.
Qed.

#[global] Instance only_removed_under_preorder id : PreOrder (only_removed_under id).
Proof.
  split.
  - intros w. repeat split; auto.
  - intros w1 w2 w3 (S1 & F1 & L1) (S2 & F2 & L2). repeat split.
    + intros k v Hk. auto.
    + intros k Hk. rewrite F2, F1 by exact Hk. reflexivity.
    + congruence.
Qed.

Lemma delete_attempt_only_removes id w :
  only_removed_under id w
    (final ((res ← list_objects (VectorStore.prefix_of id);
             match res with
             | [] => ret true
             | _ => VectorStore.delete_each [] res ;; ret true
             end) w)).
Proof.
  rewrite run_bind, list_objects_run.
  destruct (faults w (calls w) _); run_step; [repeat split; auto|].
  remember (keys_with_prefix (VectorStore.prefix_of id) (remote w)) as ks eqn:Hks.
  destruct (delete_each_any ks [] (tick w)) as (Hsub & Hfr & Hloc).
  destruct ks as [|k0 ks]; [repeat split; auto|].
  rewrite run_bind.
  assert (Hfin : final
            match result (VectorStore.delete_each [] (k0 :: ks) (tick w)) with
            | Ok a =>
                mkRun (result (ret true (final (VectorStore.delete_each [] (k0 :: ks) (tick w)))))
                      (final (ret true (final (VectorStore.delete_each [] (k0 :: ks) (tick w)))))
                      (events (VectorStore.delete_each [] (k0 :: ks) (tick w)) ++
                       events (ret true (final (VectorStore.delete_each [] (k0 :: ks) (tick w)))))
            | Raise e =>
                mkRun (Raise e) (final (VectorStore.delete_each [] (k0 :: ks) (tick w)))
                      (events (VectorStore.delete_each [] (k0 :: ks) (tick w)))
            end = final (VectorStore.delete_each [] (k0 :: ks) (tick w)))
    by (destruct (result (VectorStore.delete_each [] (k0 :: ks) (tick w))); reflexivity).
  rewrite Hfin. split; [exact Hsub|]. split; [|exact Hloc].
  intros k Hk. apply Hfr. cbn [app]. rewrite Hks. intros Hin.
  apply elem_of_keys_with_prefix in Hin as [_ Hin]. congruence.
Qed.

Lemma delete_only_removes id w :
  only_removed_under id w (final (VectorStore.deleteS3VectorstoreFor id w)).
Proof.
  unfold VectorStore.deleteS3VectorstoreFor. rewrite run_bind.
  destruct (initialised_dec w) as [Hi|Hu].
  - rewrite (checkS3init_ok w Hi). run_step.
    apply (for_retry_rule (only_removed_under id w) (fun _ => True)
             (fun _ w' _ => only_removed_under id w w')).
    + intros w' Hw'.
      pose proof (delete_attempt_only_removes id w') as Hstep.
      assert (Hall : only_removed_under id w
                (final ((res ← list_objects (VectorStore.prefix_of id);
                         match res with
                         | [] => ret true
                         | _ => VectorStore.delete_each [] res ;; ret true
                         end) w')))
        by (etransitivity; [exact Hw'|exact Hstep]).
      destruct (result _); [exact Hall|split; [exact Hall|exact I]].
    + intros w' Hw'. exact Hw'.
    + intros r w' e1 e2 _ H. exact H.
    + reflexivity.
  - rewrite (checkS3init_uninit w Hu). run_step. reflexivity.
Qed.

(** X3.  Under any fault schedule and whether or not the storage is
    initialised, [deleteS3VectorstoreFor(id)] adds nothing to the bucket,
    leaves every object alone whose key does not start with
    [vectorstores/{id}], and does not touch the local folders. *)
Theorem delete_only_removes_under_prefix id w :
  only_removed_under id w (final (VectorStore.deleteS3VectorstoreFor id w)).
Proof. apply delete_only_removes. Qed.

Lemma initialised_after_delete id w :
  initialised w -> initialised (final (VectorStore.deleteS3VectorstoreFor id w)).
Proof.
  apply initialised_same_env.
  apply keeps_deleteS3VectorstoreFor;
    [apply _|apply same_env_tick|apply same_env_set_remote].
Qed.

Lemma delete_exact id w :
  good w ->
  let r := VectorStore.deleteS3VectorstoreFor id w in
  result r = Ok true ∧
  (forall k, remote (final r) !! k =
             if Py.startswith k (VectorStore.prefix_of id) then None
             else remote w !! k) ∧
  result (VectorStore.checkS3VectorStoreFor id (final r)) = Ok false.
Proof.
  intros Hg r.
  destruct (deleteS3VectorstoreFor_healthy id w Hg) as [Hr Hno]. fold r in Hr, Hno.
  destruct (delete_only_removes id w) as (_ & Hfr & _). fold r in Hfr.
  split; [exact Hr|]. split.
  - intros k. destruct (Py.startswith k (VectorStore.prefix_of id)) eqn:Hp;
      [by apply Hno|by apply Hfr].
  - apply checkS3VectorStoreFor_absent; [|exact Hno].
    apply initialised_after_delete, Hg.
Qed.

(** X4.  With the storage initialised and listings and deletions
    answered, [deleteS3VectorstoreFor(id)] returns [True], removes exactly
    the objects whose key starts with [vectorstores/{id}], and a
    [checkS3VectorStoreFor(id)] that follows returns [False]. *)
Theorem delete_is_authoritative id w :
  good w ->
  let r := VectorStore.deleteS3VectorstoreFor id w in
  result r = Ok true ∧
  (forall k, remote (final r) !! k =
             if Py.startswith k (VectorStore.prefix_of id) then None
             else remote w !! k) ∧
  result (VectorStore.checkS3VectorStoreFor id (final r)) = Ok false.
Proof. exact (delete_exact id w). Qed.

Lemma delete_attempt_absent id w0 w :
  remote w = remote w0 -> no_objects id (remote w0) ->
  (res ← list_objects (VectorStore.prefix_of id);
   match res with
   | [] => ret true
   | _ => VectorStore.delete_each [] res ;; ret true
   end) w =
  if faults w (calls w) (ListObjects (VectorStore.prefix_of id))
  then mkRun (Raise (RemoteError (ListObjects (VectorStore.prefix_of id))))
             (tick w) [Call (ListObjects (VectorStore.prefix_of id)) false]
  else mkRun (Ok true) (tick w)
             [Call (ListObjects (VectorStore.prefix_of id)) true].
Proof.
  intros Hr Hno. rewrite run_bind, list_objects_run.
  destruct (faults w (calls w) _); [reflexivity|]. run_step.
  rewrite Hr, (proj2 (keys_with_prefix_nil id (remote w0)) Hno). reflexivity.
Qed.

(** X5.  Deleting an index that is not there is a no-op on the bucket
    under every fault schedule, and returns [True] as soon as one of the
    three listings is answered ([False] only when all three raise). *)
Theorem delete_absent_is_noop id w :
  initialised w -> no_objects id (remote w) ->
  let r := VectorStore.deleteS3VectorstoreFor id w in
  result r = Ok (negb (three_listings_fail id w)) ∧
  remote (final r) = remote w.
Proof.
  intros Hi Hno r. split.
  - unfold r, VectorStore.deleteS3VectorstoreFor, three_listings_fail.
    rewrite (run_bind_ok _ _ _ _ _ _ (checkS3init_ok w Hi)). run_step.
    pose proof (delete_attempt_absent id w w eq_refl Hno) as H0.
    pose proof (delete_attempt_absent id w (tick w) eq_refl Hno) as H1.
    pose proof (delete_attempt_absent id w (tick (tick w)) eq_refl Hno) as H2.
    cbn [calls faults remote tick] in H1, H2.
    destruct (faults w (calls w) _).
    + rewrite (for_retry_failed _ _ _ _ _ _ _ H0). run_step.
      destruct (faults w (S (calls w)) _).
      * rewrite (for_retry_failed _ _ _ _ _ _ _ H1). run_step.
        destruct (faults w (S (S (calls w))) _).
        -- rewrite (for_retry_failed _ _ _ _ _ _ _ H2). reflexivity.
        -- rewrite (for_retry_returned _ _ _ _ _ _ _ H2). reflexivity.
      * rewrite (for_retry_returned _ _ _ _ _ _ _ H1). reflexivity.
    + rewrite (for_retry_returned _ _ _ _ _ _ _ H0). reflexivity.
  - destruct (delete_only_removes id w) as (Hsub & Hfr & _).
    fold r in Hsub, Hfr. apply map_eq. intros k.
    destruct (Py.startswith k (VectorStore.prefix_of id)) eqn:Hp; [|by apply Hfr].
    rewrite (Hno k Hp).
    destruct (remote (final r) !! k) as [v|] eqn:Hk; [|reflexivity].
    apply Hsub in Hk. rewrite (Hno k Hp) in Hk. discriminate.
Qed.

(** ** Products whose ids share a beginning *)

Lemma string_app_assoc (a b c : string) : (a +:+ b) +:+ c = a +:+ b +:+ c.
Proof.
  induction a as [|x a IH]; [reflexivity|].
  change (String x ((a +:+ b) +:+ c) = String x (a +:+ b +:+ c)).
  by rewrite IH.
Qed.

Lemma prefix_app (a b : string) : String.prefix a (a +:+ b) = true.
Proof.
  induction a as [|x a IH]; [by destruct b|].
  change (String.prefix (String x a) (String x (a +:+ b)) = true).
  cbn [String.prefix]. destruct (ascii_dec x x); [exact IH|congruence].
Qed.

(** The key under which [__upload_file] stores a top-level file of the
    product [id +:+ more] starts with the prefix of [id]. *)
Lemma longer_id_shares_prefix id more file_name :
  Py.startswith ("vectorstores/" +:+ (id +:+ more) +:+ "/" +:+ file_name)
                (VectorStore.prefix_of id) = true.
Proof.
  unfold Py.startswith, VectorStore.prefix_of.
  rewrite (string_app_assoc id more), <- (string_app_assoc "vectorstores/" id).
  apply prefix_app.
Qed.

(** X6.  The listing prefix has no closing separator: an object stored
    for a product whose id merely begins with [id] (say [p10] for [p1])
    makes [checkS3VectorStoreFor(id)] return [True], as soon as a listing
    is answered. *)
Theorem check_confuses_longer_ids id more file_name data w :
  initialised w ->
  three_listings_fail id w = false ->
  remote w !! ("vectorstores/" +:+ (id +:+ more) +:+ "/" +:+ file_name) = Some data ->
  result (VectorStore.checkS3VectorStoreFor id w) = Ok true.
Proof.
  intros Hi Hf Hk. rewrite (check_result id w Hi), Hf. cbn [negb andb].
  unfold has_objects.
  destruct (keys_with_prefix (VectorStore.prefix_of id) (remote w)) eqn:Hks;
    [|reflexivity].
  exfalso.
  assert (Hin : ("vectorstores/" +:+ (id +:+ more) +:+ "/" +:+ file_name)
                  ∈ keys_with_prefix (VectorStore.prefix_of id) (remote w)).
  { apply elem_of_keys_with_prefix. split; [eauto|].
    apply longer_id_shares_prefix. }
  rewrite Hks in Hin. by apply elem_of_nil in Hin.
Qed.

(** X7.  For the same reason, deleting the index of [id] also deletes
    the objects of every product whose id begins with [id]. *)
Theorem delete_takes_longer_ids_along id more file_name w :
  good w ->
  remote (final (VectorStore.deleteS3VectorstoreFor id w))
    !! ("vectorstores/" +:+ (id +:+ more) +:+ "/" +:+ file_name) = None.
Proof.
  intros Hg. destruct (delete_exact id w Hg) as (_ & Hex & _).
  rewrite Hex, longer_id_shares_prefix. reflexivity.
Qed.

(** ** Uploading one file *)

(** X8.  [__upload_file] is all or nothing on the bucket, whichever
    attempts fail: when it returns [True] the bucket is the one before
    with the local file's content stored under
    [vectorstores/{id}/{father}/{file_name}] (without the [father] part
    when there is none); when it returns [False] the bucket is
    unchanged.  The local folders are untouched either way. *)
Theorem upload_file_all_or_nothing id file_name father w :
  initialised w ->
  let r := VectorStore.__upload_file id file_name father w in
  match result r with
  | Ok true =>
      exists data,
        Fs.node_at id (upload_source file_name father) w = Some (File data) ∧
        remote (final r) = <[upload_key id file_name father := data]> (remote w)
  | Ok false => remote (final r) = remote w
  | Raise _ => False
  end ∧
  vectorStore (final r) = vectorStore w.
Proof.
  intros Hi. cbn zeta. unfold VectorStore.__upload_file.
  rewrite (run_bind_ok _ _ _ _ _ _ (checkS3init_ok w Hi)). run_step.
  fold (upload_key id file_name father) (upload_source file_name father).
  apply (for_retry_rule
           (fun w' => remote w' = remote w ∧ vectorStore w' = vectorStore w)
           (fun _ => True)
           (fun r w' _ =>
              match r with
              | Ok true =>
                  exists data,
                    Fs.node_at id (upload_source file_name father) w
                      = Some (File data) ∧
                    remote w' = <[upload_key id file_name father := data]> (remote w)
              | Ok false => remote w' = remote w
              | Raise _ => False
              end ∧ vectorStore w' = vectorStore w)).
  - intros w' [Hr Hv]. rewrite run_bind. unfold upload_file.
    rewrite (node_at_same_local id _ w w' Hv).
    destruct (Fs.node_at id (upload_source file_name father) w)
      as [[data|es]|] eqn:Hn.
    + unfold remote_call.
      destruct (faults w' (calls w') _); run_step.
      * repeat split; assumption.
      * split; [|exact Hv]. exists data. split; [reflexivity|].
        cbn [remote set_remote tick]. by rewrite Hr.
    + run_step. repeat split; assumption.
    + run_step. repeat split; assumption.
  - intros w' [Hr Hv]. rewrite run_bind. run_step. split; assumption.
  - intros r w' e1 e2 _ H. exact H.
  - split; reflexivity.
Qed.

(** ** Downloading *)

Lemma keeps_remote_download_file key id rel :
  keeps same_remote (download_file key id rel).
Proof.
  intros w. unfold download_file.
  destruct (remote w !! key), (vectorStore w !! id); try reflexivity.
  destruct (Fs.write _ _ _); [|reflexivity].
  apply keeps_remote_call;
    [apply _|apply same_remote_tick|intros; apply same_remote_set_vectorStore].
Qed.

Lemma keeps_remote_mkdir_p lib id rel : keeps same_remote (mkdir_p lib id rel).
Proof.
  apply keeps_mkdir_p;
    [apply _|apply same_remote_set_vectorStore
    |apply same_remote_set_productKnowledgePool].
Qed.

Lemma keeps_remote_download_each lib id contents :
  keeps same_remote (VectorStore.download_each lib id contents).
Proof.
  induction contents as [|key rest IH]; cbn [VectorStore.download_each].
  - apply keeps_ret, _.
  - apply keeps_bind; [apply _| |intros _].
    + destruct (Fs.nonempty _); apply keeps_remote_mkdir_p.
    + apply keeps_bind; [apply _|apply keeps_remote_download_file|intros _; exact IH].
Qed.

(** The folder of a plain-word id is gone in the world that
    [deleteLocalVectorStore] leaves. *)
Lemma deleteLocalVectorStore_gone lib id w w1 :
  VectorStore.deleteLocalVectorStore lib id w = mkRun (Ok true) w1 [] ->
  shell_word id = true -> vectorStore w1 !! id = None.
Proof.
  intros Hrun Hid. rewrite (deleteLocalVectorStore_run lib id w Hid) in Hrun.
  injection Hrun as <-. apply vectorStore_after_delete.
Qed.

Lemma download_frame lib id w :
  initialised w ->
  let r := VectorStore.__downloadS3VectorstoreFor lib id w in
  remote (final r) = remote w ∧
  (shell_word id = true -> result r = Ok false ->
   vectorStore (final r) !! id = None).
Proof.
  intros Hi. cbn zeta. unfold VectorStore.__downloadS3VectorstoreFor.
  rewrite (run_bind_ok _ _ _ _ _ _ (checkS3init_ok w Hi)). run_step.
  destruct (deleteLocalVectorStore_returns lib id w) as (w1 & Hdel & Hdisk).
  pose proof (deleteLocalVectorStore_gone lib id w w1 Hdel) as Hgone.
  rewrite (run_bind_ok _ _ _ _ _ _ Hdel).
  run_step.
  apply (for_retry_rule
           (fun w' => remote w' = remote w ∧
                      (shell_word id = true ->
                       keys_with_prefix (VectorStore.prefix_of id) (remote w) = []
                       -> vectorStore w' !! id = None))
           (fun _ => True)
           (fun r w' _ => remote w' = remote w ∧
                          (shell_word id = true -> r = Ok false ->
                           vectorStore w' !! id = None))).
  - intros w' [Hr Hl]. rewrite run_bind, list_objects_run.
    destruct (faults w' (calls w') _); run_step; [repeat split; assumption|].
    rewrite Hr.
    destruct (keys_with_prefix (VectorStore.prefix_of id) (remote w))
      as [|k ks] eqn:Hks.
    + run_step. split; [exact Hr|]. intros Hid _. by apply Hl.
    + rewrite run_bind.
      pose proof (keeps_remote_download_each lib id (k :: ks) (tick w')) as Hd.
      unfold same_remote in Hd. cbn [remote tick] in Hd.
      destruct (result (VectorStore.download_each lib id (k :: ks) (tick w')));
        unfold ret; run_step.
      * split; [congruence|discriminate].
      * repeat split; [congruence|discriminate].
  - intros w' [Hr _].
    destruct (deleteLocalVectorStore_returns lib id w') as (w2 & Hdel2 & Hdisk2).
    rewrite (run_bind_ok _ _ _ _ _ _ Hdel2). unfold ret. run_step.
    split; [by rewrite (disk_only_same_remote _ _ Hdisk2)|].
    intros Hid _. exact (deleteLocalVectorStore_gone lib id w' w2 Hdel2 Hid).
  - intros r w' e1 e2 _ H. exact H.
  - split; [exact (disk_only_same_remote _ _ Hdisk)|]. intros Hid _. by apply Hgone.
Qed.

(** X9.  A download never changes the bucket, and, the id being one
    plain word, one that returns [False] (nothing to download, or three
    failed attempts) leaves no local folder for the id: neither the copy
    that was there before nor a partial one. *)
Theorem failed_download_leaves_no_local_copy lib id w :
  initialised w ->
  let r := VectorStore.__downloadS3VectorstoreFor lib id w in
  remote (final r) = remote w ∧
  (shell_word id = true -> result r = Ok false ->
   vectorStore (final r) !! id = None).
Proof. exact (download_frame lib id w). Qed.

(** ** Builds that cannot start *)

(** X10.  Without a source folder for the id, [buildS3VectorStoreFor]
    raises the pool-not-found exception before doing anything: no remote
    call is made and the bucket, an index from an earlier build included,
    and the local folders are as they were. *)
Theorem build_without_pool_changes_nothing lib id w :
  productKnowledgePool w !! id = None ->
  VectorStore.buildS3VectorStoreFor lib id w =
  mkRun (Raise (PoolNotFound id)) w [].
Proof. intros H. rewrite build_run, H. reflexivity. Qed.

(** X11.  Before [initS3Storage], a build of an id that has a source
    folder whose files the loaders read stages the local index first and
    only then fails on the precondition check: it raises, makes no remote
    call, and leaves the staged folder [./vectorStore/{id}] behind. *)
Theorem build_before_init_leaves_staged_folder lib id w files :
  uninitialised w ->
  productKnowledgePool w !! id = Some files ->
  loads lib id files ->
  let r := VectorStore.buildS3VectorStoreFor lib id w in
  r = mkRun (Raise S3NotInitialized) (staged lib id files w) [] ∧
  is_Some (vectorStore (final r) !! id) ∧
  remote (final r) = remote w.
Proof.
  intros Hu Hpool Hloads r.
  assert (Hr : r = mkRun (Raise S3NotInitialized) (staged lib id files w) []).
  { unfold r. rewrite build_run, Hpool. unfold loads in Hloads. rewrite Hloads.
    cbn zeta.
    assert (Hu0 : uninitialised (staged lib id files w)) by exact Hu.
    unfold upload_phase. rewrite (upload_before_init lib id _ Hu0). reflexivity. }
  rewrite Hr. run_step. split; [reflexivity|]. split; [|reflexivity].
  unfold staged. cbn [vectorStore set_vectorStore].
  rewrite lookup_insert_eq. eauto.
Qed.

(** ** The local copy *)


(** X13.  What [getS3VectorStoreFor] can return once the storage is
    initialised.  A handle means that the download left a folder
    [./vectorStore/{id}] on disk and the Chroma constructor returned on
    it; the folder is then as the constructor left it.  [None] means, for
    an id that is one plain word, that either no local folder is left, or
    the download went through and the constructor raised on the copy,
    which stays on disk as the constructor left it.  The bucket is never
    changed. *)
Theorem get_outcomes lib id w :
  initialised w ->
  let dl := VectorStore.__downloadS3VectorstoreFor lib id w in
  let r := VectorStore.getS3VectorStoreFor lib id w in
  remote (final r) = remote w ∧
  match result r with
  | Ok (Some c) =>
      c = mkChroma (Fs.local_path id "") ∧
      result dl = Ok true ∧
      exists d, vectorStore (final dl) !! id = Some d ∧
                (Chroma_open lib (Fs.local_path id "") d).1 = true ∧
                vectorStore (final r) !! id =
                  Some (Chroma_open lib (Fs.local_path id "") d).2
  | Ok None =>
      shell_word id = true ->
      vectorStore (final r) !! id = None ∨
      (result dl = Ok true ∧
       exists d, vectorStore (final dl) !! id = Some d ∧
                 (Chroma_open lib (Fs.local_path id "") d).1 = false ∧
                 vectorStore (final r) !! id =
                   Some (Chroma_open lib (Fs.local_path id "") d).2)
  | Raise _ => False
  end.
Proof.
  intros Hi. cbn zeta. unfold VectorStore.getS3VectorStoreFor.
  destruct (download_frame lib id w Hi) as [Hrem Hfalse].
  destruct (contained_when_initialised lib id "" "" w Hi)
    as (_ & _ & [b Hb] & _).
  rewrite run_bind, Hb.
  generalize dependent (VectorStore.__downloadS3VectorstoreFor lib id w).
  intros r0 Hrem Hfalse Hb. run_step. destruct b.
  - rewrite getLocalVectorStoreFor_run.
    destruct (vectorStore (final r0) !! id) as [d|] eqn:Hd; run_step.
    + split; [exact Hrem|].
      destruct (Chroma_open lib (Fs.local_path id "") d).1 eqn:Ho.
      * split; [reflexivity|]. split; [reflexivity|]. exists d.
        split; [reflexivity|]. split; [exact Ho|]. apply lookup_insert_eq.
      * intros _. right. split; [reflexivity|]. exists d.
        split; [reflexivity|]. split; [exact Ho|]. apply lookup_insert_eq.
    + split; [exact Hrem|]. intros _. by left.
  - unfold ret. run_step. split; [exact Hrem|]. intros Hid. left. by apply Hfalse.
Qed.

(** ** Constructing a ChatBot *)

Example mangle_private : Construct.mangle "ChatBot" "__id" = "_ChatBot__id".
Proof. reflexivity. Qed.
Example mangle_dunder : Construct.mangle "ChatBot" "__init__" = "__init__".
Proof. reflexivity. Qed.
Example mangle_plain : Construct.mangle "ChatBot" "llm" = "llm".
Proof. reflexivity. Qed.

Lemma getattr_getS3 lib w :
  ChatBot.getattr (ChatBot.VectorStore_namespace lib)
    (Construct.mangle "ChatBot" "getS3VectorStoreFor") w =
  mkRun (Ok (ChatBot.returning_store (VectorStore.getS3VectorStoreFor lib))) w [].
Proof. reflexivity. Qed.

Lemma call_getS3 lib id w :
  Construct.call_VectorStore lib "getS3VectorStoreFor" id w =
  (c ← VectorStore.getS3VectorStoreFor lib id;
   ret (match c with Some c => ChatBot.VChroma c | None => ChatBot.VNone end)) w.
Proof.
  unfold Construct.call_VectorStore.
  rewrite (run_bind_ok _ _ _ _ _ _ (getattr_getS3 lib w)).
  cbn [ChatBot.call ChatBot.returning_store app]. apply run_eta.
Qed.

Lemma call_getLocal lib id w :
  Construct.call_VectorStore lib "__getLocalVectorStoreFor" id w =
  mkRun (Raise (AttributeError "_ChatBot__getLocalVectorStoreFor")) w [].
Proof. reflexivity. Qed.

(** X14.  [ChatBot.__init__] never completes.  In debug mode
    ([from_s3=False]) it asks the [VectorStore] module for
    [_ChatBot__getLocalVectorStoreFor], which does not exist, and raises
    [AttributeError] with nothing changed.  Otherwise it runs
    [getS3VectorStoreFor] and then raises: what that call raised, or
    "could not be loaded" when it returned [None], or, when a store was
    obtained, [NameError] for [_ChatBot__contextualize_q_prompt], with
    the downloaded copy left on disk. *)
Theorem init_never_completes lib id from_s3 w :
  Construct.__init__ lib id from_s3 w =
  if from_s3 then
    let g := VectorStore.getS3VectorStoreFor lib id w in
    (match result g with
     | Raise e => Construct.Raised e
     | Ok None => Construct.Raised VectorStoreNotLoaded
     | Ok (Some _) => Construct.RaisedNameError "_ChatBot__contextualize_q_prompt"
     end, final g, events g)
  else
    (Construct.Raised (AttributeError "_ChatBot__getLocalVectorStoreFor"), w, []).
Proof.
  unfold Construct.__init__. destruct from_s3.
  - rewrite call_getS3, run_bind. cbn zeta.
    generalize (VectorStore.getS3VectorStoreFor lib id w). intros g.
    destruct (result g) as [[c|]|e]; unfold ret; run_step;
      rewrite ?app_nil_r; reflexivity.
  - rewrite call_getLocal. reflexivity.
Qed.

(** ** Mirroring a folder of files *)

Lemma string_app_nil_r (s : string) : s +:+ "" = s.
Proof.
  induction s as [|c s IH]; [reflexivity|].
  change (String c (s +:+ "") = String c s). by rewrite IH.
Qed.

Lemma split_from_no_separator s : forall cur,
  contains_slash s = false -> Py.split_from "/"%char cur s = [cur +:+ s].
Proof.
  induction s as [|c s IH]; intros cur H.
  - cbn [Py.split_from]. by rewrite string_app_nil_r.
  - cbn [contains_slash] in H. apply orb_false_iff in H as [Hc Hs].
    cbn [Py.split_from]. rewrite Hc, (IH _ Hs).
    rewrite string_app_assoc. reflexivity.
Qed.

Lemma segments_plain s : plain_name s = true -> Fs.segments s = [s].
Proof.
  unfold plain_name. intros H. apply andb_true_iff in H as [Hn Hs].
  apply negb_true_iff in Hs.
  unfold Fs.segments, Py.split. rewrite (split_from_no_separator s "" Hs).
  change ("" +:+ s) with s. cbn [List.filter]. by rewrite Hn.
Qed.

Lemma plain_nonempty s : plain_name s = true -> Fs.nonempty s = true.
Proof. unfold plain_name. intros H. by apply andb_true_iff in H as [Hn _]. Qed.

Lemma assoc_elem name nd (es : dir) :
  NoDup es.*1 -> (name, nd) ∈ es -> Fs.assoc name es = Some nd.
Proof.
  induction es as [|[k n] es IH]; intros Hnd Hin; [by apply elem_of_nil in Hin|].
  cbn [fmap list_fmap fst] in Hnd. apply NoDup_cons in Hnd as [Hk Hnd].
  cbn [Fs.assoc]. apply elem_of_cons in Hin as [[= -> ->]|Hin].
  - by rewrite String.eqb_refl.
  - destruct (String.eqb_spec name k) as [->|_]; [|by apply IH].
    exfalso. apply Hk. apply list_elem_of_fmap. by exists (k, nd).
Qed.

(** An upload that is answered at the first attempt. *)
Lemma upload_file_first_attempt id file_name father data w :
  initialised w -> no_faults w ->
  Fs.node_at id (upload_source file_name father) w = Some (File data) ->
  VectorStore.__upload_file id file_name father w =
  mkRun (Ok true)
        (set_remote (<[upload_key id file_name father := data]> (remote w)) (tick w))
        [Call (UploadFile (Fs.local_path id (upload_source file_name father))
                          (upload_key id file_name father)) true].
Proof.
  intros Hi Hf Hn. unfold VectorStore.__upload_file.
  rewrite (run_bind_ok _ _ _ _ _ _ (checkS3init_ok w Hi)). run_step.
  fold (upload_key id file_name father) (upload_source file_name father).
  rewrite run_eta.
  apply for_retry_returned. rewrite run_bind. unfold upload_file.
  rewrite Hn. unfold remote_call. rewrite Hf. reflexivity.
Qed.

(** The loop of [__uploadS3VectorstoreFor] over entries that are files,
    when every call is answered: each file is stored in turn, nothing else
    happens, and the loop goes on with the entries that follow. *)
Lemma upload_each_files_then lib recurse id path father (es : dir) rest : forall w,
  initialised w -> no_faults w ->
  (forall name nd, (name, nd) ∈ es ->
     exists data, nd = File data ∧
       os_path_join path name = upload_source name father ∧
       Fs.node_at id (upload_source name father) w = Some (File data)) ->
  exists w1,
    remote w1 = mirror id father es (remote w) ∧
    vectorStore w1 = vectorStore w ∧
    same_env w w1 ∧
    result (VectorStore.upload_each lib recurse id path father (es.*1 ++ rest) w) =
      result (VectorStore.upload_each lib recurse id path father rest w1) ∧
    final (VectorStore.upload_each lib recurse id path father (es.*1 ++ rest) w) =
      final (VectorStore.upload_each lib recurse id path father rest w1).
Proof.
  induction es as [|[name nd] es IH]; intros w Hi Hf Hes.
  - exists w. repeat split.
  - cbn [fmap list_fmap fst app VectorStore.upload_each].
    destruct (Hes name nd) as (data & -> & Hjoin & Hn); [left|].
    rewrite run_bind. unfold os_path_isdir, get. run_step.
    rewrite Hjoin, Hn. rewrite run_bind.
    rewrite (upload_file_first_attempt id name father data w Hi Hf Hn).
    run_step.
    set (w1 := set_remote (<[upload_key id name father := data]> (remote w)) (tick w)).
    destruct (IH w1) as (w2 & Hrem & Hloc & Henv & Hres & Hfin).
    + exact Hi.
    + exact Hf.
    + intros name' nd' Hin. destruct (Hes name' nd') as (d' & ? & ? & ?);
        [by right|]. exists d'. repeat split; try assumption.
    + exists w2. split; [exact Hrem|]. split; [exact Hloc|]. split.
      * destruct Henv as (?&?&?). repeat split; assumption.
      * split; [exact Hres|exact Hfin].
Qed.

Lemma upload_each_files lib recurse id path father (es : dir) w :
  initialised w -> no_faults w ->
  (forall name nd, (name, nd) ∈ es ->
     exists data, nd = File data ∧
       os_path_join path name = upload_source name father ∧
       Fs.node_at id (upload_source name father) w = Some (File data)) ->
  let r := VectorStore.upload_each lib recurse id path father es.*1 w in
  result r = Ok true ∧
  remote (final r) = mirror id father es (remote w) ∧
  vectorStore (final r) = vectorStore w ∧
  same_env w (final r).
Proof.
  intros Hi Hf Hes. cbn zeta.
  destruct (upload_each_files_then lib recurse id path father es [] w Hi Hf Hes)
    as (w1 & Hrem & Hloc & Henv & Hres & Hfin).
  rewrite app_nil_r in Hres, Hfin. rewrite Hres, Hfin.
  cbn [VectorStore.upload_each]. unfold ret. run_step.
  split; [reflexivity|]. split; [exact Hrem|]. split; [exact Hloc|exact Henv].
Qed.

Lemma string_app_inj (a b c : string) : a +:+ b = a +:+ c -> b = c.
Proof.
  induction a as [|x a IH]; [done|].
  change (String x (a +:+ b) = String x (a +:+ c) -> b = c).
  intros [= H]. by apply IH.
Qed.

Lemma upload_key_inj id father name name' :
  upload_key id name father = upload_key id name' father -> name = name'.
Proof.
  unfold upload_key. destruct (Fs.nonempty father); intros H;
    repeat (apply string_app_inj in H); exact H.
Qed.

Lemma upload_key_under_prefix id name father :
  Py.startswith (upload_key id name father) (VectorStore.prefix_of id) = true.
Proof.
  unfold upload_key, Py.startswith, VectorStore.prefix_of.
  destruct (Fs.nonempty father);
    rewrite <- (string_app_assoc "vectorstores/" id); apply prefix_app.
Qed.

Lemma mirror_cons id father e es r :
  mirror id father (e :: es) r =
  mirror id father es
    (match e.2 with
     | File data => <[upload_key id e.1 father := data]> r
     | Dir _ => r
     end).
Proof. reflexivity. Qed.

Lemma mirror_lookup_other id father es : forall r k,
  (forall name nd, (name, nd) ∈ es -> k ≠ upload_key id name father) ->
  mirror id father es r !! k = r !! k.
Proof.
  induction es as [|[name nd] es IH]; intros r k Hk; [reflexivity|].
  rewrite mirror_cons, IH.
  - destruct nd as [data|sub]; cbn [snd fst]; [|reflexivity].
    apply lookup_insert_ne. intros Heq. apply (Hk name (File data)); [left|done].
  - intros name' nd' Hin. apply (Hk name' nd'). by right.
Qed.

Lemma mirror_lookup_file id father es : forall r name data,
  NoDup es.*1 -> (name, File data) ∈ es ->
  mirror id father es r !! upload_key id name father = Some data.
Proof.
  induction es as [|[name' nd] es IH]; intros r name data Hnd Hin;
    [by apply elem_of_nil in Hin|].
  cbn [fmap list_fmap fst] in Hnd. apply NoDup_cons in Hnd as [Hfresh Hnd].
  rewrite mirror_cons. apply elem_of_cons in Hin as [[= <- <-]|Hin].
  - cbn [snd fst]. rewrite mirror_lookup_other; [apply lookup_insert_eq|].
    intros name2 nd2 Hin Heq. apply upload_key_inj in Heq as ->.
    apply Hfresh, list_elem_of_fmap. by exists (name2, nd2).
  - by apply IH.
Qed.

Lemma mirror_lookup_Some id father es : forall r k v,
  mirror id father es r !! k = Some v ->
  (exists name, (name, File v) ∈ es ∧ k = upload_key id name father) ∨
  r !! k = Some v.
Proof.
  induction es as [|[name nd] es IH]; intros r k v H; [by right|].
  rewrite mirror_cons in H. apply IH in H as [(name' & Hin & ->)|H].
  - left. exists name'. split; [by right|reflexivity].
  - destruct nd as [data|sub]; cbn [snd fst] in H; [|by right].
    apply lookup_insert_Some in H as [[<- <-]|[_ H]]; [|by right].
    left. exists name. split; [left|reflexivity].
Qed.

Lemma listdir_plain (es : dir) :
  Forall (fun e => plain_name e.1 = true) es ->
  List.filter Fs.nonempty (map fst es) = es.*1.
Proof.
  intros Hall. induction Hall as [|[name nd] es Hp _ IH]; [reflexivity|].
  cbn [map List.filter fst fmap list_fmap] in *.
  rewrite (plain_nonempty _ Hp). f_equal. exact IH.
Qed.

Lemma flat_plain (es : dir) : flat es -> Forall (fun e => plain_name e.1 = true) es.
Proof. intros [Hall _]. eapply Forall_impl; [exact Hall|]. by intros e [? _]. Qed.

Lemma flat_file (es : dir) name nd :
  flat es -> (name, nd) ∈ es -> plain_name name = true ∧ exists data, nd = File data.
Proof.
  intros [Hall _] Hin. rewrite Forall_forall in Hall. exact (Hall _ Hin).
Qed.

Lemma node_at_lookup id rel d w :
  vectorStore w !! id = Some d ->
  Fs.node_at id rel w = Fs.walk (Fs.segments rel) (Dir d).
Proof.
  intros Hd.
  change (match vectorStore w !! id with
          | Some d => Fs.walk (Fs.segments rel) (Dir d)
          | None => None
          end = Fs.walk (Fs.segments rel) (Dir d)).
  by rewrite Hd.
Qed.

Lemma node_at_top_level id name nd d w :
  vectorStore w !! id = Some d -> NoDup d.*1 -> plain_name name = true ->
  (name, nd) ∈ d ->
  Fs.node_at id name w = Some nd.
Proof.
  intros Hd Hnd Hp Hin. rewrite (node_at_lookup id name d w Hd).
  rewrite (segments_plain _ Hp). cbn [Fs.walk].
  by rewrite (assoc_elem name nd d Hnd Hin).
Qed.

Lemma split_from_segment s1 s2 : forall cur,
  contains_slash s1 = false ->
  Py.split_from "/"%char cur (s1 +:+ "/" +:+ s2) =
  (cur +:+ s1) :: Py.split_from "/"%char "" s2.
Proof.
  induction s1 as [|c s1 IH]; intros cur H.
  - change ("" +:+ "/" +:+ s2) with (String "/" s2).
    cbn [Py.split_from]. rewrite Ascii.eqb_refl. by rewrite string_app_nil_r.
  - cbn [contains_slash] in H. apply orb_false_iff in H as [Hc Hs].
    change (String c s1 +:+ "/" +:+ s2) with (String c (s1 +:+ "/" +:+ s2)).
    cbn [Py.split_from]. rewrite Hc, (IH _ Hs).
    rewrite string_app_assoc. reflexivity.
Qed.

Lemma segments_two sub name :
  plain_name sub = true -> plain_name name = true ->
  Fs.segments (sub +:+ "/" +:+ name) = [sub; name].
Proof.
  unfold plain_name. intros Hs Hn.
  apply andb_true_iff in Hs as [Hs1 Hs2]. apply negb_true_iff in Hs2.
  apply andb_true_iff in Hn as [Hn1 Hn2]. apply negb_true_iff in Hn2.
  unfold Fs.segments, Py.split.
  rewrite (split_from_segment sub name "" Hs2).
  rewrite (split_from_no_separator name "" Hn2).
  change ("" +:+ sub) with sub. change ("" +:+ name) with name.
  cbn [List.filter]. by rewrite Hs1, Hn1.
Qed.

Lemma node_at_in_subfolder id sub name nd d es w :
  vectorStore w !! id = Some d -> NoDup d.*1 -> (sub, Dir es) ∈ d ->
  NoDup es.*1 -> (name, nd) ∈ es ->
  plain_name sub = true -> plain_name name = true ->
  Fs.node_at id (sub +:+ "/" +:+ name) w = Some nd.
Proof.
  intros Hd Hnd Hsub Hnd' Hin Hps Hpn. rewrite (node_at_lookup id _ d w Hd).
  rewrite (segments_two _ _ Hps Hpn). cbn [Fs.walk].
  rewrite (assoc_elem sub (Dir es) d Hnd Hsub).
  by rewrite (assoc_elem name nd es Hnd' Hin).
Qed.

Lemma no_faults_good w : initialised w -> no_faults w -> good w.
Proof.
  intros Hi Hf. split; [exact Hi|]. intros n op H. rewrite Hf in H. discriminate.
Qed.

Lemma no_faults_same_env w w' : same_env w w' -> no_faults w -> no_faults w'.
Proof. intros (_ & _ & Hf) H n op. rewrite Hf. apply H. Qed.

Lemma upload_frames_S lib frames id path father w :
  VectorStore.upload_frames lib (S frames) id path father w =
  (VectorStore.deleteS3VectorstoreFor id ;;
   list_of_files ← os_listdir id path;
   VectorStore.upload_each lib (VectorStore.upload_frames lib frames id)
     id path father list_of_files) w.
Proof. reflexivity. Qed.

(** What the deletion at the head of an upload does when it is answered. *)
Lemma delete_answered id w :
  initialised w -> no_faults w ->
  let r := VectorStore.deleteS3VectorstoreFor id w in
  result r = Ok true ∧
  vectorStore (final r) = vectorStore w ∧
  same_env w (final r) ∧
  no_objects id (remote (final r)) ∧
  (forall k, Py.startswith k (VectorStore.prefix_of id) = false ->
     remote (final r) !! k = remote w !! k).
Proof.
  intros Hi Hf. cbn zeta.
  destruct (deleteS3VectorstoreFor_healthy id w (no_faults_good w Hi Hf))
    as [Hr1 Hno].
  destruct (delete_only_removes id w) as (_ & Hfr & Hloc1).
  split; [exact Hr1|]. split; [exact Hloc1|]. split; [|by split].
  apply keeps_deleteS3VectorstoreFor;
    [apply _|apply same_env_tick|apply same_env_set_remote].
Qed.

(** One call of [__uploadS3VectorstoreFor] on a folder that holds only
    files, every call answered: the objects under the prefix are replaced
    by the files of that folder. *)
Lemma upload_frames_files lib frames id path father (es : dir) w :
  initialised w -> no_faults w ->
  Fs.node_at id path w = Some (Dir es) ->
  Forall (fun e => plain_name e.1 = true) es ->
  (forall name nd, (name, nd) ∈ es ->
     exists data, nd = File data ∧
       os_path_join path name = upload_source name father ∧
       Fs.node_at id (upload_source name father) w = Some (File data)) ->
  let r := VectorStore.upload_frames lib (S frames) id path father w in
  result r = Ok true ∧
  vectorStore (final r) = vectorStore w ∧
  same_env w (final r) ∧
  remote (final r) =
    mirror id father es (remote (final (VectorStore.deleteS3VectorstoreFor id w))).
Proof.
  intros Hi Hf Hroot Hplain Hes. cbn zeta.
  rewrite upload_frames_S, run_bind.
  destruct (delete_answered id w Hi Hf) as (Hr1 & Hloc1 & He1 & _ & _).
  cbn zeta in Hr1, Hloc1, He1.
  generalize dependent (VectorStore.deleteS3VectorstoreFor id w). intros r1.
  intros Hr1 Hloc1 He1. rewrite Hr1. run_step.
  rewrite run_bind. unfold os_listdir.
  rewrite (node_at_same_local id path w (final r1) Hloc1), Hroot. run_step.
  rewrite (listdir_plain es Hplain).
  destruct (upload_each_files lib (VectorStore.upload_frames lib frames id)
              id path father es (final r1)) as (Hr & Hrem & Hloc & Henv).
  - by eapply initialised_same_env.
  - by eapply no_faults_same_env.
  - intros name nd Hin. destruct (Hes name nd Hin) as (data & ? & ? & Hn).
    exists data. split; [assumption|]. split; [assumption|].
    by rewrite (node_at_same_local id _ w (final r1) Hloc1).
  - cbn zeta in Hr, Hrem, Hloc, Henv.
    generalize dependent (VectorStore.upload_each lib
      (VectorStore.upload_frames lib frames id) id path father es.*1 (final r1)).
    intros r2 Hr Hrem Hloc Henv.
    split; [exact Hr|]. split; [by rewrite Hloc|]. split; [|exact Hrem].
    destruct He1 as (?&?&?), Henv as (?&?&?). repeat split; congruence.
Qed.

(** The same for the index folder itself. *)
Lemma upload_frames_flat lib frames id d w :
  initialised w -> no_faults w ->
  vectorStore w !! id = Some d -> flat d ->
  let r := VectorStore.upload_frames lib (S frames) id "" "" w in
  result r = Ok true ∧
  same_env w (final r) ∧
  remote (final r) =
    mirror id "" d (remote (final (VectorStore.deleteS3VectorstoreFor id w))).
Proof.
  intros Hi Hf Hd Hflat.
  destruct (upload_frames_files lib frames id "" "" d w Hi Hf)
    as (Hr & _ & Henv & Hrem).
  - by rewrite (node_at_lookup id "" d w Hd).
  - by apply flat_plain.
  - intros name nd Hin. destruct (flat_file d name nd Hflat Hin) as [Hp [data ->]].
    exists data. split; [reflexivity|]. split; [reflexivity|].
    apply (node_at_top_level id name (File data) d);
      [exact Hd|by destruct Hflat|exact Hp|exact Hin].
  - cbn zeta in *. split; [exact Hr|]. split; [exact Henv|exact Hrem].
Qed.

Lemma has_objects_lookup id (r : gmap string string) k v :
  r !! k = Some v -> Py.startswith k (VectorStore.prefix_of id) = true ->
  has_objects id r = true.
Proof.
  intros Hk Hp. unfold has_objects.
  destruct (keys_with_prefix _ r) eqn:Hks; [|reflexivity].
  apply keys_with_prefix_nil in Hks. rewrite (Hks k Hp) in Hk. discriminate.
Qed.

(** A listing that is answered settles [checkS3VectorStoreFor]. *)
Lemma check_first_attempt id w :
  initialised w ->
  faults w (calls w) (ListObjects (VectorStore.prefix_of id)) = false ->
  result (VectorStore.checkS3VectorStoreFor id w) = Ok (has_objects id (remote w)).
Proof.
  intros Hi Hf. unfold VectorStore.checkS3VectorStoreFor.
  rewrite (run_bind_ok _ _ _ _ _ _ (checkS3init_ok w Hi)). run_step.
  pose proof (check_attempt id w) as H0. rewrite Hf in H0.
  rewrite (for_retry_returned _ _ _ _ _ _ _ H0). reflexivity.
Qed.

Lemma build_flat lib id files d w :
  initialised w -> no_faults w ->
  productKnowledgePool w !! id = Some files ->
  loads lib id files ->
  vectorStore (staged lib id files w) !! id = Some d ->
  flat d ->
  let r := VectorStore.buildS3VectorStoreFor lib id w in
  result r = Ok true ∧
  (shell_word id = true -> vectorStore (final r) !! id = None) ∧
  (forall name data, (name, File data) ∈ d ->
     remote (final r) !! upload_key id name "" = Some data) ∧
  (forall k v, Py.startswith k (VectorStore.prefix_of id) = true ->
     remote (final r) !! k = Some v ->
     exists name, (name, File v) ∈ d ∧ k = upload_key id name "") ∧
  (forall k, Py.startswith k (VectorStore.prefix_of id) = false ->
     remote (final r) !! k = remote w !! k) ∧
  (d ≠ [] -> result (VectorStore.checkS3VectorStoreFor id (final r)) = Ok true).
Proof.
  intros Hi Hf Hpool Hloads Hd Hflat. cbn zeta. rewrite build_run, Hpool.
  unfold loads in Hloads. rewrite Hloads. cbn zeta.
  rewrite upload_phase_unfold.
  set (w0 := staged lib id files w) in *.
  assert (He0 : same_env w w0) by apply same_env_staged.
  assert (Hi0 : initialised w0) by (by eapply initialised_same_env).
  assert (Hf0 : no_faults w0) by (by eapply no_faults_same_env).
  destruct (upload_frames_flat lib (recursion_left w0) id d w0 Hi0 Hf0 Hd Hflat)
    as (Hr & Henv & Hrem).
  destruct (delete_answered id w0 Hi0 Hf0) as (_ & _ & _ & Hno & Hfr).
  cbn zeta in Hr, Henv, Hrem, Hno, Hfr.
  generalize dependent (VectorStore.upload_frames lib (S (recursion_left w0)) id "" "" w0).
  intros u Hr Henv Hrem. rewrite Hr. run_step.
  generalize dependent (VectorStore.deleteS3VectorstoreFor id w0). intros r1 Hno Hfr Hrem.
  assert (Hfile : forall name data, (name, File data) ∈ d ->
            remote (final u) !! upload_key id name "" = Some data).
  { intros name data Hin. rewrite Hrem.
    apply mirror_lookup_file; [by destruct Hflat|exact Hin]. }
  destruct (deleteLocalVectorStore_returns lib id (final u)) as (w2 & Hdel & Hdisk).
  rewrite Hdel. run_step.
  split; [reflexivity|].
  split; [exact (deleteLocalVectorStore_gone lib id (final u) w2 Hdel)|].
  rewrite (disk_only_same_remote _ _ Hdisk).
  split; [exact Hfile|]. split; [|split].
  - intros k v Hp Hk. rewrite Hrem in Hk.
    apply mirror_lookup_Some in Hk as [Hk|Hk]; [exact Hk|].
    rewrite (Hno k Hp) in Hk. discriminate.
  - intros k Hp. rewrite Hrem, mirror_lookup_other.
    + apply (Hfr k Hp).
    + intros name nd _ ->. by rewrite upload_key_under_prefix in Hp.
  - intros Hne. destruct d as [|[name nd] d']; [done|].
    destruct Hflat as [Hall Hnd]. pose proof Hall as Hall'.
    apply Forall_cons in Hall' as [[_ [data Hdata]] _]. cbn [snd] in Hdata. subst nd.
    assert (He2 : same_env w w2).
    { etransitivity; [exact He0|]. etransitivity; [exact Henv|].
      by apply disk_only_same_env. }
    rewrite check_first_attempt.
    + f_equal. apply (has_objects_lookup id _ (upload_key id name "") data).
      * rewrite (disk_only_same_remote _ _ Hdisk). apply Hfile. left.
      * apply upload_key_under_prefix.
    + by eapply initialised_same_env.
    + by apply (no_faults_same_env w w2).
Qed.

(** X15.  With the storage initialised, every remote call answered and
    the source files read by the loaders, building an index whose folder
    holds only files (plain names, no sub-folder) returns [True] and
    leaves the bucket a copy of that folder: each file is stored under
    [vectorstores/{id}/{name}], no other key starts with
    [vectorstores/{id}], every other object is as it was, and unless the
    folder was empty a [checkS3VectorStoreFor(id)] that follows returns
    [True].  When the id is one plain word the local folder is gone. *)
Theorem build_mirrors_flat_folder lib id files d w :
  initialised w -> no_faults w ->
  productKnowledgePool w !! id = Some files ->
  loads lib id files ->
  vectorStore (staged lib id files w) !! id = Some d ->
  flat d ->
  let r := VectorStore.buildS3VectorStoreFor lib id w in
  result r = Ok true ∧
  (shell_word id = true -> vectorStore (final r) !! id = None) ∧
  (forall name data, (name, File data) ∈ d ->
     remote (final r) !! upload_key id name "" = Some data) ∧
  (forall k v, Py.startswith k (VectorStore.prefix_of id) = true ->
     remote (final r) !! k = Some v ->
     exists name, (name, File v) ∈ d ∧ k = upload_key id name "") ∧
  (forall k, Py.startswith k (VectorStore.prefix_of id) = false ->
     remote (final r) !! k = remote w !! k) ∧
  (d ≠ [] -> result (VectorStore.checkS3VectorStoreFor id (final r)) = Ok true).
Proof. exact (build_flat lib id files d w). Qed.

(** [build_mirrors_flat_folder] for product [p1] and a healthy store. *)
Lemma build_mirrors_flat_folder_witness :
  let r := VectorStore.buildS3VectorStoreFor (Scenario.lib Scenario.flat_index)
             "p1" (Scenario.world Scenario.healthy) in
  result r = Ok true ∧
  (shell_word "p1" = true -> vectorStore (final r) !! "p1" = None) ∧
  (forall name data, (name, File data) ∈ Scenario.flat_index ->
     remote (final r) !! upload_key "p1" name "" = Some data) ∧
  (forall k v, Py.startswith k (VectorStore.prefix_of "p1") = true ->
     remote (final r) !! k = Some v ->
     exists name, (name, File v) ∈ Scenario.flat_index ∧ k = upload_key "p1" name "") ∧
  (forall k, Py.startswith k (VectorStore.prefix_of "p1") = false ->
     remote (final r) !! k = remote (Scenario.world Scenario.healthy) !! k) ∧
  (Scenario.flat_index ≠ [] ->
   result (VectorStore.checkS3VectorStoreFor "p1" (final r)) = Ok true).
Proof.
  apply (build_mirrors_flat_folder (Scenario.lib Scenario.flat_index) "p1"
           [("a.txt", "hello"); ("b.bin", "raw"); ("c.pdf", "pages")]
           Scenario.flat_index (Scenario.world Scenario.healthy)).
  - split; eexists; reflexivity.
  - intros n op. reflexivity.
  - vm_compute. reflexivity.
  - vm_compute. reflexivity.
  - vm_compute. reflexivity.
  - split; [repeat constructor; eexists; reflexivity|].
    apply (bool_decide_unpack _). vm_compute. exact I.
Defined.

(** ** A sub-folder in the index folder *)

Lemma contains_slash_app a b : contains_slash (a +:+ "/" +:+ b) = true.
Proof.
  induction a as [|c a IH]; [reflexivity|].
  change (contains_slash (String c (a +:+ "/" +:+ b)) = true).
  cbn [contains_slash]. rewrite IH. apply orb_true_r.
Qed.

Lemma upload_key_top_ne_sub id name sub name' :
  plain_name name = true -> plain_name sub = true ->
  upload_key id name "" ≠ upload_key id name' sub.
Proof.
  intros Hn Hs H. unfold upload_key in H. rewrite (plain_nonempty _ Hs) in H.
  change (Fs.nonempty "") with false in H. cbv iota in H.
  do 3 apply string_app_inj in H. subst name.
  unfold plain_name in Hn. rewrite contains_slash_app in Hn.
  by rewrite andb_false_r in Hn.
Qed.

(** The upload phase on an index folder that holds files, then one
    sub-folder of files, then files again, every call answered. *)
Lemma upload_frames_subfolder lib frames id before sub es after w :
  initialised w -> no_faults w ->
  vectorStore w !! id = Some (before ++ (sub, Dir es) :: after) ->
  flat before -> flat after -> flat es -> plain_name sub = true ->
  NoDup (before ++ (sub, Dir es) :: after).*1 ->
  let r := VectorStore.upload_frames lib (S (S frames)) id "" "" w in
  result r = Ok true ∧
  exists r0, no_objects id r0 ∧
    remote (final r) = mirror id "" after (mirror id sub es r0).
Proof.
  intros Hi Hf Hd Hbefore Hafter Hes Hsub Hnd. cbn zeta.
  set (d := before ++ (sub, Dir es) :: after) in *.
  assert (Hplain : Forall (fun e => plain_name e.1 = true) d).
  { apply Forall_app. split; [by apply flat_plain|].
    apply Forall_cons. split; [exact Hsub|by apply flat_plain]. }
  assert (Hin_sub : (sub, Dir es) ∈ d).
  { apply elem_of_app. right. left. }
  rewrite upload_frames_S, run_bind.
  destruct (delete_answered id w Hi Hf) as (Hr1 & Hloc1 & He1 & _ & _).
  cbn zeta in Hr1, Hloc1, He1.
  generalize dependent (VectorStore.deleteS3VectorstoreFor id w). intros r1.
  intros Hr1 Hloc1 He1. rewrite Hr1. run_step.
  assert (Hd1 : vectorStore (final r1) !! id = Some d) by (by rewrite Hloc1).
  assert (Hi1 : initialised (final r1)) by (by eapply initialised_same_env).
  assert (Hf1 : no_faults (final r1)) by (by eapply no_faults_same_env).
  rewrite run_bind. unfold os_listdir.
  rewrite (node_at_lookup id "" d (final r1) Hd1).
  change (Fs.walk (Fs.segments "") (Dir d)) with (Some (Dir d)). run_step.
  rewrite (listdir_plain d Hplain).
  assert (Hnames : d.*1 = before.*1 ++ sub :: after.*1)
    by (unfold d; by rewrite fmap_app, fmap_cons).
  rewrite Hnames.
  destruct (upload_each_files_then lib (VectorStore.upload_frames lib (S frames) id)
              id "" "" before (sub :: after.*1) (final r1) Hi1 Hf1)
    as (w1 & _ & Hloc2 & Henv2 & Hres2 & Hfin2).
  { intros name nd Hin. destruct (flat_file before name nd Hbefore Hin) as [Hp [data ->]].
    exists data. split; [reflexivity|]. split; [reflexivity|].
    apply (node_at_top_level id name (File data) d); [exact Hd1|exact Hnd|exact Hp|].
    apply elem_of_app. by left. }
  rewrite Hres2, Hfin2.
  assert (Hd2 : vectorStore w1 !! id = Some d) by (by rewrite Hloc2).
  assert (Hi2 : initialised w1) by (by eapply initialised_same_env).
  assert (Hf2 : no_faults w1) by (by eapply no_faults_same_env).
  assert (Hdir : Fs.node_at id sub w1 = Some (Dir es))
    by (by apply (node_at_top_level id sub (Dir es) d)).
  cbn [VectorStore.upload_each]. rewrite run_bind. unfold os_path_isdir, get.
  run_step. change (os_path_join "" sub) with sub. rewrite Hdir.
  change (if Fs.nonempty "" then "" +:+ "/" +:+ sub else sub) with sub.
  rewrite run_bind.
  destruct (upload_frames_files lib frames id sub sub es w1 Hi2 Hf2 Hdir)
    as (Hr3 & Hloc3 & Henv3 & Hrem3).
  { by apply flat_plain. }
  { intros name nd Hin. destruct (flat_file es name nd Hes Hin) as [Hp [data ->]].
    exists data. split; [reflexivity|]. split; [reflexivity|].
    unfold upload_source. rewrite (plain_nonempty _ Hsub).
    apply (node_at_in_subfolder id sub name (File data) d es);
      [exact Hd2|exact Hnd|exact Hin_sub|by destruct Hes|exact Hin|exact Hsub|exact Hp]. }
  destruct (delete_answered id w1 Hi2 Hf2) as (_ & _ & _ & Hno & _).
  cbn zeta in Hr3, Hloc3, Henv3, Hrem3, Hno.
  generalize dependent (VectorStore.deleteS3VectorstoreFor id w1). intros r0 Hrem3 Hno.
  generalize dependent (VectorStore.upload_frames lib (S frames) id sub sub w1).
  intros r3 Hr3 Hloc3 Henv3 Hrem3. rewrite Hr3. run_step.
  destruct (upload_each_files lib (VectorStore.upload_frames lib (S frames) id)
              id "" "" after (final r3)) as (Hr4 & Hrem4 & _ & _).
  { by eapply initialised_same_env. }
  { by eapply no_faults_same_env. }
  { intros name nd Hin. destruct (flat_file after name nd Hafter Hin) as [Hp [data ->]].
    exists data. split; [reflexivity|]. split; [reflexivity|].
    apply (node_at_top_level id name (File data) d);
      [by rewrite Hloc3|exact Hnd|exact Hp|].
    apply elem_of_app. right. by right. }
  cbn zeta in Hr4, Hrem4.
  split; [exact Hr4|]. exists (remote (final r0)). split; [exact Hno|].
  by rewrite Hrem4, Hrem3.
Qed.

(** X16.  When the index folder holds a sub-folder, as the folders Chroma
    writes do, the call of [__uploadS3VectorstoreFor] for that sub-folder
    starts by deleting every object of the id again.  With the source
    files read by the loaders and every remote call answered the build
    returns [True], yet the files listed before the sub-folder are missing
    from the bucket; the files of the sub-folder and the files listed
    after it are there. *)
Theorem build_with_subfolder_loses_earlier_files
    lib id files before sub es after w :
  initialised w -> no_faults w -> recursion_left w ≠ 0 ->
  productKnowledgePool w !! id = Some files ->
  loads lib id files ->
  vectorStore (staged lib id files w) !! id = Some (before ++ (sub, Dir es) :: after) ->
  flat before -> flat after -> flat es -> plain_name sub = true ->
  NoDup (before ++ (sub, Dir es) :: after).*1 ->
  let r := VectorStore.buildS3VectorStoreFor lib id w in
  result r = Ok true ∧
  (forall name data, (name, File data) ∈ before ->
     remote (final r) !! upload_key id name "" = None) ∧
  (forall name data, (name, File data) ∈ es ->
     remote (final r) !! upload_key id name sub = Some data) ∧
  (forall name data, (name, File data) ∈ after ->
     remote (final r) !! upload_key id name "" = Some data).
Proof.
  intros Hi Hf Hrec Hpool Hloads Hd Hbefore Hafter Hes Hsub Hnd. cbn zeta.
  rewrite build_run, Hpool. unfold loads in Hloads. rewrite Hloads.
  cbn zeta. rewrite upload_phase_unfold.
  set (w0 := staged lib id files w) in *.
  assert (He0 : same_env w w0) by apply same_env_staged.
  assert (Hi0 : initialised w0) by (by eapply initialised_same_env).
  assert (Hf0 : no_faults w0) by (by eapply no_faults_same_env).
  change (recursion_left w0) with (recursion_left w).
  destruct (recursion_left w) as [|frames]; [done|].
  destruct (upload_frames_subfolder lib frames id before sub es after w0
              Hi0 Hf0 Hd Hbefore Hafter Hes Hsub Hnd) as (Hr & r0 & Hno & Hrem).
  cbn zeta in Hr, Hrem.
  generalize dependent (VectorStore.upload_frames lib (S (S frames)) id "" "" w0).
  intros u Hr Hrem. rewrite Hr. run_step.
  destruct (deleteLocalVectorStore_returns lib id (final u)) as (w2 & Hdel & Hdisk).
  rewrite Hdel. run_step.
  split; [reflexivity|]. rewrite (disk_only_same_remote _ _ Hdisk), Hrem.
  rewrite fmap_app, fmap_cons in Hnd. cbn [fst] in Hnd.
  apply NoDup_app in Hnd as (Hnd_before & Hdisj & Hnd_rest).
  apply NoDup_cons in Hnd_rest as [Hsub_after Hnd_after].
  split; [|split].
  - intros name data Hin.
    destruct (flat_file before name _ Hbefore Hin) as [Hp _].
    rewrite mirror_lookup_other.
    + rewrite mirror_lookup_other.
      * apply Hno, upload_key_under_prefix.
      * intros name' nd' _. by apply upload_key_top_ne_sub.
    + intros name' nd' Hin' Heq. apply upload_key_inj in Heq as <-.
      apply (Hdisj name).
      * apply list_elem_of_fmap. by exists (name, File data).
      * right. apply list_elem_of_fmap. by exists (name, nd').
  - intros name data Hin. rewrite mirror_lookup_other.
    + apply mirror_lookup_file; [by destruct Hes|exact Hin].
    + intros name' nd' Hin' Heq. symmetry in Heq. revert Heq.
      destruct (flat_file after name' _ Hafter Hin') as [Hp _].
      by apply upload_key_top_ne_sub.
  - intros name data Hin. by apply mirror_lookup_file.
Qed.

(** [build_with_subfolder_loses_earlier_files] on the layout Chroma
    writes: the database file is missing after a build that returned
    [True]. *)
Lemma build_with_subfolder_loses_earlier_files_witness :
  let r := VectorStore.buildS3VectorStoreFor (Scenario.lib Scenario.nested_index)
             "p1" (Scenario.world Scenario.healthy) in
  result r = Ok true ∧
  (forall name data, (name, File data) ∈ [("chroma.sqlite3", File "db")] ->
     remote (final r) !! upload_key "p1" name "" = None) ∧
  (forall name data, (name, File data) ∈ [("data.bin", File "vectors")] ->
     remote (final r) !! upload_key "p1" name "segment" = Some data) ∧
  (forall name data, (name, File data) ∈ ([] : dir) ->
     remote (final r) !! upload_key "p1" name "" = Some data).
Proof.
  apply (build_with_subfolder_loses_earlier_files
           (Scenario.lib Scenario.nested_index) "p1"
           [("a.txt", "hello"); ("b.bin", "raw"); ("c.pdf", "pages")]
           [("chroma.sqlite3", File "db")] "segment"
           [("data.bin", File "vectors")] [] (Scenario.world Scenario.healthy)).
  - split; eexists; reflexivity.
  - intros n op. reflexivity.
  - discriminate.
  - vm_compute. reflexivity.
  - vm_compute. reflexivity.
  - vm_compute. reflexivity.
  - split; [repeat constructor; eexists; reflexivity|].
    apply (bool_decide_unpack _). vm_compute. exact I.
  - split; [constructor|constructor].
  - split; [repeat constructor; eexists; reflexivity|].
    apply (bool_decide_unpack _). vm_compute. exact I.
  - reflexivity.
  - apply (bool_decide_unpack _). vm_compute. exact I.
Defined.

(** ** What a download puts in the local folder *)

Lemma assoc_put k k' n (es : dir) :
  Fs.assoc k (Fs.put k' n es) = if String.eqb k k' then Some n else Fs.assoc k es.
Proof.
  induction es as [|[k0 n0] es IH]; cbn [Fs.put Fs.assoc].
  - reflexivity.
  - destruct (String.eqb_spec k' k0) as [->|Hne]; cbn [Fs.assoc].
    + destruct (String.eqb k k0); reflexivity.
    + rewrite IH. destruct (String.eqb_spec k k0) as [->|_]; [|reflexivity].
      destruct (String.eqb_spec k0 k') as [->|_]; [done|reflexivity].
Qed.

Lemma files_only_put name data (es : dir) :
  files_only es -> files_only (Fs.put name (File data) es).
Proof.
  intros H. induction H as [|[k0 n0] es H0 Hes IH]; cbn [Fs.put].
  - repeat constructor. by eexists.
  - destruct (String.eqb name k0).
    + constructor; [by eexists|assumption].
    + constructor; assumption.
Qed.

Lemma files_only_assoc name (es : dir) :
  files_only es -> forall sub, Fs.assoc name es ≠ Some (Dir sub).
Proof.
  intros H sub. induction H as [|[k0 n0] es [data H0] _ IH]; cbn [Fs.assoc];
    [discriminate|].
  cbn [snd] in H0. subst n0. destruct (String.eqb name k0); [discriminate|exact IH].
Qed.

Lemma split_object_key id name :
  plain_name id = true -> plain_name name = true ->
  Py.split "/"%char (object_key id name) = ["vectorstores"; id; name].
Proof.
  unfold plain_name. intros Hi Hn.
  apply andb_true_iff in Hi as [_ Hi]. apply negb_true_iff in Hi.
  apply andb_true_iff in Hn as [_ Hn]. apply negb_true_iff in Hn.
  unfold Py.split, object_key.
  change ("vectorstores/" +:+ id +:+ "/" +:+ name)
    with ("vectorstores" +:+ "/" +:+ (id +:+ "/" +:+ name)).
  rewrite (split_from_segment "vectorstores" _ "" eq_refl).
  rewrite (split_from_segment id name "" Hi).
  by rewrite (split_from_no_separator name "" Hn).
Qed.

Lemma segments_slash_name name :
  plain_name name = true -> Fs.segments ("" +:+ "/" +:+ name) = [name].
Proof.
  intros Hp. pose proof Hp as Hp'. unfold plain_name in Hp'.
  apply andb_true_iff in Hp' as [Hne Hn]. apply negb_true_iff in Hn.
  unfold Fs.segments, Py.split.
  rewrite (split_from_segment "" name "" eq_refl).
  rewrite (split_from_no_separator name "" Hn).
  change ("" +:+ name) with name. change ("" +:+ "") with "".
  cbn [List.filter]. change (Fs.nonempty "") with false. by rewrite Hne.
Qed.

Lemma mkdir_p_root lib id w :
  shell_word id = true ->
  mkdir_p lib id "" w =
  mkRun (Ok tt)
    (set_vectorStore (<[id := default [] (vectorStore w !! id)]> (vectorStore w)) w) [].
Proof. intros Hid. unfold mkdir_p. rewrite Hid. reflexivity. Qed.

Lemma shell_literal_not_slash c :
  shell_literal c = true -> Ascii.eqb c "/"%char = false.
Proof.
  destruct c as [[] [] [] [] [] [] [] []]; vm_compute; congruence.
Qed.

Lemma all_literal_no_slash s : all_literal s = true -> contains_slash s = false.
Proof.
  induction s as [|c s IH]; [reflexivity|]. cbn [all_literal contains_slash].
  intros H. apply andb_true_iff in H as [Hc Hs].
  by rewrite (shell_literal_not_slash c Hc), (IH Hs).
Qed.

(** A plain word is a name a directory can hold. *)
Lemma shell_word_plain s : shell_word s = true -> plain_name s = true.
Proof.
  unfold shell_word, plain_name. intros H.
  apply andb_true_iff in H as [H _]. apply andb_true_iff in H as [H _].
  apply andb_true_iff in H as [Hn Hl].
  by rewrite Hn, (all_literal_no_slash s Hl).
Qed.

(** One round of the download loop for a two-component key, the call
    answered, the folder holding only files. *)
Lemma download_round lib id id' name data d w :
  shell_word id = true ->
  no_faults w ->
  plain_name id' = true -> plain_name name = true ->
  remote w !! object_key id' name = Some data ->
  default [] (vectorStore w !! id) = d -> files_only d ->
  exists w1,
    (forall rest,
       VectorStore.download_each lib id (object_key id' name :: rest) w =
       mkRun (result (VectorStore.download_each lib id rest w1))
             (final (VectorStore.download_each lib id rest w1))
             (Call (DownloadFile (object_key id' name)
                      (Fs.local_path id ("" +:+ "/" +:+ name))) true
                :: events (VectorStore.download_each lib id rest w1))) ∧
    remote w1 = remote w ∧ same_env w w1 ∧
    vectorStore w1 !! id = Some (Fs.put name (File data) d) ∧
    (forall i, i ≠ id -> vectorStore w1 !! i = vectorStore w !! i).
Proof.
  intros Hid Hf Hi' Hn Hk Hd Hfiles.
  set (w0 := set_vectorStore (<[id := d]> (vectorStore w)) w).
  assert (Hk0 : remote w0 !! object_key id' name = Some data) by exact Hk.
  assert (Hd0 : vectorStore w0 !! id = Some d) by apply lookup_insert_eq.
  assert (Hw : Fs.write [name] data d = Some (Fs.put name (File data) d)).
  { cbn [Fs.write]. destruct (Fs.assoc name d) as [[?|sub]|] eqn:Ha; try reflexivity.
    by apply files_only_assoc in Ha. }
  assert (Hf0 : faults w0 (calls w0)
            (DownloadFile (object_key id' name) (Fs.local_path id ("" +:+ "/" +:+ name)))
            = false) by apply Hf.
  exists (set_vectorStore (<[id := Fs.put name (File data) d]> (vectorStore w0)) (tick w0)).
  split; [|split; [reflexivity|split; [repeat split|split]]].
  - intros rest. cbn [VectorStore.download_each].
    rewrite (split_object_key id' name Hi' Hn).
    change (Py.last_item ["vectorstores"; id'; name]) with name.
    change (Py.join "/" (Py.slice_2_m1 ["vectorstores"; id'; name])) with "".
    change (Fs.nonempty "") with false. cbv iota.
    rewrite run_bind, (mkdir_p_root lib id w Hid). run_step. rewrite Hd. fold w0.
    rewrite run_bind. unfold download_file.
    unfold dir in *. rewrite Hk0, Hd0, (segments_slash_name name Hn).
    rewrite Hw. unfold remote_call. rewrite Hf0. run_step. reflexivity.
  - cbn [vectorStore set_vectorStore tick w0]. apply lookup_insert_eq.
  - intros i Hne. cbn [vectorStore set_vectorStore tick w0].
    by rewrite !lookup_insert_ne.
Qed.

(** The download loop over two-component keys that are in the bucket,
    every call answered, starting from a folder that holds only files. *)
Lemma download_each_lands lib id (ks : list string) : shell_word id = true -> forall w,
  no_faults w ->
  (forall k, k ∈ ks ->
     exists id' name data, plain_name id' = true ∧ plain_name name = true ∧
       k = object_key id' name ∧ remote w !! k = Some data) ->
  files_only (default [] (vectorStore w !! id)) ->
  let r := VectorStore.download_each lib id ks w in
  result r = Ok tt ∧
  remote (final r) = remote w ∧
  same_env w (final r) ∧
  (ks ≠ [] ->
   vectorStore (final r) !! id =
     Some (landing (remote w) (default [] (vectorStore w !! id)) ks)) ∧
  (forall i, i ≠ id -> vectorStore (final r) !! i = vectorStore w !! i).
Proof.
  intros Hid. induction ks as [|k ks IH]; intros w Hf Hks Hfiles; cbn zeta.
  - cbn [VectorStore.download_each]. unfold ret. run_step. by repeat split.
  - destruct (Hks k) as (id' & name & data & Hi' & Hn & -> & Hk); [left|].
    destruct (download_round lib id id' name data _ w Hid Hf Hi' Hn Hk eq_refl Hfiles)
      as (w1 & Hrun & Hrem1 & Henv1 & Hloc1 & Hoth1).
    rewrite Hrun. run_step.
    destruct (IH w1) as (Hr & Hrem & Henv & Hloc & Hoth).
    + by eapply no_faults_same_env.
    + intros k' Hin. destruct (Hks k') as (i2 & n2 & d2 & ? & ? & ? & ?); [by right|].
      exists i2, n2, d2. rewrite Hrem1. by repeat split.
    + unfold dir in *. rewrite Hloc1. cbn [default]. by apply files_only_put.
    + cbn zeta in Hr, Hrem, Henv, Hloc, Hoth.
      split; [exact Hr|]. split; [congruence|]. split.
      * destruct Henv1 as (?&?&?), Henv as (?&?&?). repeat split; congruence.
      * split.
        -- intros _. unfold landing. cbn [foldl]. fold (landing (remote w)).
           rewrite (split_object_key id' name Hi' Hn).
           change (Py.last_item ["vectorstores"; id'; name]) with name.
           unfold dir in *. rewrite Hk. cbn [default].
           destruct ks as [|k2 ks2].
           ++ cbn [VectorStore.download_each]. unfold ret. run_step.
              cbn [landing foldl]. exact Hloc1.
           ++ rewrite Hloc by discriminate. rewrite Hloc1, Hrem1. reflexivity.
        -- intros i Hne. rewrite (Hoth i Hne). by apply Hoth1.
Qed.

Lemma landing_cons r d k ks :
  landing r d (k :: ks) =
  landing r (Fs.put (Py.last_item (Py.split "/"%char k))
               (File (default "" (r !! k))) d) ks.
Proof. reflexivity. Qed.

Lemma landing_assoc_other r ks : forall d name,
  (forall k, k ∈ ks -> Py.last_item (Py.split "/"%char k) ≠ name) ->
  Fs.assoc name (landing r d ks) = Fs.assoc name d.
Proof.
  induction ks as [|k ks IH]; intros d name Hks; [reflexivity|].
  rewrite landing_cons.
  rewrite IH by (intros k' Hin; apply Hks; by right).
  rewrite assoc_put.
  destruct (String.eqb_spec name (Py.last_item (Py.split "/"%char k))) as [->|_];
    [|reflexivity].
  exfalso. apply (Hks k); [left|reflexivity].
Qed.

Lemma landing_assoc r ks : forall d k,
  k ∈ ks ->
  (forall k', k' ∈ ks ->
     Py.last_item (Py.split "/"%char k') = Py.last_item (Py.split "/"%char k) ->
     k' = k) ->
  Fs.assoc (Py.last_item (Py.split "/"%char k)) (landing r d ks) =
  Some (File (default "" (r !! k))).
Proof.
  induction ks as [|k0 ks IH]; intros d k Hin Huniq; [by apply elem_of_nil in Hin|].
  rewrite landing_cons.
  destruct (decide (k ∈ ks)) as [Hk|Hk].
  - apply IH; [exact Hk|]. intros k' Hin'. apply Huniq. by right.
  - apply elem_of_cons in Hin as [->|Hin]; [|done].
    rewrite landing_assoc_other.
    + rewrite assoc_put. by rewrite String.eqb_refl.
    + intros k' Hin' Heq. apply Hk. rewrite <- (Huniq k'); [exact Hin'|by right|exact Heq].
Qed.

Lemma same_env_trans w1 w2 w3 : same_env w1 w2 -> same_env w2 w3 -> same_env w1 w3.
Proof. intros (?&?&?) (?&?&?). repeat split; congruence. Qed.

(** What a download does when every call is answered and every key under
    the prefix has two components. *)
Lemma download_lands lib id w :
  shell_word id = true ->
  initialised w -> no_faults w ->
  (forall k, is_Some (remote w !! k) ->
     Py.startswith k (VectorStore.prefix_of id) = true ->
     exists id' name, plain_name id' = true ∧ plain_name name = true ∧
                      k = object_key id' name) ->
  let r := VectorStore.__downloadS3VectorstoreFor lib id w in
  result r = Ok (has_objects id (remote w)) ∧
  remote (final r) = remote w ∧
  (forall i, i ≠ id -> vectorStore (final r) !! i = vectorStore w !! i) ∧
  (forall id' name data,
     plain_name id' = true -> plain_name name = true ->
     Py.startswith (object_key id' name) (VectorStore.prefix_of id) = true ->
     remote w !! object_key id' name = Some data ->
     (forall id'', plain_name id'' = true ->
        Py.startswith (object_key id'' name) (VectorStore.prefix_of id) = true ->
        is_Some (remote w !! object_key id'' name) -> id'' = id') ->
     Fs.node_at id name (final r) = Some (File data)).
Proof.
  intros Hid Hi Hf Hshape. cbn zeta. unfold VectorStore.__downloadS3VectorstoreFor.
  rewrite (run_bind_ok _ _ _ _ _ _ (checkS3init_ok w Hi)). run_step.
  rewrite (run_bind_ok _ _ _ _ _ _ (deleteLocalVectorStore_run lib id w Hid)). run_step.
  set (w0 := set_vectorStore (delete id (vectorStore w)) w).
  assert (Hf0 : no_faults w0) by exact Hf.
  assert (Hlist : list_objects (VectorStore.prefix_of id) w0 =
            mkRun (Ok (keys_with_prefix (VectorStore.prefix_of id) (remote w)))
                  (tick w0) [Call (ListObjects (VectorStore.prefix_of id)) true]).
  { rewrite list_objects_run. by rewrite (Hf0 (calls w0)). }
  unfold has_objects.
  destruct (keys_with_prefix (VectorStore.prefix_of id) (remote w)) as [|k0 ks] eqn:Hks.
  - rewrite (for_retry_returned 2 _ _ w0 false (tick w0)
               [Call (ListObjects (VectorStore.prefix_of id)) true]).
    + run_step. split; [reflexivity|]. split; [reflexivity|]. split.
      * intros i Hne. cbn [vectorStore tick w0 set_vectorStore].
        by apply lookup_delete_ne.
      * intros id' name data _ _ Hp Hk.
        apply keys_with_prefix_nil in Hks. rewrite (Hks _ Hp) in Hk. discriminate.
    + rewrite run_bind, Hlist. reflexivity.
  - assert (Hloop := download_each_lands lib id (k0 :: ks) Hid (tick w0)).
    destruct Hloop as (Hr & Hrem & Henv & Hloc & Hoth).
    + exact Hf.
    + intros k Hin. rewrite <- Hks in Hin.
      apply elem_of_keys_with_prefix in Hin as [[data Hk] Hp].
      destruct (Hshape k (ex_intro _ data Hk) Hp) as (id' & name & ? & ? & ->).
      exists id', name, data. by repeat split.
    + cbn [vectorStore tick w0 set_vectorStore]. rewrite lookup_delete_eq.
      constructor.
    + cbn zeta in Hr, Hrem, Henv, Hloc, Hoth.
      assert (Hbody :
        (res ← list_objects (VectorStore.prefix_of id);
         match res with
         | [] => ret false
         | _ => VectorStore.download_each lib id res ;; ret true
         end) w0 =
        mkRun (Ok true) (final (VectorStore.download_each lib id (k0 :: ks) (tick w0)))
          (Call (ListObjects (VectorStore.prefix_of id)) true ::
           events (VectorStore.download_each lib id (k0 :: ks) (tick w0)) ++ [])).
      { rewrite run_bind, Hlist. run_step. rewrite run_bind, Hr. reflexivity. }
      rewrite (for_retry_returned 2 _ _ w0 _ _ _ Hbody). run_step.
      generalize dependent (VectorStore.download_each lib id (k0 :: ks) (tick w0)).
      intros r1 Hr Hrem Henv Hloc Hoth _.
      split; [reflexivity|]. split; [exact Hrem|]. split.
      * intros i Hne. rewrite (Hoth i Hne). cbn [vectorStore tick w0 set_vectorStore].
        by apply lookup_delete_ne.
      * intros id' name data Hi' Hn Hp Hk Huniq.
        specialize (Hloc ltac:(discriminate)).
        rewrite (node_at_lookup id name _ (final r1) Hloc).
        rewrite (segments_plain name Hn). cbn [Fs.walk].
        assert (Hname : Py.last_item (Py.split "/"%char (object_key id' name)) = name)
          by (by rewrite (split_object_key id' name Hi' Hn)).
        cbn [remote tick w0 set_vectorStore].
        rewrite <- Hname at 1. rewrite landing_assoc.
        -- by rewrite Hk.
        -- rewrite <- Hks. apply elem_of_keys_with_prefix. split; [by eexists|exact Hp].
        -- intros k' Hin' Heq. rewrite <- Hks in Hin'.
           apply elem_of_keys_with_prefix in Hin' as [Hsome Hp'].
           destruct (Hshape k' Hsome Hp') as (id2 & name2 & Hi2 & Hn2 & ->).
           rewrite (split_object_key id2 name2 Hi2 Hn2), Hname in Heq.
           change (Py.last_item ["vectorstores"; id2; name2]) with name2 in Heq.
           subst name2. by rewrite (Huniq id2 Hi2 Hp' Hsome).
Qed.



Lemma object_key_inj a b a' b' :
  plain_name a = true -> plain_name b = true ->
  plain_name a' = true -> plain_name b' = true ->
  object_key a b = object_key a' b' -> a = a' ∧ b = b'.
Proof.
  intros Ha Hb Ha' Hb' H. apply (f_equal (Py.split "/"%char)) in H.
  rewrite (split_object_key a b Ha Hb), (split_object_key a' b' Ha' Hb') in H.
  by injection H.
Qed.

(** What a download finds after a build of a folder of files. *)
Lemma build_then_download lib id files d w :
  initialised w -> no_faults w -> shell_word id = true ->
  productKnowledgePool w !! id = Some files ->
  loads lib id files ->
  vectorStore (staged lib id files w) !! id = Some d ->
  flat d -> d ≠ [] ->
  let built := final (VectorStore.buildS3VectorStoreFor lib id w) in
  let r := VectorStore.__downloadS3VectorstoreFor lib id built in
  result r = Ok true ∧
  remote (final r) = remote built ∧
  (forall name data, (name, File data) ∈ d ->
     Fs.node_at id name (final r) = Some (File data)).
Proof.
  intros Hi Hf Hword Hpool Hloads Hd Hflat Hne. cbn zeta.
  pose proof (shell_word_plain id Hword) as Hid.
  destruct (build_flat lib id files d w Hi Hf Hpool Hloads Hd Hflat)
    as (_ & _ & Hfile & Honly & _ & _).
  cbn zeta in Hfile, Honly.
  pose proof (same_env_build lib id w) as Henv.
  generalize dependent (final (VectorStore.buildS3VectorStoreFor lib id w)).
  intros built Hfile Honly Henv.
  assert (Hib : initialised built) by (by eapply initialised_same_env).
  assert (Hfb : no_faults built) by (by eapply no_faults_same_env).
  destruct (download_lands lib id built Hword Hib Hfb) as (Hr & Hrem & _ & Hland).
  { intros k [v Hk] Hp. destruct (Honly k v Hp Hk) as (name & Hin & ->).
    destruct (flat_file d name _ Hflat Hin) as [Hn _].
    exists id, name. by repeat split. }
  cbn zeta in Hr, Hrem, Hland.
  generalize dependent (VectorStore.__downloadS3VectorstoreFor lib id built).
  intros r Hr Hrem Hland.
  split; [|split; [exact Hrem|]].
  - rewrite Hr. f_equal. destruct d as [|[name nd] d']; [done|].
    destruct (flat_file _ name nd Hflat ltac:(left)) as [_ [data ->]].
    apply (has_objects_lookup id _ (upload_key id name "") data).
    + apply Hfile. left.
    + apply upload_key_under_prefix.
  - intros name data Hin.
    destruct (flat_file d name _ Hflat Hin) as [Hn _].
    apply (Hland id name data Hid Hn).
    + apply (upload_key_under_prefix id name "").
    + by apply Hfile.
    + intros id2 Hi2 Hp [v Hk]. destruct (Honly _ v Hp Hk) as (name2 & Hin2 & Heq).
      destruct (flat_file d name2 _ Hflat Hin2) as [Hn2 _].
      by destruct (object_key_inj id2 name id name2 Hi2 Hn Hid Hn2 Heq).
Qed.

(** X18.  Build, then download, for an id that is one plain word, with
    the source files read by the loaders and every remote call answered:
    for an index folder that holds only files, the download returns
    [True], leaves the bucket as the build left it, and every file of the
    folder is back in [./vectorStore/{id}] with its content. *)
Theorem build_then_download_restores_files lib id files d w :
  initialised w -> no_faults w -> shell_word id = true ->
  productKnowledgePool w !! id = Some files ->
  loads lib id files ->
  vectorStore (staged lib id files w) !! id = Some d ->
  flat d -> d ≠ [] ->
  let built := final (VectorStore.buildS3VectorStoreFor lib id w) in
  let r := VectorStore.__downloadS3VectorstoreFor lib id built in
  result r = Ok true ∧
  remote (final r) = remote built ∧
  (forall name data, (name, File data) ∈ d ->
     Fs.node_at id name (final r) = Some (File data)).
Proof. exact (build_then_download lib id files d w). Qed.

(** [build_then_download_restores_files] for product [p1]. *)
Lemma build_then_download_restores_files_witness :
  let built := final (VectorStore.buildS3VectorStoreFor
                        (Scenario.lib Scenario.flat_index) "p1"
                        (Scenario.world Scenario.healthy)) in
  let r := VectorStore.__downloadS3VectorstoreFor (Scenario.lib Scenario.flat_index)
             "p1" built in
  result r = Ok true ∧
  remote (final r) = remote built ∧
  (forall name data, (name, File data) ∈ Scenario.flat_index ->
     Fs.node_at "p1" name (final r) = Some (File data)).
Proof.
  apply (build_then_download_restores_files (Scenario.lib Scenario.flat_index) "p1"
           [("a.txt", "hello"); ("b.bin", "raw"); ("c.pdf", "pages")]
           Scenario.flat_index (Scenario.world Scenario.healthy)).
  - split; eexists; reflexivity.
  - intros n op. reflexivity.
  - reflexivity.
  - vm_compute. reflexivity.
  - vm_compute. reflexivity.
  - vm_compute. reflexivity.
  - split; [repeat constructor; eexists; reflexivity|].
    apply (bool_decide_unpack _). vm_compute. exact I.
  - discriminate.
Defined.

(** ** The local folder after a build *)

Lemma build_returned_loaded lib id w b :
  result (VectorStore.buildS3VectorStoreFor lib id w) = Ok b ->
  exists files, productKnowledgePool w !! id = Some files ∧ loads lib id files.
Proof.
  rewrite build_run.
  destruct (productKnowledgePool w !! id) as [files|]; [|discriminate].
  destruct (first_unparsed lib _ files) eqn:Hl; [discriminate|].
  intros _. by exists files.
Qed.

(** X20.  For an id that is one plain word, whenever
    [buildS3VectorStoreFor(id)] returns, [True] or [False], the folder
    [./vectorStore/{id}] that its first step [__buildLocalVectorStoreFor]
    wrote is on disk after that step and gone at the end. *)
Theorem returned_build_removes_staged_folder lib id w b :
  shell_word id = true ->
  result (VectorStore.buildS3VectorStoreFor lib id w) = Ok b ->
  let made := VectorStore.__buildLocalVectorStoreFor lib id w in
  result made = Ok (mkChroma (Fs.local_path id "")) ∧
  is_Some (vectorStore (final made) !! id) ∧
  vectorStore (final (VectorStore.buildS3VectorStoreFor lib id w)) !! id = None.
Proof.
  intros Hid Hb. cbn zeta.
  destruct (build_returned_loaded lib id w b Hb) as (files & Hpool & Hloads).
  rewrite buildLocalVectorStoreFor_run, Hpool. unfold loads in Hloads.
  rewrite Hloads. run_step. split; [reflexivity|]. split.
  - unfold staged. cbn [vectorStore set_vectorStore].
    rewrite lookup_insert_eq. eauto.
  - by apply (build_returns_local_gone lib id w b).
Qed.

(** [returned_build_removes_staged_folder] for product [p1] and a healthy
    store: the build returns [True]. *)
Lemma returned_build_removes_staged_folder_witness :
  let lib := Scenario.lib Scenario.flat_index in
  let w := Scenario.world Scenario.healthy in
  result (VectorStore.buildS3VectorStoreFor lib "p1" w) = Ok true ∧
  vectorStore (final (VectorStore.__buildLocalVectorStoreFor lib "p1" w)) !! "p1" =
    Some Scenario.flat_index ∧
  vectorStore (final (VectorStore.buildS3VectorStoreFor lib "p1" w)) !! "p1" = None.
Proof.
  cbn zeta.
  destruct (returned_build_removes_staged_folder (Scenario.lib Scenario.flat_index)
              "p1" (Scenario.world Scenario.healthy) true) as (_ & _ & Hgone).
  - reflexivity.
  - vm_compute. reflexivity.
  - split; [vm_compute; reflexivity|]. split; [vm_compute; reflexivity|exact Hgone].
Defined.

(** ** The further properties on concrete worlds *)

(** [never_built_is_absent] for product [p2], of which the bucket holds
    nothing, with the store answering. *)
Lemma never_built_is_absent_witness :
  result (VectorStore.checkS3VectorStoreFor "p2" (Scenario.world Scenario.healthy)) =
    Ok false ∧
  result (VectorStore.getS3VectorStoreFor (Scenario.lib Scenario.flat_index) "p2"
            (Scenario.world Scenario.healthy)) = Ok None.
Proof.
  apply never_built_is_absent.
  - split; eexists; reflexivity.
  - apply keys_with_prefix_nil. vm_compute. reflexivity.
Defined.

(** [check_answers] for product [p1] and a healthy store. *)
Lemma check_answers_witness :
  result (VectorStore.checkS3VectorStoreFor "p1" (Scenario.world Scenario.healthy)) =
  Ok (negb (three_listings_fail "p1" (Scenario.world Scenario.healthy)) &&
      has_objects "p1" (remote (Scenario.world Scenario.healthy))).
Proof. apply check_answers. split; eexists; reflexivity. Defined.

(** [delete_is_authoritative] for product [p1] and a healthy store. *)
Lemma delete_is_authoritative_witness :
  let r := VectorStore.deleteS3VectorstoreFor "p1" (Scenario.world Scenario.healthy) in
  result r = Ok true ∧
  (forall k, remote (final r) !! k =
             if Py.startswith k (VectorStore.prefix_of "p1") then None
             else remote (Scenario.world Scenario.healthy) !! k) ∧
  result (VectorStore.checkS3VectorStoreFor "p1" (final r)) = Ok false.
Proof. apply delete_is_authoritative. 
  split; [split; eexists; reflexivity|].
  intros n op H. vm_compute in H. discriminate. Defined.

(** [delete_absent_is_noop] for product [p2], which has no object, with
    the store down. *)
Lemma delete_absent_is_noop_witness :
  let r := VectorStore.deleteS3VectorstoreFor "p2" (Scenario.world Scenario.down) in
  result r = Ok (negb (three_listings_fail "p2" (Scenario.world Scenario.down))) ∧
  remote (final r) = remote (Scenario.world Scenario.down).
Proof.
  apply delete_absent_is_noop.
  - split; eexists; reflexivity.
  - apply keys_with_prefix_nil. vm_compute. reflexivity.
Defined.

(** [check_confuses_longer_ids]: the object of [p1] answers for [p]. *)
Lemma check_confuses_longer_ids_witness :
  result (VectorStore.checkS3VectorStoreFor "p" (Scenario.world Scenario.healthy)) =
  Ok true.
Proof.
  apply (check_confuses_longer_ids "p" "1" "old.bin" "old vectors").
  - split; eexists; reflexivity.
  - reflexivity.
  - vm_compute. reflexivity.
Defined.

(** [delete_takes_longer_ids_along]: deleting [p] removes the object of [p1]. *)
Lemma delete_takes_longer_ids_along_witness :
  remote (final (VectorStore.deleteS3VectorstoreFor "p"
                   (Scenario.world Scenario.healthy)))
    !! ("vectorstores/" +:+ ("p" +:+ "1") +:+ "/" +:+ "old.bin") = None.
Proof. apply delete_takes_longer_ids_along. 
  split; [split; eexists; reflexivity|].
  intros n op H. vm_compute in H. discriminate. Defined.

(** [upload_file_all_or_nothing] for a file that is not there. *)
Lemma upload_file_all_or_nothing_witness :
  let r := VectorStore.__upload_file "p1" "data.bin" ""
             (Scenario.world Scenario.healthy) in
  match result r with
  | Ok true =>
      exists data,
        Fs.node_at "p1" (upload_source "data.bin" "") (Scenario.world Scenario.healthy)
          = Some (File data) ∧
        remote (final r) =
          <[upload_key "p1" "data.bin" "" := data]>
            (remote (Scenario.world Scenario.healthy))
  | Ok false => remote (final r) = remote (Scenario.world Scenario.healthy)
  | Raise _ => False
  end ∧
  vectorStore (final r) = vectorStore (Scenario.world Scenario.healthy).
Proof. apply upload_file_all_or_nothing. split; eexists; reflexivity. Defined.

(** [failed_download_leaves_no_local_copy] with the store down and a
    copy of [p1] on disk from an earlier download: the download returns
    [False] and the copy is gone. *)
Lemma failed_download_leaves_no_local_copy_witness :
  let w := set_vectorStore {[ "p1" := Scenario.flat_index ]}
             (Scenario.world Scenario.down) in
  let r := VectorStore.__downloadS3VectorstoreFor (Scenario.lib Scenario.flat_index)
             "p1" w in
  vectorStore w !! "p1" = Some Scenario.flat_index ∧
  result r = Ok false ∧
  remote (final r) = remote w ∧
  vectorStore (final r) !! "p1" = None.
Proof.
  cbn zeta.
  destruct (failed_download_leaves_no_local_copy (Scenario.lib Scenario.flat_index)
              "p1" (set_vectorStore {[ "p1" := Scenario.flat_index ]}
                      (Scenario.world Scenario.down)))
    as [Hrem Hgone].
  - split; eexists; reflexivity.
  - assert (Hres : result (VectorStore.__downloadS3VectorstoreFor
                             (Scenario.lib Scenario.flat_index) "p1"
                             (set_vectorStore {[ "p1" := Scenario.flat_index ]}
                                (Scenario.world Scenario.down))) = Ok false)
      by (vm_compute; reflexivity).
    split; [vm_compute; reflexivity|]. split; [exact Hres|].
    split; [exact Hrem|]. apply Hgone; [reflexivity|exact Hres].
Defined.


(** [build_without_pool_changes_nothing] for product [p2], which has no
    source folder. *)
Lemma build_without_pool_changes_nothing_witness :
  VectorStore.buildS3VectorStoreFor (Scenario.lib Scenario.flat_index) "p2"
    (Scenario.world Scenario.healthy) =
  mkRun (Raise (PoolNotFound "p2")) (Scenario.world Scenario.healthy) [].
Proof. apply build_without_pool_changes_nothing. vm_compute. reflexivity. Defined.

(** [build_before_init_leaves_staged_folder] in a process that has a
    source folder for [p1] and has not called [initS3Storage]. *)
Lemma build_before_init_leaves_staged_folder_witness :
  let w := mkWorld None None None ∅ ∅ {[ "p1" := [("a.txt", "hello")] ]}
             Scenario.healthy 0 1000 in
  let r := VectorStore.buildS3VectorStoreFor (Scenario.lib Scenario.flat_index)
             "p1" w in
  r = mkRun (Raise S3NotInitialized)
        (staged (Scenario.lib Scenario.flat_index) "p1" [("a.txt", "hello")] w) [] ∧
  is_Some (vectorStore (final r) !! "p1") ∧
  remote (final r) = remote w.
Proof.
  intros w. apply build_before_init_leaves_staged_folder.
  - left. reflexivity.
  - vm_compute. reflexivity.
  - vm_compute. reflexivity.
Defined.

(** [get_outcomes] for product [p1] and a healthy store: the object of
    the earlier build is downloaded and the store opened on it. *)
Lemma get_outcomes_witness :
  let w := Scenario.world Scenario.healthy in
  let r := VectorStore.getS3VectorStoreFor (Scenario.lib Scenario.flat_index) "p1" w in
  result r = Ok (Some (mkChroma "./vectorStore/p1")) ∧
  remote (final r) = remote w ∧
  vectorStore (final r) !! "p1" = Some [("old.bin", File "old vectors")].
Proof.
  cbn zeta.
  destruct (get_outcomes (Scenario.lib Scenario.flat_index) "p1"
              (Scenario.world Scenario.healthy)) as [Hrem Hcase].
  - split; eexists; reflexivity.
  - assert (Hres : result (VectorStore.getS3VectorStoreFor
                             (Scenario.lib Scenario.flat_index) "p1"
                             (Scenario.world Scenario.healthy)) =
                   Ok (Some (mkChroma "./vectorStore/p1")))
      by (vm_compute; reflexivity).
    split; [exact Hres|]. split; [exact Hrem|]. vm_compute. reflexivity.
Defined.
